(** * Campaign optimization engine: site exclusion, keys, merge and
      null filter, segmentation, discard policy, daily-cap advisor, bid
      optimizer, run summary and column helper of [optimizer.py], and
      the default columns of [app.py].

    Numbers.  The engine computes on Python floats.  Two embeddings are
    used.  Where a property rests on the order of the tests, on the
    branch taken, on labels or on counts, amounts and ratios are exact
    rationals ([Q]) and counts ([installs], [preloads]) integers ([Z]);
    a pandas cell that the code guards with [pd.notna] is an [option].
    Where the value computed decides (which side of a band a score
    falls on, which cent an amount rounds to), the functions are
    embedded once more in the module [Binary64], on IEEE 754 binary64
    numbers with their rounding, infinities and NaN.  In both, a
    division is checked, because Python raises [ZeroDivisionError]
    where the division of Rocq returns a number. *)

From Stdlib Require Import QArith Qround Lqa ZArith Lia Bool List.
From Stdlib Require Import String Ascii DecimalString DecimalPos DecimalZ.
From Stdlib Require Import Floats.
Import ListNotations.

Set Warnings "-inexact-float".

Local Open Scope Q_scope.

(** ** Exceptions and results *)

Inductive exn : Type :=
| ZeroDivisionError
| TypeError (msg : string)
| ValueError
| OverflowError
| AttributeError.

Inductive result (A : Type) : Type :=
| Ok (a : A)
| Raise (e : exn).

Arguments Ok {A} a.
Arguments Raise {A} e.

Definition bind {A B : Type} (m : result A) (k : A -> result B) : result B :=
  match m with
  | Ok a => k a
  | Raise e => Raise e
  end.

Notation "x <- m ;; k" := (bind m (fun x => k))
  (at level 61, m at next level, right associativity).

Fixpoint mapM {A B : Type} (f : A -> result B) (l : list A) : result (list B) :=
  match l with
  | [] => Ok []
  | a :: l' => b <- f a ;; bs <- mapM f l' ;; Ok (b :: bs)
  end.

(** ** Comparisons and arithmetic of numbers *)

Definition Qltb (x y : Q) : bool := negb (Qle_bool y x).
Definition Qgtb (x y : Q) : bool := Qltb y x.
Definition Qgeb (x y : Q) : bool := Qle_bool y x.

(** [x / y] of Python: raises on a zero divisor. *)
Definition py_div (x y : Q) : result Q :=
  if Qeq_bool y 0 then Raise ZeroDivisionError else Ok (x / y).

(** [min(a, b)] of Python: [b] only when [b < a]. *)
Definition py_min (a b : Q) : Q := if Qltb b a then b else a.

(** [round(y)] to an integer: to nearest, a tie going to the even
    neighbour, as Python's [round] does on the value it is given. *)
Definition round_half_even (y : Q) : Z :=
  let f := Qfloor y in
  match Qcompare (y - inject_Z f) (1 # 2) with
  | Lt => f
  | Gt => (f + 1)%Z
  | Eq => if Z.even f then f else (f + 1)%Z
  end.

(** [round(x, 2)] of a rational: the exact value rounded to cents.
    [Binary64.round2] below rounds the binary64 number. *)
Definition round2 (x : Q) : Q := round_half_even (x * 100) # 100.

(** The rounding the specification names: to nearest, a tie going up. *)
Definition round_half_up (y : Q) : Z := Qfloor (y + (1 # 2)).

(** [int(x)]: truncation towards zero. *)
Definition py_int (x : Q) : Z := Z.quot (Qnum x) (Z.pos (Qden x)).

(** ** Step 2: segmentation *)

Inductive Segment : Type := green | yellow | orange | red.
Inductive Progression : Type := good | poor | flat.

Definition Segment_eqb (a b : Segment) : bool :=
  match a, b with
  | green, green | yellow, yellow | orange, orange | red, red => true
  | _, _ => false
  end.

Definition Progression_eqb (a b : Progression) : bool :=
  match a, b with
  | good, good | poor, poor | flat, flat => true
  | _, _ => false
  end.

(** Default values of the keyword parameters [w_d7] and [w_d2nd]. *)
Definition default_w_d7 : Q := 0.80.
Definition default_w_d2nd : Q := 0.20.

Definition weighted_score (roi_d7 roi_d2nd w_d7 w_d2nd : Q) : Q :=
  w_d7 * roi_d7 + w_d2nd * roi_d2nd.

Definition kpi_target (kpi_d7 kpi_d2nd w_d7 w_d2nd : Q) : Q :=
  w_d7 * kpi_d7 + w_d2nd * kpi_d2nd.

Definition segment_row (roi_d7 roi_d2nd kpi_d7 kpi_d2nd : Q) : result Segment :=
  let score := weighted_score roi_d7 roi_d2nd default_w_d7 default_w_d2nd in
  let target := kpi_target kpi_d7 kpi_d2nd default_w_d7 default_w_d2nd in
  if Qgeb score target then Ok green
  else if Qeq_bool roi_d7 0 && Qeq_bool roi_d2nd 0 then Ok red
  else
    pct_below <- py_div (target - score) target ;;
    if Qle_bool pct_below 0.50 then Ok yellow
    else if Qltb pct_below 1.0 then Ok orange
    else Ok red.

(** Segment a single ROI value against its own KPI (used for the poor
    progression check). *)
Definition segment_single (val kpi : Q) : result Segment :=
  if Qgeb val kpi then Ok green
  else if Qeq_bool val 0 then Ok red
  else
    pct_below <- py_div (kpi - val) kpi ;;
    if Qle_bool pct_below 0.50 then Ok yellow
    else if Qltb pct_below 1.0 then Ok orange
    else Ok red.

(** Good / poor / flat progression; D7 = 0 is flat. *)
Definition get_progression (roi_d7 roi_d2nd : Q) : Progression :=
  if Qeq_bool roi_d7 0 then flat
  else if Qgtb roi_d2nd roi_d7 then good
  else if Qltb roi_d2nd roi_d7 then poor
  else flat.

(** ** Rows

    One row of the merged table, as the decision stages read it.  The
    two KPI columns are [d7_col] and [d2nd_col]; [segment],
    [progression], [_roi_d7] and [discard] are the columns the pipeline
    assigns before the later stages read them ([_roi_d7 = None]: the
    column is absent and [row.get] yields its default). *)

Record Row : Type := mkRow {
  status : string;
  spend : Q;
  preloads : Z;
  fillRate : option Q;
  installs : option Z;
  effectiveBidFloor : option Q;
  bidRate : Q;
  highTier : option Q;
  d7_col : Q;
  d2nd_col : Q;
  segment : Segment;
  progression : Progression;
  _roi_d7 : option Q;
  discard : bool
}.

Definition set_segments (r : Row) (s : Segment) (p : Progression) : Row :=
  mkRow (status r) (spend r) (preloads r) (fillRate r) (installs r)
        (effectiveBidFloor r) (bidRate r) (highTier r) (d7_col r) (d2nd_col r)
        s p (_roi_d7 r) (discard r).

Definition set_roi_d7 (r : Row) (v : Q) : Row :=
  mkRow (status r) (spend r) (preloads r) (fillRate r) (installs r)
        (effectiveBidFloor r) (bidRate r) (highTier r) (d7_col r) (d2nd_col r)
        (segment r) (progression r) (Some v) (discard r).

Definition set_discard (r : Row) (d : bool) : Row :=
  mkRow (status r) (spend r) (preloads r) (fillRate r) (installs r)
        (effectiveBidFloor r) (bidRate r) (highTier r) (d7_col r) (d2nd_col r)
        (segment r) (progression r) (_roi_d7 r) d.

(** [x if pd.notna(x) else d]. *)
Definition notna_or {A : Type} (x : option A) (d : A) : A :=
  match x with
  | Some v => v
  | None => d
  end.

(** ** Strings *)

Definition lower_ascii (c : ascii) : ascii :=
  let n := N_of_ascii c in
  if (65 <=? n)%N && (n <=? 90)%N then ascii_of_N (n + 32) else c.

(** [s.lower()], on ASCII. *)
Fixpoint lower (s : string) : string :=
  match s with
  | EmptyString => EmptyString
  | String c s' => String (lower_ascii c) (lower s')
  end.

Definition str_of_Z (z : Z) : string := NilZero.string_of_int (Z.to_int z).

(** [f'{x:.2f}']: the amount with two decimals, rounded as [round]
    rounds. *)
Definition format_2f (x : Q) : string :=
  let n := round_half_even (x * 100) in
  let a := Z.abs n in
  let cents := (a mod 100)%Z in
  ((if (n <? 0)%Z then "-" else "") ++ str_of_Z (a / 100) ++ "."
   ++ (if (cents <? 10)%Z then "0" else "") ++ str_of_Z cents)%string.

(** Truth value of an optional string: [None] and the empty string are
    false. *)
Definition truthy (a : option string) : bool :=
  match a with
  | Some s => negb (String.eqb s "")
  | None => false
  end.

(** ** Step 3: discard logic *)

Definition should_discard (row : Row) : bool :=
  let is_green := Segment_eqb (segment row) green in
  let installs := notna_or (installs row) 0%Z in
  let spend := spend row in
  let preloads := preloads row in
  let progression := progression row in
  let fill_rate := notna_or (fillRate row) 0 in
  let d7 := notna_or (_roi_d7 row) 0 in
  if is_green && (5 <=? installs)%Z then false
  else if Progression_eqb progression good && Qltb fill_rate 0.60
          && Qgtb d7 0 && Qgeb spend 100 then false
  else if Qltb spend 100 then true
  else if (preloads <? 100)%Z then true
  else if String.eqb (lower (status row)) "paused" && negb is_green then true
  else false.

(** ** Step 4: daily cap logic *)

Definition get_daily_cap_suggestion (row : Row) : option string :=
  if Qle_bool (spend row) 1000 then None
  else
    let floor := effectiveBidFloor row in
    let bid := bidRate row in
    let at_floor := match floor with Some f => Qle_bool bid f | None => false end in
    let has_perf := Qgtb (d7_col row) 0 || Qgtb (d2nd_col row) 0 in
    let no_perf := Qeq_bool (d7_col row) 0 && Qeq_bool (d2nd_col row) 0 in
    if no_perf then Some "Suggest pause"%string
    else if at_floor && has_perf then
      let daily := round2 ((spend row / 30) * 0.50) in
      Some ("Add daily cap $" ++ format_2f daily)%string
    else None.

(** ** Step 5: bid optimization *)

(** The two local functions of [optimize_bid]; the section variables
    are the locals of [optimize_bid] they close over. *)
Section BidClosures.

Variable floor : option Q.
Variable bid : Q.
Variable high_tier : option Q.
Variable fill_rate : Q.

Definition apply_floor (new_bid : Q) : Q * option string :=
  match floor with
  | Some f =>
      if Qltb new_bid f then (round2 f, Some "Meet bid floor"%string)
      else (round2 new_bid, None)
  | None => (round2 new_bid, None)
  end.

(** Cap the new bid at highTier.  If already above the tier and fill
    < 70%, allow up to 15%. *)
Definition apply_high_tier (new_bid pct : Q) : Q * string :=
  match high_tier with
  | None =>
      (round2 new_bid, ("Increase bid " ++ str_of_Z (py_int (pct * 100)) ++ "%")%string)
  | Some ht =>
      if Qgtb bid ht && Qltb fill_rate 0.70 then
        let capped := round2 (bid * 1.15) in
        (capped, "Increase bid 15%"%string)
      else
        let capped := round2 (py_min new_bid ht) in
        (capped, ("Increase bid " ++ str_of_Z (py_int (pct * 100)) ++ "%")%string)
  end.

End BidClosures.

(** [pct_above] and [pct_below] of [optimize_bid], with their
    [if target > 0 else] fallbacks. *)
Definition pct_above (score target : Q) : result Q :=
  if Qgtb target 0 then py_div (score - target) target else Ok 0.

Definition pct_below (score target : Q) : result Q :=
  if Qgtb target 0 then py_div (target - score) target else Ok 1.

Definition optimize_bid (row : Row) (kpi_d7 kpi_d2nd : Q)
  : result (option string * option Q) :=
  let floor := effectiveBidFloor row in
  let bid := bidRate row in
  let high_tier := highTier row in
  let fill_rate := notna_or (fillRate row) 0 in
  let installs := notna_or (installs row) 0%Z in
  let seg := segment row in
  let prog := progression row in
  let roi_d7 := d7_col row in
  let roi_d2nd := d2nd_col row in
  let spend := spend row in
  let at_floor := match floor with Some f => Qle_bool bid f | None => false end in
  let score := weighted_score roi_d7 roi_d2nd default_w_d7 default_w_d2nd in
  let target := kpi_target kpi_d7 kpi_d2nd default_w_d7 default_w_d2nd in
  pct_above <- pct_above score target ;;
  pct_below <- pct_below score target ;;
  (* Discard check *)
  if discard row then Ok (None, None)
  (* Already at/below floor: no bid suggestion *)
  else if at_floor then Ok (None, None)
  (* Good progression (overrides segment) *)
  else if Progression_eqb prog good && Qltb fill_rate 0.60 && Qgtb roi_d7 0 then
    ratio <- (if Qgtb roi_d7 0 then py_div roi_d2nd roi_d7 else Ok 1) ;;
    let increase_pct := if Qgeb ratio 2.0 then 0.15 else 0.10 in
    let new_bid := round2 (bid * (1 + increase_pct)) in
    let '(new_bid, action) := apply_high_tier bid high_tier fill_rate new_bid increase_pct in
    let '(floored, floor_action) := apply_floor floor new_bid in
    if truthy floor_action then Ok (floor_action, Some floored)
    else Ok (Some action, Some new_bid)
  (* Poor progression *)
  else if Progression_eqb prog poor then
    if Qltb spend 100 then Ok (None, None)
    else
      seg_d2nd <- segment_single roi_d2nd kpi_d2nd ;;
      match seg_d2nd with
      | yellow | orange | red =>
          let new_bid := round2 (bid * 0.90) in
          let '(floored, floor_action) := apply_floor floor new_bid in
          if truthy floor_action then Ok (floor_action, Some floored)
          else Ok (Some "Decrease bid 10%"%string, Some new_bid)
      | green => Ok (None, None)   (* D2nd green: wait and see *)
      end
  (* Green *)
  else if Segment_eqb seg green then
    if (installs <? 5)%Z then Ok (None, None)
    else if Qgtb fill_rate 0.80 then
      (* Cap at 15% *)
      let new_bid := round2 (bid * 1.15) in
      let new_bid :=
        match high_tier with
        | Some ht => round2 (py_min new_bid ht)
        | None => new_bid
        end in
      let '(floored, floor_action) := apply_floor floor new_bid in
      Ok (if truthy floor_action then floor_action else Some "Increase bid 15%"%string,
          Some (if truthy floor_action then floored else new_bid))
    else
      let increase_pct :=
        (* Fill 60-80%: still cap at 15% *)
        if Qgtb fill_rate 0.60 then 0.15
        (* Fill <= 60%: normal 10/20/30% *)
        else if Qle_bool pct_above 0.25 then 0.10
        else if Qle_bool pct_above 0.50 then 0.20
        else 0.30 in
      let new_bid := round2 (bid * (1 + increase_pct)) in
      let '(new_bid, action) := apply_high_tier bid high_tier fill_rate new_bid increase_pct in
      let '(floored, floor_action) := apply_floor floor new_bid in
      if truthy floor_action then Ok (floor_action, Some floored)
      else Ok (Some action, Some new_bid)
  (* Yellow *)
  else if Segment_eqb seg yellow then
    let decrease_pct := if Qle_bool pct_below 0.25 then 0.10 else 0.15 in
    let new_bid := round2 (bid * (1 - decrease_pct)) in
    let '(floored, floor_action) := apply_floor floor new_bid in
    if truthy floor_action then Ok (floor_action, Some floored)
    else Ok (Some ("Decrease bid " ++ str_of_Z (py_int (decrease_pct * 100)) ++ "%")%string,
             Some new_bid)
  (* Orange *)
  else if Segment_eqb seg orange then
    let decrease_pct := if Qle_bool pct_below 0.75 then 0.20 else 0.25 in
    let new_bid := round2 (bid * (1 - decrease_pct)) in
    let '(floored, floor_action) := apply_floor floor new_bid in
    if truthy floor_action then Ok (floor_action, Some floored)
    else Ok (Some ("Decrease bid " ++ str_of_Z (py_int (decrease_pct * 100)) ++ "%")%string,
             Some new_bid)
  (* Red *)
  else
    let new_bid := round2 (bid * 0.70) in
    let '(floored, floor_action) := apply_floor floor new_bid in
    if truthy floor_action then Ok (floor_action, Some floored)
    else Ok (Some "Decrease bid 30%"%string, Some new_bid).

(** ** Main pipeline, from the cleaned merged table on *)

Definition add_segments (df : list Row) (kpi_d7 kpi_d2nd : Q) : result (list Row) :=
  mapM (fun r =>
          s <- segment_row (d7_col r) (d2nd_col r) kpi_d7 kpi_d2nd ;;
          Ok (set_segments r s (get_progression (d7_col r) (d2nd_col r))))
       df.

(** One line of the report: the row, its daily-cap suggestion, its
    action and its recommended bid. *)
Record Line : Type := mkLine {
  line_row : Row;
  daily_cap_suggestion : option string;
  action : option string;
  recommended_bid : option Q
}.

Definition run_optimization (internal : list Row) (kpi_d7 kpi_d2nd : Q)
  : result (list Line) :=
  internal <- add_segments internal kpi_d7 kpi_d2nd ;;
  let internal := map (fun r => set_roi_d7 r (d7_col r)) internal in
  let internal := map (fun r => set_discard r (should_discard r)) internal in
  let caps := map get_daily_cap_suggestion internal in
  results <- mapM (fun r => optimize_bid r kpi_d7 kpi_d2nd) internal ;;
  Ok (map (fun '(r, c, res) => mkLine r c (fst res) (snd res))
          (combine (combine internal caps) results)).

(** The parameters of [run_optimization], and the keywords of the call
    the application makes. *)
Definition run_optimization_params : list string :=
  ["internal_path"; "advertiser_path"; "kpi_col_idx_d7"; "kpi_col_idx_d2nd";
   "kpi_d7"; "kpi_d2nd"]%string.

Definition app_call_keywords : list string :=
  ["internal_path"; "advertiser_path"; "kpi_col_idx_d7"; "kpi_col_idx_d2nd";
   "kpi_d7"; "kpi_d2nd"; "w_d7"; "w_d2nd"; "optimization_type";
   "report_duration"; "notes"]%string.

(** Binding of a keyword call: the first keyword that names no
    parameter is a [TypeError]. *)
Definition unexpected_keyword (params keywords : list string) : option string :=
  find (fun k => negb (existsb (String.eqb k) params)) keywords.

Definition call_run_optimization (keywords : list string)
    (internal : list Row) (kpi_d7 kpi_d2nd : Q) : result (list Line) :=
  match unexpected_keyword run_optimization_params keywords with
  | Some k => Raise (TypeError k)
  | None => run_optimization internal kpi_d7 kpi_d2nd
  end.

(** ** The branches of the optimizer before the floor clamp

    [candidate] is the bid and the label a branch of [optimize_bid]
    has computed when it calls [apply_floor] ([None]: the branch
    returns no adjustment); [clamp] is what every branch then does with
    the answer of [apply_floor].  [optimize_bid_candidate] below shows
    that [optimize_bid] is the one followed by the other. *)

Definition candidate (row : Row) (kpi_d7 kpi_d2nd : Q)
  : result (option (Q * string)) :=
  let floor := effectiveBidFloor row in
  let bid := bidRate row in
  let high_tier := highTier row in
  let fill_rate := notna_or (fillRate row) 0 in
  let installs := notna_or (installs row) 0%Z in
  let roi_d7 := d7_col row in
  let roi_d2nd := d2nd_col row in
  let at_floor := match floor with Some f => Qle_bool bid f | None => false end in
  let score := weighted_score roi_d7 roi_d2nd default_w_d7 default_w_d2nd in
  let target := kpi_target kpi_d7 kpi_d2nd default_w_d7 default_w_d2nd in
  pct_above <- pct_above score target ;;
  pct_below <- pct_below score target ;;
  if discard row then Ok None
  else if at_floor then Ok None
  else if Progression_eqb (progression row) good && Qltb fill_rate 0.60
          && Qgtb roi_d7 0 then
    ratio <- (if Qgtb roi_d7 0 then py_div roi_d2nd roi_d7 else Ok 1) ;;
    let increase_pct := if Qgeb ratio 2.0 then 0.15 else 0.10 in
    Ok (Some (apply_high_tier bid high_tier fill_rate
                (round2 (bid * (1 + increase_pct))) increase_pct))
  else if Progression_eqb (progression row) poor then
    if Qltb (spend row) 100 then Ok None
    else
      seg_d2nd <- segment_single roi_d2nd kpi_d2nd ;;
      match seg_d2nd with
      | green => Ok None
      | _ => Ok (Some (round2 (bid * 0.90), "Decrease bid 10%"%string))
      end
  else if Segment_eqb (segment row) green then
    if (installs <? 5)%Z then Ok None
    else if Qgtb fill_rate 0.80 then
      Ok (Some (match high_tier with
                | Some ht => round2 (py_min (round2 (bid * 1.15)) ht)
                | None => round2 (bid * 1.15)
                end, "Increase bid 15%"%string))
    else
      let increase_pct :=
        if Qgtb fill_rate 0.60 then 0.15
        else if Qle_bool pct_above 0.25 then 0.10
        else if Qle_bool pct_above 0.50 then 0.20
        else 0.30 in
      Ok (Some (apply_high_tier bid high_tier fill_rate
                  (round2 (bid * (1 + increase_pct))) increase_pct))
  else if Segment_eqb (segment row) yellow then
    let decrease_pct := if Qle_bool pct_below 0.25 then 0.10 else 0.15 in
    Ok (Some (round2 (bid * (1 - decrease_pct)),
              ("Decrease bid " ++ str_of_Z (py_int (decrease_pct * 100)) ++ "%")%string))
  else if Segment_eqb (segment row) orange then
    let decrease_pct := if Qle_bool pct_below 0.75 then 0.20 else 0.25 in
    Ok (Some (round2 (bid * (1 - decrease_pct)),
              ("Decrease bid " ++ str_of_Z (py_int (decrease_pct * 100)) ++ "%")%string))
  else
    Ok (Some (round2 (bid * 0.70), "Decrease bid 30%"%string)).

Definition clamp (floor : option Q) (c : option (Q * string))
  : option string * option Q :=
  match c with
  | None => (None, None)
  | Some (new_bid, label) =>
      let '(floored, floor_action) := apply_floor floor new_bid in
      if truthy floor_action then (floor_action, Some floored)
      else (Some label, Some new_bid)
  end.

(** ** The discard policy as an ordered list of rules

    The policy as the specification words it: guarded rules tried in
    order, the first whose guard holds giving the verdict. *)





(** ** Sample rows *)


(** Spend 1500, bid at its floor 0.50, primary KPI 0.02. *)
Definition at_floor_row : Row :=
  mkRow "active" 1500 200 (Some 0.50) (Some 10%Z) (Some 0.50) 0.50 None
        0.02 0 orange poor (Some 0.02) false.


(** Bid 0.51 over a floor of 0.50, in the red segment. *)
Definition cent_floor_row : Row :=
  mkRow "active" 1500 200 (Some 0.85) (Some 10%Z) (Some 0.50) 0.51 None
        0 0 red flat (Some 0) false.

(** KPIs of -0.12 on a bid of 1.00 without floor, as the input table
    gives the row: the derived columns are still to be assigned. *)
Definition negative_kpi_row : Row :=
  mkRow "active" 1500 200 (Some 0.85) (Some 10%Z) None 1.00 None
        (-0.12) (-0.12) green flat None false.

(** ** Text helpers of the column functions

    Column letters, column names and campaign names are ASCII text;
    [strip], [upper], [split] and the substring test [in] are embedded
    on ASCII characters. *)

(** [ord(c)]. *)
Definition ord (c : ascii) : Z := Z.of_N (N_of_ascii c).

(** The text is ASCII: every character is below 128. *)
Definition is_ascii (s : string) : bool :=
  forallb (fun c => (N_of_ascii c <? 128)%N) (list_ascii_of_string s).

(** [c.isspace()]: tab to carriage return, the four separators 28..31
    and the space. *)
Definition is_space (c : ascii) : bool :=
  let n := N_of_ascii c in
  ((9 <=? n)%N && (n <=? 13)%N) || ((28 <=? n)%N && (n <=? 32)%N).

Definition upper_ascii (c : ascii) : ascii :=
  let n := N_of_ascii c in
  if (97 <=? n)%N && (n <=? 122)%N then ascii_of_N (n - 32) else c.

(** [s.upper()]. *)
Fixpoint upper (s : string) : string :=
  match s with
  | EmptyString => EmptyString
  | String c s' => String (upper_ascii c) (upper s')
  end.

(** The characters left once the leading white space is dropped. *)
Fixpoint lstrip_chars (l : list ascii) : list ascii :=
  match l with
  | [] => []
  | c :: l' => if is_space c then lstrip_chars l' else l
  end.

(** [s.strip()]. *)
Definition strip (s : string) : string :=
  string_of_list_ascii
    (rev (lstrip_chars (rev (lstrip_chars (list_ascii_of_string s))))).

(** [p in s]: [p] starts at some position of [s]. *)
Fixpoint contains (p s : string) : bool :=
  prefix p s
  || match s with
     | EmptyString => false
     | String _ s' => contains p s'
     end.

(** [s.split()]: the maximal runs of characters that are not white
    space; [cur] holds the run being read, last character first. *)
Fixpoint split_chars (cur l : list ascii) : list string :=
  match l with
  | [] =>
      match cur with
      | [] => []
      | _ => [string_of_list_ascii (rev cur)]
      end
  | c :: l' =>
      if is_space c then
        match cur with
        | [] => split_chars [] l'
        | _ => string_of_list_ascii (rev cur) :: split_chars [] l'
        end
      else split_chars (c :: cur) l'
  end.

Definition split (s : string) : list string :=
  split_chars [] (list_ascii_of_string s).

(** [l[-1]]; [None] stands for the [IndexError] of an empty list. *)
Fixpoint last_item {A : Type} (l : list A) : option A :=
  match l with
  | [] => None
  | [a] => Some a
  | _ :: l' => last_item l'
  end.

(** ** Column index helper *)

(** Convert an Excel column letter to a 0-based index: 'I' is 8, 'K'
    is 10. *)
Definition letter_to_index (letter : string) : Z :=
  let letter := upper (strip letter) in
  let result :=
    fold_left (fun result char => result * 26 + (ord char - ord "A" + 1))%Z
              (list_ascii_of_string letter) 0%Z in
  (result - 1)%Z.

(** The value [letter_to_index] has read after the characters [l],
    before its final [- 1]. *)
Definition column_number (l : list ascii) : Z :=
  fold_left (fun result char => result * 26 + (ord char - ord "A" + 1))%Z l 0%Z.

(** A column reference is made of ASCII letters, in either case. *)
Definition is_letter (c : ascii) : bool :=
  let n := N_of_ascii c in
  ((65 <=? n)%N && (n <=? 90)%N) || ((97 <=? n)%N && (n <=? 122)%N).

Definition letters (s : string) : bool :=
  forallb is_letter (list_ascii_of_string s).

Definition blank (s : string) : bool :=
  forallb is_space (list_ascii_of_string s).

(** ** Friendly label of a KPI column

    The local function [label] of [merge_advertiser_data]: "Full ROAS
    D30" becomes "ROI D30".  [None] stands for the [IndexError] of
    [c.split()[-1]] on an empty list. *)

Definition label_prefixes : list string :=
  ["Full ROAS "; "ROAS "; "Full Roas "; "ROI "]%string.

(** The [for prefix in ...] loop over the prefixes still to try. *)
Fixpoint label_loop (c : string) (prefixes : list string) : option string :=
  match prefixes with
  | [] => Some ("ROI " ++ c)%string
  | prefix :: rest =>
      if contains (lower prefix) (lower c) then
        match last_item (split c) with
        | Some period => Some ("ROI " ++ period)%string
        | None => None
        end
      else label_loop c rest
  end.

Definition label (col : string) : option string :=
  label_loop (strip col) label_prefixes.

(** ** Default columns of the two dropdowns (app.py) *)

(** The inner loop of [_auto_idx]: the position, counted from [i], of
    the first column whose name contains the pattern. *)
Fixpoint first_match (p : string) (cols : list string) (i : nat) : option nat :=
  match cols with
  | [] => None
  | c :: cols' =>
      if contains (lower p) (lower c) then Some i
      else first_match p cols' (S i)
  end.

(** Return the index of the first column whose name matches any
    pattern. *)
Fixpoint _auto_idx (patterns cols : list string) (fallback : nat) : nat :=
  match patterns with
  | [] => fallback
  | p :: patterns' =>
      match first_match p cols 0 with
      | Some i => i
      | None => _auto_idx patterns' cols fallback
      end
  end.

Definition main_default (adv_cols : list string) : nat :=
  _auto_idx ["d7"; "roas d7"; "roi d7"; "d 7"]%string adv_cols 0.

Definition sec_default (adv_cols : list string) : nat :=
  let sec_default :=
    _auto_idx ["d30"; "d14"; "roas d3"; "roi d3"; "d 30"]%string adv_cols 1 in
  if Nat.eqb sec_default (main_default adv_cols) then
    (main_default adv_cols + 1) mod Nat.max (List.length adv_cols) 1
  else sec_default.

(** ** Step 1: keys, merge and null filter

    The tables are lists of rows.  The advertiser rows are taken with
    their two KPI cells already parsed to a number or a null, and the
    site identifiers as the integers of an integer column. *)

(** [astype(int)] on a column of integers: the value as a signed
    integer of 64 bits, wrapping around outside their range. *)
Definition astype_int (z : Z) : Z := ((z + 2 ^ 63) mod 2 ^ 64 - 2 ^ 63)%Z.

(** Key = campaignName_siteId, for one row. *)
Definition build_key (campaign : string) (site : Z) : string :=
  (strip campaign ++ "_" ++ str_of_Z (astype_int site))%string.

Record Advertiser : Type := mkAdvertiser {
  adv_campaign : string;
  adv_site : Z;
  adv_d7 : option Q;
  adv_d2nd : option Q
}.

Record Internal : Type := mkInternal {
  campaignName : string;
  siteId : Z;
  in_status : string;
  in_spend : Q;
  in_preloads : Z;
  maxPreloads : option Z;
  in_fillRate : option Q;
  in_installs : option Z;
  in_effectiveBidFloor : option Q;
  in_bidRate : Q;
  in_highTier : option Q
}.

(** A row of the merged table: the internal row, its key and the two
    KPI columns. *)
Record Merged : Type := mkMerged {
  Key : string;
  merged_internal : Internal;
  merged_d7 : option Q;
  merged_d2nd : option Q
}.

(** [drop_duplicates('Key')]: of the rows with one key the first is
    kept; [seen] holds the keys already met. *)
Fixpoint drop_duplicates_from {V : Type} (seen : list string)
    (l : list (string * V)) : list (string * V) :=
  match l with
  | [] => []
  | (k, v) :: l' =>
      if existsb (String.eqb k) seen then drop_duplicates_from seen l'
      else (k, v) :: drop_duplicates_from (k :: seen) l'
  end.

Definition drop_duplicates {V : Type} (l : list (string * V)) : list (string * V) :=
  drop_duplicates_from [] l.

(** [left.merge(right, on='Key', how='left')]: every left row, in
    order, once for each right row with its key, in their order, and
    once with nulls when there is none. *)
Definition merge_left {A V : Type} (left : list (string * A))
    (right : list (string * V)) : list (string * A * option V) :=
  flat_map
    (fun '(k, a) =>
       match filter (fun kv => String.eqb k (fst kv)) right with
       | [] => [(k, a, None)]
       | matches => map (fun kv => (k, a, Some (snd kv))) matches
       end)
    left.

(** The last lines of [merge_advertiser_data]: the keys of both tables,
    the lookup table without duplicate keys, the left merge. *)
Definition merge_advertiser_data (internal : list Internal)
    (advertiser : list Advertiser) : list Merged :=
  let advertiser :=
    map (fun a => (build_key (adv_campaign a) (adv_site a), (adv_d7 a, adv_d2nd a)))
        advertiser in
  let internal :=
    map (fun i => (build_key (campaignName i) (siteId i), i)) internal in
  let lookup := drop_duplicates advertiser in
  map (fun '(k, i, v) =>
         match v with
         | Some (d7, d2nd) => mkMerged k i d7 d2nd
         | None => mkMerged k i None None
         end)
      (merge_left internal lookup).

Definition notna {A : Type} (x : option A) : bool :=
  match x with
  | Some _ => true
  | None => false
  end.

(** Drop rows with null in critical columns after merge. *)
Definition clean_nulls (df : list Merged) : list Merged * nat :=
  let before := List.length df in
  let df :=
    filter (fun m => notna (merged_d7 m) && notna (merged_d2nd m)
                     && notna (maxPreloads (merged_internal m))
                     && notna (in_fillRate (merged_internal m)))
           df in
  let dropped := (before - List.length df)%nat in
  (df, dropped).

(** Two internal rows and three advertiser rows: the first internal
    row has two advertiser rows with its key, the second has none. *)
Definition sample_internal : list Internal :=
  [ mkInternal " Summer " 7 "active" 1500 200 (Some 300%Z) (Some 0.50)
               (Some 10%Z) (Some 0.50) 0.60 None;
    mkInternal "Winter" 8 "active" 900 150 (Some 200%Z) (Some 0.70)
               (Some 2%Z) None 0.40 None ].

Definition sample_advertiser : list Advertiser :=
  [ mkAdvertiser "Autumn" 1 None None;
    mkAdvertiser "Summer" 7 (Some 0.05) (Some 0.07);
    mkAdvertiser "Summer " 7 (Some 0.50) (Some 0.50) ].

(** ** The pipeline, one row at a time *)

(** The stages of [run_optimization] on a single row, in their order:
    segment and progression, the copy of the primary KPI, the discard
    flag, the daily-cap suggestion and the bid. *)
Definition process_row (kpi_d7 kpi_d2nd : Q) (r : Row) : result Line :=
  s <- segment_row (d7_col r) (d2nd_col r) kpi_d7 kpi_d2nd ;;
  let r := set_segments r s (get_progression (d7_col r) (d2nd_col r)) in
  let r := set_roi_d7 r (d7_col r) in
  let r := set_discard r (should_discard r) in
  res <- optimize_bid r kpi_d7 kpi_d2nd ;;
  Ok (mkLine r (get_daily_cap_suggestion r) (fst res) (snd res)).

(** A row with its four derived columns blanked. *)
Definition reset_derived (r : Row) : Row :=
  mkRow (status r) (spend r) (preloads r) (fillRate r) (installs r)
        (effectiveBidFloor r) (bidRate r) (highTier r) (d7_col r) (d2nd_col r)
        green flat None false.

(** The counts of the summary of [run_optimization] (its two
    breakdowns and the two column names are left out). *)
Record Summary : Type := mkSummary {
  total_rows : nat;
  excluded : nat;
  dropped_nulls : nat;
  actioned : nat;
  disregarded : nat;
  daily_cap : nat
}.

Definition summary (excluded_count dropped_count : nat) (output : list Line)
  : Summary :=
  mkSummary (List.length output) excluded_count dropped_count
            (List.length (filter (fun l => notna (action l)) output))
            (List.length (filter (fun l => negb (notna (action l))) output))
            (List.length (filter (fun l => notna (daily_cap_suggestion l)) output)).

(** ** Labels and ranks *)

(** The action labels of the report. *)
Definition increase_labels : list string :=
  ["Increase bid 10%"; "Increase bid 15%"; "Increase bid 20%"; "Increase bid 30%"]%string.

Definition decrease_labels : list string :=
  ["Decrease bid 10%"; "Decrease bid 15%"; "Decrease bid 20%";
   "Decrease bid 25%"; "Decrease bid 30%"]%string.


(** A green row whose bid of 1.20 is above its highTier of 1.10, with
    a fill rate of 0.85. *)
Definition above_tier_row : Row :=
  mkRow "active" 1500 200 (Some 0.85) (Some 10%Z) None 1.20 (Some 1.10)
        0.20 0.20 green flat (Some 0.20) false.

(** A paused orange row with few preloads but a good progression. *)
Definition paused_improving_row : Row :=
  mkRow "Paused" 150 20 (Some 0.30) (Some 0%Z) None 1.00 None
        0.01 0.03 orange good (Some 0.01) false.

(** ** Excluded site types

    The regular expressions the exclusion pattern is made of, and their
    search without regard to case.  Names are ASCII text, one byte a
    character: on other text Python folds case by Unicode rules and
    [.] passes a whole code point, which is not embedded. *)

Inductive regex : Type :=
| Lit (s : string)          (* the characters of s, one after the other *)
| AnyChar                   (* . : any character but the newline *)
| Opt (r : regex)           (* r? *)
| Seq (r1 r2 : regex)       (* r1 r2 *)
| Alt (r1 r2 : regex).      (* r1|r2 *)

(** r'OM.?Push|OM_PUSH|Notif' *)
Definition EXCLUDED_SITE_PATTERNS : regex :=
  Alt (Seq (Lit "OM") (Seq (Opt AnyChar) (Lit "Push")))
      (Alt (Lit "OM_PUSH") (Lit "Notif")).

(** What is left of [s] after the literal [p], read without regard to
    case. *)
Fixpoint match_lit (p s : string) : option string :=
  match p with
  | EmptyString => Some s
  | String c p' =>
      match s with
      | EmptyString => None
      | String d s' =>
          if Ascii.eqb (lower_ascii c) (lower_ascii d) then match_lit p' s'
          else None
      end
  end.

(** Every way [r] matches at the start of [s]: the list of what is
    left of [s] after the match. *)
Fixpoint re_match (r : regex) (s : string) : list string :=
  match r with
  | Lit p =>
      match match_lit p s with
      | Some rest => [rest]
      | None => []
      end
  | AnyChar =>
      match s with
      | EmptyString => []
      | String c rest => if Ascii.eqb c "010" then [] else [rest]
      end
  | Opt r' => (re_match r' s ++ [s])%list
  | Seq r1 r2 => flat_map (re_match r2) (re_match r1 s)
  | Alt r1 r2 => (re_match r1 s ++ re_match r2 s)%list
  end.

(** [re.search]: a match starting at some position. *)
Fixpoint re_search (r : regex) (s : string) : bool :=
  negb (match re_match r s with [] => true | _ => false end)
  || match s with
     | EmptyString => false
     | String _ s' => re_search r s'
     end.

(** [series.str.contains(EXCLUDED_SITE_PATTERNS, case=False, na=False,
    regex=True)] on one cell. *)
Definition str_contains_excluded (cell : option string) : bool :=
  match cell with
  | Some s => re_search EXCLUDED_SITE_PATTERNS s
  | None => false
  end.

(** A row of the internal table as [exclude_site_types] reads it. *)
Record Site : Type := mkSite {
  site_siteName : option string;
  site_campaignName : option string
}.

(** Both names of the row, where present, are ASCII. *)
Definition ascii_names (r : Site) : bool :=
  match site_siteName r with Some s => is_ascii s | None => true end
  && match site_campaignName r with Some s => is_ascii s | None => true end.

(** The [.str] accessor of a column.  A column of a table with rows
    that holds no text in any of them is read as a column of numbers,
    which has no [.str]. *)
Definition str_accessor (column : list (option string)) : result unit :=
  match column with
  | [] => Ok tt
  | _ => if existsb notna column then Ok tt else Raise AttributeError
  end.

(** Remove OM Push, Notification, and similar site types. *)
Definition exclude_site_types (df : list Site) : result (list Site * nat) :=
  site_names <- str_accessor (map site_siteName df) ;;
  campaign_names <- str_accessor (map site_campaignName df) ;;
  let mask := fun r => str_contains_excluded (site_siteName r)
                       || str_contains_excluded (site_campaignName r) in
  let excluded := List.length (filter mask df) in
  Ok (filter (fun r => negb (mask r)) df, excluded).

(** * The engine on binary64 numbers

    The classifier, the advisor and the optimizer once more, on the
    numbers Python computes with: [float] is IEEE 754 binary64, its
    operations round to nearest, ties to even, and a comparison with a
    NaN is false.  A pandas cell without a value is a NaN. *)

Module Binary64.

Local Open Scope float_scope.

(** [x >= y] and [x > y]. *)
Definition geb (x y : float) : bool := y <=? x.
Definition gtb (x y : float) : bool := y <? x.

(** [pd.notna(x)]. *)
Definition notna (x : float) : bool := negb (is_nan x).

(** [x if pd.notna(x) else None]. *)
Definition nullable (x : float) : option float :=
  if notna x then Some x else None.

(** [x / y] of Python: raises on a zero divisor, of either sign. *)
Definition py_div (x y : float) : result float :=
  if y =? 0 then Raise ZeroDivisionError else Ok (x / y).

(** [min(a, b)] of Python: [b] only when [b < a]. *)
Definition py_min (a b : float) : float := if b <? a then b else a.

(** The exact value of the finite number of mantissa [m] and exponent
    [e], sign apart: m * 2^e. *)
Definition magnitude (m : positive) (e : Z) : Q :=
  match e with
  | Z0 => inject_Z (Zpos m)
  | Zpos p => inject_Z (Zpos m * Z.pow_pos 2 p)
  | Zneg p => Zpos m # Pos.pow 2 p
  end.

(** The binary64 number nearest to [n] hundredths, of sign [s]: the
    correctly rounded quotient of [n] by 100. *)
Definition of_cents (s : bool) (n : Z) : float :=
  match n with
  | Zpos p => SF2Prim (SFdiv prec emax (S754_finite s p 0) (S754_finite false 100 0))
  | _ => SF2Prim (S754_zero s)
  end.

(** [round(x, 2)]: the exact value of [x] is rounded to a whole number
    of hundredths, a tie going to the even one, and the result is the
    binary64 number nearest to that decimal.  An infinity, a NaN and a
    zero are returned as they are. *)
Definition round2 (x : float) : float :=
  match Prim2SF x with
  | S754_finite s m e => of_cents s (round_half_even (magnitude m e * 100))
  | _ => x
  end.

(** The rounding the specification names, a tie going away from zero. *)
Definition round2_half_up (x : float) : float :=
  match Prim2SF x with
  | S754_finite s m e => of_cents s (round_half_up (magnitude m e * 100))
  | _ => x
  end.

(** [f'{x:.2f}']: the exact value of [x] written with two decimals,
    rounded as [round] rounds. *)
Definition format_2f (x : float) : string :=
  match Prim2SF x with
  | S754_nan => "nan"
  | S754_infinity s => if s then "-inf" else "inf"
  | S754_zero s => if s then "-0.00" else "0.00"
  | S754_finite s m e =>
      let n := round_half_even (magnitude m e * 100) in
      let cents := (n mod 100)%Z in
      (if s then "-" else "") ++ str_of_Z (n / 100) ++ "."
      ++ (if (cents <? 10)%Z then "0" else "") ++ str_of_Z cents
  end%string.

(** [int(x)]: truncation towards zero; a NaN and an infinity have no
    integer. *)
Definition py_int (x : float) : result Z :=
  match Prim2SF x with
  | S754_nan => Raise ValueError
  | S754_infinity _ => Raise OverflowError
  | S754_zero _ => Ok 0%Z
  | S754_finite s m e =>
      let n := Qfloor (magnitude m e) in
      Ok (if s then (- n)%Z else n)
  end.

(** Default values of the keyword parameters [w_d7] and [w_d2nd]. *)
Definition default_w_d7 : float := 0.80.
Definition default_w_d2nd : float := 0.20.

Definition weighted_score (roi_d7 roi_d2nd w_d7 w_d2nd : float) : float :=
  w_d7 * roi_d7 + w_d2nd * roi_d2nd.

Definition kpi_target (kpi_d7 kpi_d2nd w_d7 w_d2nd : float) : float :=
  w_d7 * kpi_d7 + w_d2nd * kpi_d2nd.

Definition segment_row (roi_d7 roi_d2nd kpi_d7 kpi_d2nd : float) : result Segment :=
  let score := weighted_score roi_d7 roi_d2nd default_w_d7 default_w_d2nd in
  let target := kpi_target kpi_d7 kpi_d2nd default_w_d7 default_w_d2nd in
  if geb score target then Ok green
  else if (roi_d7 =? 0) && (roi_d2nd =? 0) then Ok red
  else
    pct_below <- py_div (target - score) target ;;
    if pct_below <=? 0.50 then Ok yellow
    else if pct_below <? 1.0 then Ok orange
    else Ok red.

(** Segment a single ROI value against its own KPI. *)
Definition segment_single (val kpi : float) : result Segment :=
  if geb val kpi then Ok green
  else if val =? 0 then Ok red
  else
    pct_below <- py_div (kpi - val) kpi ;;
    if pct_below <=? 0.50 then Ok yellow
    else if pct_below <? 1.0 then Ok orange
    else Ok red.

(** One row of the merged table, as the advisor and the optimizer read
    it.  [installs] is a count, or nothing. *)
Record Row : Type := mkRow {
  spend : float;
  fillRate : float;
  installs : option Z;
  effectiveBidFloor : float;
  bidRate : float;
  highTier : float;
  d7_col : float;
  d2nd_col : float;
  segment : Segment;
  progression : Progression;
  discard : bool
}.

Definition get_daily_cap_suggestion (row : Row) : option string :=
  if spend row <=? 1000 then None
  else
    let floor := nullable (effectiveBidFloor row) in
    let bid := bidRate row in
    let at_floor := match floor with Some f => bid <=? f | None => false end in
    let has_perf := gtb (d7_col row) 0 || gtb (d2nd_col row) 0 in
    let no_perf := (d7_col row =? 0) && (d2nd_col row =? 0) in
    if no_perf then Some "Suggest pause"%string
    else if at_floor && has_perf then
      let daily := round2 ((spend row / 30) * 0.50) in
      Some ("Add daily cap $" ++ format_2f daily)%string
    else None.

(** The two local functions of [optimize_bid], over the locals they
    close over. *)
Section BidClosures.

Variable floor : option float.
Variable bid : float.
Variable high_tier : option float.
Variable fill_rate : float.

Definition apply_floor (new_bid : float) : float * option string :=
  match floor with
  | Some f =>
      if new_bid <? f then (round2 f, Some "Meet bid floor"%string)
      else (round2 new_bid, None)
  | None => (round2 new_bid, None)
  end.

Definition apply_high_tier (new_bid pct : float) : result (float * string) :=
  match high_tier with
  | None =>
      n <- py_int (pct * 100) ;;
      Ok (round2 new_bid, ("Increase bid " ++ str_of_Z n ++ "%")%string)
  | Some ht =>
      if gtb bid ht && (fill_rate <? 0.70) then
        let capped := round2 (bid * 1.15) in
        Ok (capped, "Increase bid 15%"%string)
      else
        let capped := round2 (py_min new_bid ht) in
        n <- py_int (pct * 100) ;;
        Ok (capped, ("Increase bid " ++ str_of_Z n ++ "%")%string)
  end.

End BidClosures.

(** [pct_above] and [pct_below] of [optimize_bid]. *)
Definition pct_above (score target : float) : result float :=
  if gtb target 0 then py_div (score - target) target else Ok 0.

Definition pct_below (score target : float) : result float :=
  if gtb target 0 then py_div (target - score) target else Ok 1.

Definition optimize_bid (row : Row) (kpi_d7 kpi_d2nd : float)
  : result (option string * option float) :=
  let floor := nullable (effectiveBidFloor row) in
  let bid := bidRate row in
  let high_tier := nullable (highTier row) in
  let fill_rate := if notna (fillRate row) then fillRate row else 0 in
  let installs := notna_or (installs row) 0%Z in
  let seg := segment row in
  let prog := progression row in
  let roi_d7 := d7_col row in
  let roi_d2nd := d2nd_col row in
  let spend := spend row in
  let at_floor := match floor with Some f => bid <=? f | None => false end in
  let score := weighted_score roi_d7 roi_d2nd default_w_d7 default_w_d2nd in
  let target := kpi_target kpi_d7 kpi_d2nd default_w_d7 default_w_d2nd in
  pct_above <- pct_above score target ;;
  pct_below <- pct_below score target ;;
  if discard row then Ok (None, None)
  else if at_floor then Ok (None, None)
  else if Progression_eqb prog good && (fill_rate <? 0.60) && gtb roi_d7 0 then
    ratio <- (if gtb roi_d7 0 then py_div roi_d2nd roi_d7 else Ok 1) ;;
    let increase_pct := if geb ratio 2.0 then 0.15 else 0.10 in
    let new_bid := round2 (bid * (1 + increase_pct)) in
    tiered <- apply_high_tier bid high_tier fill_rate new_bid increase_pct ;;
    let '(new_bid, action) := tiered in
    let '(floored, floor_action) := apply_floor floor new_bid in
    if truthy floor_action then Ok (floor_action, Some floored)
    else Ok (Some action, Some new_bid)
  else if Progression_eqb prog poor then
    if spend <? 100 then Ok (None, None)
    else
      seg_d2nd <- segment_single roi_d2nd kpi_d2nd ;;
      match seg_d2nd with
      | yellow | orange | red =>
          let new_bid := round2 (bid * 0.90) in
          let '(floored, floor_action) := apply_floor floor new_bid in
          if truthy floor_action then Ok (floor_action, Some floored)
          else Ok (Some "Decrease bid 10%"%string, Some new_bid)
      | green => Ok (None, None)
      end
  else if Segment_eqb seg green then
    if (installs <? 5)%Z then Ok (None, None)
    else if gtb fill_rate 0.80 then
      let new_bid := round2 (bid * 1.15) in
      let new_bid :=
        match high_tier with
        | Some ht => round2 (py_min new_bid ht)
        | None => new_bid
        end in
      let '(floored, floor_action) := apply_floor floor new_bid in
      Ok (if truthy floor_action then floor_action else Some "Increase bid 15%"%string,
          Some (if truthy floor_action then floored else new_bid))
    else
      let increase_pct :=
        if gtb fill_rate 0.60 then 0.15
        else if pct_above <=? 0.25 then 0.10
        else if pct_above <=? 0.50 then 0.20
        else 0.30 in
      let new_bid := round2 (bid * (1 + increase_pct)) in
      tiered <- apply_high_tier bid high_tier fill_rate new_bid increase_pct ;;
      let '(new_bid, action) := tiered in
      let '(floored, floor_action) := apply_floor floor new_bid in
      if truthy floor_action then Ok (floor_action, Some floored)
      else Ok (Some action, Some new_bid)
  else if Segment_eqb seg yellow then
    let decrease_pct := if pct_below <=? 0.25 then 0.10 else 0.15 in
    let new_bid := round2 (bid * (1 - decrease_pct)) in
    let '(floored, floor_action) := apply_floor floor new_bid in
    if truthy floor_action then Ok (floor_action, Some floored)
    else
      n <- py_int (decrease_pct * 100) ;;
      Ok (Some ("Decrease bid " ++ str_of_Z n ++ "%")%string, Some new_bid)
  else if Segment_eqb seg orange then
    let decrease_pct := if pct_below <=? 0.75 then 0.20 else 0.25 in
    let new_bid := round2 (bid * (1 - decrease_pct)) in
    let '(floored, floor_action) := apply_floor floor new_bid in
    if truthy floor_action then Ok (floor_action, Some floored)
    else
      n <- py_int (decrease_pct * 100) ;;
      Ok (Some ("Decrease bid " ++ str_of_Z n ++ "%")%string, Some new_bid)
  else
    let new_bid := round2 (bid * 0.70) in
    let '(floored, floor_action) := apply_floor floor new_bid in
    if truthy floor_action then Ok (floor_action, Some floored)
    else Ok (Some "Decrease bid 30%"%string, Some new_bid).

(** The amounts the optimizer can recommend for a row: a multiple of
    the bid rounded; that amount rounded once more by the tier cap; the
    smaller of that amount and the tier, rounded; the floor rounded. *)
Definition recommended_amount (row : Row) (b : float) : Prop :=
  let bid := bidRate row in
  (exists c, b = round2 (bid * c))
  \/ (exists c, b = round2 (round2 (bid * c)))
  \/ (exists c ht, nullable (highTier row) = Some ht
                   /\ b = round2 (py_min (round2 (bid * c)) ht))
  \/ (exists f, nullable (effectiveBidFloor row) = Some f /\ b = round2 f).

(** The numbers that are not below zero: a zero of either sign, a
    positive finite number, the positive infinity. *)
Definition nonneg (x : spec_float) : Prop :=
  match x with
  | S754_zero _ | S754_infinity false | S754_finite false _ _ => True
  | _ => False
  end.

(** Sample rows; none has a tier. *)

(** Spend 1500, bid at its floor 0.50, primary KPI 0.02. *)
Definition at_floor_row : Row :=
  mkRow 1500 0.50 (Some 10%Z) 0.50 0.50 nan 0.02 0 orange poor false.

(** Spend 1507.50, bid at its floor: the daily amount
    1507.5 / 30 * 0.5 is 25.125, exactly, halfway between two cents. *)
Definition half_cent_row : Row :=
  mkRow 1507.5 0.50 (Some 10%Z) 0.50 0.50 nan 0.02 0 orange poor false.

(** Spend 1004.70, bid at its floor. *)
Definition near_cent_row : Row :=
  mkRow 1004.7 0.50 (Some 10%Z) 0.50 0.50 nan 0.02 0 orange poor false.

(** Bid 0.70 over a floor of 0.60, in the yellow segment. *)
Definition yellow_row : Row :=
  mkRow 1500 0.85 (Some 10%Z) 0.60 0.70 nan 0.05 0.05 yellow flat false.

End Binary64.

(** * Properties *)

(** ** Boolean comparisons against their propositions *)

Lemma Qltb_true (x y : Q) : Qltb x y = true <-> x < y.
Proof.
  unfold Qltb. rewrite negb_true_iff, <- not_true_iff_false, Qle_bool_iff.
  split; intro H; [apply Qnot_le_lt | apply Qlt_not_le]; exact H.
Qed.

Lemma Qltb_false (x y : Q) : Qltb x y = false <-> y <= x.
Proof.
  unfold Qltb. rewrite negb_false_iff. apply Qle_bool_iff.
Qed.

Lemma Qeq_bool_false (x y : Q) : Qeq_bool x y = false <-> ~ x == y.
Proof.
  rewrite <- not_true_iff_false, Qeq_bool_iff. reflexivity.
Qed.

Lemma Qle_bool_false (x y : Q) : Qle_bool x y = false <-> y < x.
Proof.
  rewrite <- not_true_iff_false, Qle_bool_iff.
  split; intro H; [apply Qnot_le_lt | apply Qlt_not_le]; exact H.
Qed.

(** Turns every boolean test on numbers in the context and the goal
    into its proposition. *)
Ltac reflect_Q :=
  unfold Qgtb, Qgeb in *;
  repeat match goal with
    | H : Qltb _ _ = true |- _ => apply Qltb_true in H
    | H : Qltb _ _ = false |- _ => apply Qltb_false in H
    | H : Qle_bool _ _ = true |- _ => apply Qle_bool_iff in H
    | H : Qle_bool _ _ = false |- _ => apply Qle_bool_false in H
    | H : Qeq_bool _ _ = true |- _ => apply Qeq_bool_iff in H
    | H : Qeq_bool _ _ = false |- _ => apply Qeq_bool_false in H
    | H : _ && _ = true |- _ => apply andb_true_iff in H; destruct H
    end.

Lemma Qle_bool_intro (x y : Q) : x <= y -> Qle_bool x y = true.
Proof. apply Qle_bool_iff. Qed.

Lemma Qle_bool_intro_false (x y : Q) : y < x -> Qle_bool x y = false.
Proof. apply Qle_bool_false. Qed.

Lemma Qltb_intro (x y : Q) : x < y -> Qltb x y = true.
Proof. apply Qltb_true. Qed.

Lemma Qltb_intro_false (x y : Q) : y <= x -> Qltb x y = false.
Proof. apply Qltb_false. Qed.

Lemma Qeq_bool_intro_false (x y : Q) : ~ x == y -> Qeq_bool x y = false.
Proof. apply Qeq_bool_false. Qed.

(** Closes a closed comparison of numbers by evaluation. *)
Ltac by_compute := vm_compute; congruence.

(** A checked division by a non-zero number returns the quotient. *)
Lemma py_div_ok (x y : Q) : ~ y == 0 -> py_div x y = Ok (x / y).
Proof.
  intro H. unfold py_div. rewrite (Qeq_bool_intro_false _ _ H). reflexivity.
Qed.

(** ** Segmentation *)

Ltac unfold_scores :=
  unfold weighted_score, kpi_target, default_w_d7, default_w_d2nd in *.

Lemma score_nonneg (roi_d7 roi_d2nd : Q) :
  0 <= roi_d7 -> 0 <= roi_d2nd ->
  0 <= weighted_score roi_d7 roi_d2nd default_w_d7 default_w_d2nd.
Proof. intros H7 H2. unfold_scores. lra. Qed.

Lemma segment_row_green (roi_d7 roi_d2nd kpi_d7 kpi_d2nd : Q) :
  kpi_target kpi_d7 kpi_d2nd default_w_d7 default_w_d2nd
    <= weighted_score roi_d7 roi_d2nd default_w_d7 default_w_d2nd ->
  segment_row roi_d7 roi_d2nd kpi_d7 kpi_d2nd = Ok green.
Proof.
  intro H. unfold segment_row, Qgeb.
  rewrite (Qle_bool_intro _ _ H). reflexivity.
Qed.

(** Below the target, with a non-zero target, the classifier reaches
    the bands. *)
Lemma segment_row_below (roi_d7 roi_d2nd kpi_d7 kpi_d2nd : Q) :
  let score := weighted_score roi_d7 roi_d2nd default_w_d7 default_w_d2nd in
  let target := kpi_target kpi_d7 kpi_d2nd default_w_d7 default_w_d2nd in
  score < target -> ~ target == 0 ->
  segment_row roi_d7 roi_d2nd kpi_d7 kpi_d2nd =
    if Qeq_bool roi_d7 0 && Qeq_bool roi_d2nd 0 then Ok red
    else if Qle_bool ((target - score) / target) 0.50 then Ok yellow
    else if Qltb ((target - score) / target) 1.0 then Ok orange
    else Ok red.
Proof.
  intros score target H Hz. unfold segment_row, Qgeb. fold score target.
  rewrite (Qle_bool_intro_false _ _ H), (py_div_ok _ _ Hz). reflexivity.
Qed.

(** Below the target the target is positive, when the KPIs are not
    negative. *)
Lemma target_pos_below (roi_d7 roi_d2nd kpi_d7 kpi_d2nd : Q) :
  0 <= roi_d7 -> 0 <= roi_d2nd ->
  weighted_score roi_d7 roi_d2nd default_w_d7 default_w_d2nd
    < kpi_target kpi_d7 kpi_d2nd default_w_d7 default_w_d2nd ->
  0 < kpi_target kpi_d7 kpi_d2nd default_w_d7 default_w_d2nd.
Proof.
  intros H7 H2 H. pose proof (score_nonneg roi_d7 roi_d2nd H7 H2). lra.
Qed.

Lemma segment_row_total (roi_d7 roi_d2nd kpi_d7 kpi_d2nd : Q) :
  0 <= roi_d7 -> 0 <= roi_d2nd ->
  exists s, segment_row roi_d7 roi_d2nd kpi_d7 kpi_d2nd = Ok s.
Proof.
  intros H7 H2.
  destruct (Qlt_le_dec
              (weighted_score roi_d7 roi_d2nd default_w_d7 default_w_d2nd)
              (kpi_target kpi_d7 kpi_d2nd default_w_d7 default_w_d2nd))
    as [Hlt | Hge].
  - pose proof (target_pos_below _ _ _ _ H7 H2 Hlt) as Hp.
    rewrite (segment_row_below _ _ _ _ Hlt) by (intro E; lra).
    repeat match goal with
      | |- context [if ?b then _ else _] => destruct b
      end; eexists; reflexivity.
  - exists green. now apply segment_row_green.
Qed.

Lemma segment_single_green (val kpi : Q) :
  kpi <= val -> segment_single val kpi = Ok green.
Proof.
  intro H. unfold segment_single, Qgeb.
  rewrite (Qle_bool_intro _ _ H). reflexivity.
Qed.

Lemma segment_single_total (val kpi : Q) :
  0 <= val -> exists s, segment_single val kpi = Ok s.
Proof.
  intro Hv. unfold segment_single, Qgeb.
  destruct (Qle_bool kpi val) eqn:E1; [now exists green |].
  destruct (Qeq_bool val 0) eqn:E2; [now exists red |].
  reflect_Q. rewrite py_div_ok by (intro E; lra). cbn [bind].
  repeat match goal with
    | |- context [if ?b then _ else _] => destruct b
    end; eexists; reflexivity.
Qed.

(** C10.  On non-negative KPI values, whatever the targets, the two
    classifiers reach their division only with a strictly positive
    divisor: a target that is not positive is met by the score, which
    answers green first.  Neither raises a division by zero. *)
Theorem segment_no_zero_division (roi_d7 roi_d2nd kpi_d7 kpi_d2nd : Q) :
  0 <= roi_d7 -> 0 <= roi_d2nd ->
  let score := weighted_score roi_d7 roi_d2nd default_w_d7 default_w_d2nd in
  let target := kpi_target kpi_d7 kpi_d2nd default_w_d7 default_w_d2nd in
  (score < target -> 0 < target) /\
  (target <= 0 -> segment_row roi_d7 roi_d2nd kpi_d7 kpi_d2nd = Ok green) /\
  (exists s, segment_row roi_d7 roi_d2nd kpi_d7 kpi_d2nd = Ok s) /\
  (roi_d2nd < kpi_d2nd -> 0 < kpi_d2nd) /\
  (kpi_d2nd <= 0 -> segment_single roi_d2nd kpi_d2nd = Ok green) /\
  (exists s, segment_single roi_d2nd kpi_d2nd = Ok s).
Proof.
  intros H7 H2 score target.
  pose proof (score_nonneg roi_d7 roi_d2nd H7 H2) as Hs. fold score in Hs.
  repeat apply conj.
  - now apply target_pos_below.
  - intro H. apply segment_row_green. fold score target. lra.
  - now apply segment_row_total.
  - intro H. lra.
  - intro H. apply segment_single_green. lra.
  - now apply segment_single_total.
Qed.

Lemma segment_no_zero_division_witness :
  0 <= 0.05 /\ 0 <= 0 /\
  (exists s, segment_row 0.05 0 0 (-0.10) = Ok s) /\
  (exists s, segment_single 0 (-0.10) = Ok s).
Proof.
  repeat apply conj; [by_compute | by_compute | | ];
    apply (segment_no_zero_division 0.05 0 0 (-0.10)); by_compute.
Defined.

(** ** Discard policy *)



(** ** Rounding respects equality of rationals *)


(** ** Bid optimizer: branch, then floor clamp *)

(** The last lines of every branch: the answer of [apply_floor],
    then the test of its label. *)
Ltac floor_step :=
  cbn [bind]; cbv beta iota zeta;
  match goal with
  | |- context [apply_floor ?f ?b] =>
      let fl := fresh "fl" in
      let fa := fresh "fa" in
      destruct (apply_floor f b) as [fl fa]; destruct (truthy fa); reflexivity
  end.

Lemma optimize_bid_candidate (row : Row) (kpi_d7 kpi_d2nd : Q) :
  optimize_bid row kpi_d7 kpi_d2nd =
    (c <- candidate row kpi_d7 kpi_d2nd ;; Ok (clamp (effectiveBidFloor row) c)).
Proof.
  unfold optimize_bid, candidate, clamp.
  destruct (pct_above _ _); cbn [bind]; [| reflexivity].
  destruct (pct_below _ _); cbn [bind]; [| reflexivity].
  destruct (discard row); [reflexivity |].
  destruct (match effectiveBidFloor row with Some f => Qle_bool (bidRate row) f | None => false end);
    [reflexivity |].
  destruct (Progression_eqb (progression row) good && _ && _).
  { destruct (if Qgtb (d7_col row) 0 then _ else _); cbn [bind]; [| reflexivity].
    destruct (apply_high_tier _ _ _ _ _) as [nb act]. floor_step. }
  destruct (Progression_eqb (progression row) poor).
  { destruct (Qltb (spend row) 100); [reflexivity |].
    destruct (segment_single _ _) as [sg |]; cbn [bind]; [| reflexivity].
    destruct sg; try reflexivity; floor_step. }
  destruct (Segment_eqb (segment row) green).
  { destruct (_ <? 5)%Z; [reflexivity |].
    destruct (Qgtb _ 0.80).
    - floor_step.
    - destruct (apply_high_tier _ _ _ _ _) as [nb act]. floor_step. }
  destruct (Segment_eqb (segment row) yellow); [floor_step |].
  destruct (Segment_eqb (segment row) orange); [floor_step |].
  floor_step.
Qed.

Lemma bind_ok {A B : Type} (m : result A) (k : A -> result B) (b : B) :
  (x <- m ;; k x) = Ok b -> exists a, m = Ok a /\ k a = Ok b.
Proof.
  destruct m as [a | e]; cbn [bind]; intro H; [| discriminate].
  exists a. split; [reflexivity | exact H].
Qed.

(** What [optimize_bid] returns is the clamp of the branch's candidate. *)
Lemma optimize_bid_ok (row : Row) (kpi_d7 kpi_d2nd : Q)
    (p : option string * option Q) :
  optimize_bid row kpi_d7 kpi_d2nd = Ok p ->
  exists c, candidate row kpi_d7 kpi_d2nd = Ok c
            /\ p = clamp (effectiveBidFloor row) c.
Proof.
  rewrite optimize_bid_candidate. intro H.
  apply bind_ok in H. destruct H as [c [Hc Hp]].
  exists c. split; [exact Hc | congruence].
Qed.

(** The clamp of a candidate: the floor rounded under the label "Meet
    bid floor" when the candidate is below the floor, the candidate
    under its own label otherwise. *)
Lemma clamp_some (floor : option Q) (new_bid : Q) (label : string) :
  clamp floor (Some (new_bid, label)) =
    match floor with
    | Some f =>
        if Qltb new_bid f then (Some "Meet bid floor"%string, Some (round2 f))
        else (Some label, Some new_bid)
    | None => (Some label, Some new_bid)
    end.
Proof.
  unfold clamp, apply_floor.
  destruct floor as [f |]; [destruct (Qltb new_bid f) |]; reflexivity.
Qed.

(** C9.  Whatever the row, the pair [optimize_bid] returns is (null,
    null) or a label together with a bid: no branch gives one without
    the other. *)
Theorem optimize_bid_paired (row : Row) (kpi_d7 kpi_d2nd : Q)
    (a : option string) (b : option Q) :
  optimize_bid row kpi_d7 kpi_d2nd = Ok (a, b) ->
  (a = None /\ b = None) \/ (exists label bid, a = Some label /\ b = Some bid).
Proof.
  intro H. apply optimize_bid_ok in H. destruct H as [c [_ Hp]].
  destruct c as [[new_bid label] |].
  - right. rewrite clamp_some in Hp.
    destruct (effectiveBidFloor row) as [f |];
      [destruct (Qltb new_bid f) |]; inversion Hp; eauto.
  - left. cbn in Hp. inversion Hp. split; reflexivity.
Qed.

Lemma optimize_bid_paired_witness :
  optimize_bid cent_floor_row 0.10 0.05
    = Ok (Some "Meet bid floor"%string, Some 0.50) /\
  ((Some "Meet bid floor"%string = None /\ Some 0.50 = None)
   \/ (exists label bid,
          Some "Meet bid floor"%string = Some label /\ Some 0.50 = Some bid)).
Proof.
  split; [reflexivity |].
  apply (optimize_bid_paired cent_floor_row 0.10 0.05). reflexivity.
Defined.

(** ** Rounding to the nearest integer *)

Lemma Qcompare_Lt (x y : Q) : Qcompare x y = Lt -> x < y.
Proof. intro H. now apply Qlt_alt. Qed.

Lemma Qcompare_Gt (x y : Q) : Qcompare x y = Gt -> y < x.
Proof. intro H. apply Qgt_alt in H. exact H. Qed.

Lemma Qcompare_Eq (x y : Q) : Qcompare x y = Eq -> x == y.
Proof. intro H. now apply Qeq_alt. Qed.

(** An integer lies below the next one by exactly 1. *)
Lemma inject_Z_succ (n : Z) : inject_Z (n + 1) == inject_Z n + 1.
Proof. rewrite inject_Z_plus. reflexivity. Qed.

Lemma Qfloor_bounds (y : Q) :
  inject_Z (Qfloor y) <= y /\ y < inject_Z (Qfloor y) + 1.
Proof.
  split; [apply Qfloor_le |].
  rewrite <- inject_Z_succ. apply Qlt_floor.
Qed.

(** [round_half_even] is within one half of its argument, and on a tie
    it is even. *)
Lemma round_half_even_spec (y : Q) :
  let k := round_half_even y in
  inject_Z k - (1 # 2) <= y /\ y <= inject_Z k + (1 # 2) /\
  (y == inject_Z k - (1 # 2) \/ y == inject_Z k + (1 # 2) -> Z.even k = true).
Proof.
  unfold round_half_even.
  destruct (Qfloor_bounds y) as [Hlo Hhi].
  destruct (Qcompare (y - inject_Z (Qfloor y)) (1 # 2)) eqn:C.
  - apply Qcompare_Eq in C.
    destruct (Z.even (Qfloor y)) eqn:Ev.
    + repeat apply conj; [lra | lra | intros _; exact Ev].
    + rewrite inject_Z_succ. repeat apply conj; [lra | lra |].
      intros _. replace (Qfloor y + 1)%Z with (Z.succ (Qfloor y)) by lia.
      rewrite Z.even_succ, <- Z.negb_even, Ev. reflexivity.
  - apply Qcompare_Lt in C.
    repeat apply conj; [lra | lra | intros [E | E]; exfalso; lra].
  - apply Qcompare_Gt in C. rewrite inject_Z_succ.
    repeat apply conj; [lra | lra | intros [E | E]; exfalso; lra].
Qed.


(** ** Rounding to cents *)




(** ** Every amount of the optimizer is a rounded amount *)



(** A bid that [optimize_bid] recommends is the clamp of a candidate. *)
Lemma optimize_bid_some (row : Row) (kpi_d7 kpi_d2nd : Q)
    (label : option string) (bid : Q) :
  optimize_bid row kpi_d7 kpi_d2nd = Ok (label, Some bid) ->
  exists new_bid l,
    candidate row kpi_d7 kpi_d2nd = Ok (Some (new_bid, l))
    /\ clamp (effectiveBidFloor row) (Some (new_bid, l)) = (label, Some bid).
Proof.
  intro H. apply optimize_bid_ok in H. destruct H as [c [Hc Hp]].
  destruct c as [[new_bid l] |]; [| cbn in Hp; discriminate].
  exists new_bid, l. split; [exact Hc | now symmetry].
Qed.




(** ** Binary64: signs and comparisons

    The primitive operations are read through their specification on
    [spec_float] ([mul_spec], [add_spec], [leb_spec] and the like).
    Rounding keeps the sign: [binary_round_aux] shifts and increments
    a mantissa, which stays non-negative. *)

Lemma Prim2SF_zero : Prim2SF 0%float = S754_zero false.
Proof. reflexivity. Qed.

(** A number at or above zero is of that class. *)
Lemma leb_zero_nonneg (x : float) :
  (0 <=? x)%float = true -> Binary64.nonneg (Prim2SF x).
Proof.
  rewrite leb_spec, Prim2SF_zero. unfold SFleb, SFcompare.
  destruct (Prim2SF x) as [s | s | | s m e]; try destruct s; cbn;
    congruence || trivial.
Qed.

(** A number equal to zero is a zero, of either sign. *)
Lemma eqb_zero (x : float) :
  (x =? 0)%float = true -> exists s, Prim2SF x = S754_zero s.
Proof.
  rewrite eqb_spec, Prim2SF_zero. unfold SFeqb, SFcompare.
  destruct (Prim2SF x) as [s | s | | s m e]; try destruct s; cbn;
    try congruence; eauto.
Qed.

(** A zero is at or below every number of the class. *)
Lemma zero_leb_nonneg (t x : float) :
  (t =? 0)%float = true -> Binary64.nonneg (Prim2SF x) ->
  (t <=? x)%float = true.
Proof.
  intros Ht Hx. apply eqb_zero in Ht. destruct Ht as [s Ht].
  rewrite leb_spec, Ht. unfold SFleb, SFcompare.
  destruct (Prim2SF x) as [sx | sx | | sx m e]; try destruct sx; cbn in *;
    tauto || reflexivity.
Qed.

Lemma shr_1_nonneg (mrs : shr_record) :
  (0 <= shr_m mrs)%Z -> (0 <= shr_m (shr_1 mrs))%Z.
Proof.
  destruct mrs as [m r s]. cbn [shr_m]. intro H.
  destruct m as [| p | p]; [| destruct p | lia]; cbn; lia.
Qed.

Lemma iter_shr_1_nonneg (p : positive) (mrs : shr_record) :
  (0 <= shr_m mrs)%Z -> (0 <= shr_m (iter_pos shr_1 p mrs))%Z.
Proof.
  revert mrs. induction p as [p IH | p IH |]; intros mrs H; cbn [iter_pos].
  - apply IH, IH, shr_1_nonneg, H.
  - apply IH, IH, H.
  - apply shr_1_nonneg, H.
Qed.

Lemma shr_fexp_nonneg (m e : Z) (l : location) :
  (0 <= m)%Z -> (0 <= shr_m (fst (shr_fexp prec emax m e l)))%Z.
Proof.
  intro H. unfold shr_fexp, shr.
  assert (H0 : (0 <= shr_m (shr_record_of_loc m l))%Z).
  { destruct l as [| []]; exact H. }
  destruct (fexp prec emax (Zdigits2 m + e) - e)%Z; cbn [fst];
    [exact H0 | now apply iter_shr_1_nonneg | exact H0].
Qed.

Lemma round_nearest_even_nonneg (m : Z) (l : location) :
  (0 <= m)%Z -> (0 <= round_nearest_even m l)%Z.
Proof.
  intro H. destruct l as [| []]; cbn; [| destruct (Z.even m) | |]; lia.
Qed.

Lemma binary_round_aux_nonneg (mx ex : Z) (lx : location) :
  (0 <= mx)%Z -> Binary64.nonneg (binary_round_aux prec emax false mx ex lx).
Proof.
  intro H. unfold binary_round_aux.
  pose proof (shr_fexp_nonneg mx ex lx H) as H1.
  destruct (shr_fexp prec emax mx ex lx) as [mrs' e']. cbn [fst] in H1.
  pose proof (shr_fexp_nonneg _ e' loc_Exact
                (round_nearest_even_nonneg _ (loc_of_shr_record mrs') H1)) as H2.
  destruct (shr_fexp prec emax _ e' loc_Exact) as [mrs'' e'']. cbn [fst] in H2.
  destruct (shr_m mrs'') as [| m | m]; [exact I | | lia].
  destruct (e'' <=? emax - prec)%Z; exact I.
Qed.

(** The product of a positive finite number and a number not below
    zero is not below zero. *)
Lemma SFmul_nonneg (m : positive) (e : Z) (y : spec_float) :
  Binary64.nonneg y -> Binary64.nonneg (SFmul prec emax (S754_finite false m e) y).
Proof.
  destruct y as [s | s | | s my ey]; cbn [Binary64.nonneg SFmul xorb]; try tauto.
  destruct s; [tauto |]. intros _.
  apply binary_round_aux_nonneg. lia.
Qed.

Lemma binary_round_nonneg (m : positive) (e : Z) :
  Binary64.nonneg (binary_round prec emax false m e).
Proof.
  unfold binary_round. destruct (shl_align _ _ _) as [mz ez].
  apply binary_round_aux_nonneg. lia.
Qed.

(** So is the sum of two numbers not below zero. *)
Lemma SFadd_nonneg (x y : spec_float) :
  Binary64.nonneg x -> Binary64.nonneg y -> Binary64.nonneg (SFadd prec emax x y).
Proof.
  destruct x as [sx | sx | | sx mx ex]; destruct y as [sy | sy | | sy my ey];
    try destruct sx; try destruct sy; cbn [Binary64.nonneg SFadd]; try tauto.
  intros _ _. cbn [cond_Zopp Z.add binary_normalize].
  apply binary_round_nonneg.
Qed.

(** The two weights, as binary64 numbers. *)
Lemma weights_finite :
  Prim2SF Binary64.default_w_d7 = S754_finite false 7205759403792794 (-53) /\
  Prim2SF Binary64.default_w_d2nd = S754_finite false 7205759403792794 (-55).
Proof. split; reflexivity. Qed.

(** The weighted score of two KPI values not below zero is not below
    zero. *)
Lemma score_nonneg64 (roi_d7 roi_d2nd : float) :
  (0 <=? roi_d7)%float = true -> (0 <=? roi_d2nd)%float = true ->
  Binary64.nonneg (Prim2SF (Binary64.weighted_score roi_d7 roi_d2nd
                     Binary64.default_w_d7 Binary64.default_w_d2nd)).
Proof.
  intros H7 H2. unfold Binary64.weighted_score.
  rewrite add_spec, !mul_spec.
  destruct weights_finite as [-> ->].
  apply SFadd_nonneg; apply SFmul_nonneg; now apply leb_zero_nonneg.
Qed.

Lemma Pos_compare_cont_swap (p q : positive) :
  Pos.compare_cont Eq q p = CompOpp (Pos.compare_cont Eq p q).
Proof. symmetry. exact (Pos.compare_cont_antisym p q Eq). Qed.

(** Swapping the numbers compared swaps the answer. *)
Lemma SFcompare_antisym (x y : spec_float) :
  SFcompare y x = option_map CompOpp (SFcompare x y).
Proof.
  destruct x as [sx | sx | | sx mx ex]; destruct y as [sy | sy | | sy my ey];
    try destruct sx; try destruct sy; cbn; try reflexivity;
    rewrite (Z.compare_antisym ex ey);
    destruct (ex ?= ey)%Z; cbn; try reflexivity;
    rewrite (Pos_compare_cont_swap mx my);
    destruct (Pos.compare_cont Eq mx my); reflexivity.
Qed.

(** [x < y] excludes [y <= x]. *)
Lemma ltb_not_leb (x y : float) :
  (x <? y)%float = true -> (y <=? x)%float = false.
Proof.
  rewrite ltb_spec, leb_spec. unfold SFltb, SFleb.
  rewrite (SFcompare_antisym (Prim2SF x) (Prim2SF y)).
  destruct (SFcompare (Prim2SF x) (Prim2SF y)) as [[| |] |]; cbn; congruence.
Qed.

(** A number above zero is not zero. *)
Lemma gtb_zero_not_eqb (x : float) :
  (0 <? x)%float = true -> (x =? 0)%float = false.
Proof.
  rewrite ltb_spec, eqb_spec, Prim2SF_zero. unfold SFltb, SFeqb, SFcompare.
  destruct (Prim2SF x) as [s | s | | s m e]; try destruct s; cbn; congruence.
Qed.

(** A number compared with success is not a NaN. *)
Lemma leb_notna (x y : float) :
  (x <=? y)%float = true -> Binary64.notna y = true.
Proof.
  unfold Binary64.notna, is_nan. intro H. apply negb_true_iff, negb_false_iff.
  revert H. rewrite leb_spec, eqb_spec. unfold SFleb, SFeqb.
  destruct (Prim2SF x) as [sx | sx | | sx mx ex]; destruct (Prim2SF y) as [sy | sy | | sy my ey];
    try destruct sx; try destruct sy; cbn; try congruence;
  intros _; rewrite Z.compare_refl; cbn. 
  all: try (rewrite Pos.compare_cont_refl; reflexivity).
Qed.

(** ** Binary64: segmentation *)

(** Below the target the classifier reaches the bands: the target is
    not zero, because the score is not below zero. *)
Lemma segment_row_below64 (roi_d7 roi_d2nd kpi_d7 kpi_d2nd : float) :
  (0 <=? roi_d7)%float = true -> (0 <=? roi_d2nd)%float = true ->
  let score := Binary64.weighted_score roi_d7 roi_d2nd
                 Binary64.default_w_d7 Binary64.default_w_d2nd in
  let target := Binary64.kpi_target kpi_d7 kpi_d2nd
                  Binary64.default_w_d7 Binary64.default_w_d2nd in
  (target <=? score)%float = false ->
  Binary64.segment_row roi_d7 roi_d2nd kpi_d7 kpi_d2nd =
    if ((roi_d7 =? 0) && (roi_d2nd =? 0))%float then Ok red
    else if ((target - score) / target <=? 0.50)%float then Ok yellow
    else if ((target - score) / target <? 1.0)%float then Ok orange
    else Ok red.
Proof.
  intros H7 H2 score target H.
  unfold Binary64.segment_row, Binary64.geb. fold score target. rewrite H.
  destruct ((roi_d7 =? 0) && (roi_d2nd =? 0))%float; [reflexivity |].
  unfold Binary64.py_div.
  destruct (target =? 0)%float eqn:Z; [| reflexivity].
  pose proof (zero_leb_nonneg target score Z (score_nonneg64 _ _ H7 H2)).
  congruence.
Qed.

(** C3.  With the weights 0.8 / 0.2, KPI values not below zero and
    positive targets, [segment_row] answers green when the score
    reaches the target; otherwise red when both KPIs are exactly 0;
    otherwise, with pctBelow = (target - score) / target, yellow when
    pctBelow <= 0.50, orange when pctBelow < 1.0 and red otherwise;
    score, target and pctBelow being the binary64 numbers the code
    computes, and the tests the comparisons it makes.  It always
    answers: the division is never by zero there.  The record with
    KPIs 0.05 and 0.05 against the targets 0.10 and 0.05 is yellow. *)
Theorem segment_row_bands (roi_d7 roi_d2nd kpi_d7 kpi_d2nd : float) :
  (0 <=? roi_d7)%float = true -> (0 <=? roi_d2nd)%float = true ->
  (0 <? kpi_d7)%float = true -> (0 <? kpi_d2nd)%float = true ->
  let score := (0.80 * roi_d7 + 0.20 * roi_d2nd)%float in
  let target := (0.80 * kpi_d7 + 0.20 * kpi_d2nd)%float in
  let pctBelow := ((target - score) / target)%float in
  let both_zero := ((roi_d7 =? 0) && (roi_d2nd =? 0))%float in
  ((target <=? score)%float = true ->
   Binary64.segment_row roi_d7 roi_d2nd kpi_d7 kpi_d2nd = Ok green) /\
  ((target <=? score)%float = false -> both_zero = true ->
   Binary64.segment_row roi_d7 roi_d2nd kpi_d7 kpi_d2nd = Ok red) /\
  ((target <=? score)%float = false -> both_zero = false ->
   (pctBelow <=? 0.50)%float = true ->
   Binary64.segment_row roi_d7 roi_d2nd kpi_d7 kpi_d2nd = Ok yellow) /\
  ((target <=? score)%float = false -> both_zero = false ->
   (pctBelow <=? 0.50)%float = false -> (pctBelow <? 1.0)%float = true ->
   Binary64.segment_row roi_d7 roi_d2nd kpi_d7 kpi_d2nd = Ok orange) /\
  ((target <=? score)%float = false -> both_zero = false ->
   (pctBelow <=? 0.50)%float = false -> (pctBelow <? 1.0)%float = false ->
   Binary64.segment_row roi_d7 roi_d2nd kpi_d7 kpi_d2nd = Ok red) /\
  (exists s, Binary64.segment_row roi_d7 roi_d2nd kpi_d7 kpi_d2nd = Ok s) /\
  Binary64.segment_row 0.05 0.05 0.10 0.05 = Ok yellow.
Proof.
  intros H7 H2 _ _. cbv zeta.
  pose proof (segment_row_below64 roi_d7 roi_d2nd kpi_d7 kpi_d2nd H7 H2) as B.
  cbv zeta in B.
  unfold Binary64.weighted_score, Binary64.kpi_target,
    Binary64.default_w_d7, Binary64.default_w_d2nd in B.
  assert (G : (0.80 * kpi_d7 + 0.20 * kpi_d2nd
               <=? 0.80 * roi_d7 + 0.20 * roi_d2nd)%float = true ->
              Binary64.segment_row roi_d7 roi_d2nd kpi_d7 kpi_d2nd = Ok green).
  { intro H. unfold Binary64.segment_row, Binary64.geb,
      Binary64.weighted_score, Binary64.kpi_target,
      Binary64.default_w_d7, Binary64.default_w_d2nd.
    rewrite H. reflexivity. }
  repeat apply conj.
  - exact G.
  - intros H Z. rewrite (B H), Z. reflexivity.
  - intros H Z P. rewrite (B H), Z, P. reflexivity.
  - intros H Z P1 P2. rewrite (B H), Z, P1, P2. reflexivity.
  - intros H Z P1 P2. rewrite (B H), Z, P1, P2. reflexivity.
  - destruct (0.80 * kpi_d7 + 0.20 * kpi_d2nd
              <=? 0.80 * roi_d7 + 0.20 * roi_d2nd)%float eqn:H;
      [exists green; now apply G |].
    rewrite (B eq_refl).
    repeat match goal with
      | |- context [if ?b then _ else _] => destruct b
      end; eexists; reflexivity.
  - reflexivity.
Qed.

Lemma segment_row_bands_witness :
  (0 <=? 0.02)%float = true /\ (0 <=? 0.07)%float = true /\
  (0 <? 0.10)%float = true /\ (0 <? 0.05)%float = true /\
  Binary64.segment_row 0.02 0.07 0.10 0.05 = Ok orange.
Proof.
  repeat apply conj; [reflexivity | reflexivity | reflexivity | reflexivity |].
  apply (segment_row_bands 0.02 0.07 0.10 0.05); reflexivity.
Defined.

(** Rows on a decimal boundary are classified by the binary values:
    0.8 * 0.10 + 0.2 * 0.05 is computed as 0.09000000000000002, above
    the score 0.09 of the first row. *)
Lemma segment_row_decimal_boundaries :
  Binary64.segment_row 0.09 0.09 0.10 0.05 = Ok yellow /\
  Binary64.segment_row 0.045 0.045 0.10 0.05 = Ok orange.
Proof. split; reflexivity. Qed.

(** ** Binary64: daily-cap advisor *)

(** C8.  The advisor answers nothing when spend <= 1000.  Above 1000 it
    answers "Suggest pause" when both KPIs are exactly 0; "Add daily
    cap $X.XX", X being round(spend / 30 * 0.50, 2) printed with two
    decimals, when the bid is at or below the floor and a KPI is
    positive; and nothing otherwise.  Spend 1500 with bid and floor
    0.50 and primary KPI 0.02 gives "Add daily cap $25.00".  The
    numbers and the tests are those of binary64; a null floor is a
    NaN, which no bid is at or below. *)
Theorem daily_cap_cases (row : Binary64.Row) :
  let spend := Binary64.spend row in
  let d7 := Binary64.d7_col row in
  let d2nd := Binary64.d2nd_col row in
  let both_zero := ((d7 =? 0) && (d2nd =? 0))%float in
  let at_floor := (Binary64.bidRate row <=? Binary64.effectiveBidFloor row)%float in
  let has_perf := ((0 <? d7) || (0 <? d2nd))%float in
  ((spend <=? 1000)%float = true -> Binary64.get_daily_cap_suggestion row = None) /\
  ((1000 <? spend)%float = true -> both_zero = true ->
   Binary64.get_daily_cap_suggestion row = Some "Suggest pause"%string) /\
  ((1000 <? spend)%float = true -> at_floor = true -> has_perf = true ->
   Binary64.get_daily_cap_suggestion row =
     Some ("Add daily cap $"
           ++ Binary64.format_2f (Binary64.round2 (spend / 30 * 0.50)))%string) /\
  ((1000 <? spend)%float = true -> both_zero = false ->
   at_floor && has_perf = false ->
   Binary64.get_daily_cap_suggestion row = None) /\
  (spend = 1500%float -> Binary64.effectiveBidFloor row = 0.50%float ->
   Binary64.bidRate row = 0.50%float -> d7 = 0.02%float ->
   Binary64.get_daily_cap_suggestion row = Some "Add daily cap $25.00"%string) /\
  (Binary64.format_2f 25 = "25.00" /\ Binary64.format_2f 16.75 = "16.75"
   /\ Binary64.format_2f 0.5 = "0.50" /\ Binary64.format_2f 1234.5 = "1234.50")%string.
Proof.
  cbv zeta.
  assert (Hfloor :
    match Binary64.nullable (Binary64.effectiveBidFloor row) with
    | Some f => (Binary64.bidRate row <=? f)%float
    | None => false
    end = (Binary64.bidRate row <=? Binary64.effectiveBidFloor row)%float).
  { unfold Binary64.nullable.
    destruct (Binary64.notna (Binary64.effectiveBidFloor row)) eqn:N;
      [reflexivity |].
    destruct (Binary64.bidRate row <=? Binary64.effectiveBidFloor row)%float eqn:L;
      [| reflexivity].
    apply leb_notna in L. congruence. }
  assert (Hcap : (1000 <? Binary64.spend row)%float = true ->
    (Binary64.bidRate row <=? Binary64.effectiveBidFloor row)%float = true ->
    ((0 <? Binary64.d7_col row) || (0 <? Binary64.d2nd_col row))%float = true ->
    Binary64.get_daily_cap_suggestion row =
      Some ("Add daily cap $"
            ++ Binary64.format_2f
                 (Binary64.round2 (Binary64.spend row / 30 * 0.50)))%string).
  { intros Hs Hb Hp. unfold Binary64.get_daily_cap_suggestion, Binary64.gtb.
    rewrite (ltb_not_leb _ _ Hs), Hfloor, Hb, Hp.
    assert (Z : ((Binary64.d7_col row =? 0) && (Binary64.d2nd_col row =? 0))%float
                = false).
    { apply orb_true_iff in Hp. destruct Hp as [Hp | Hp];
        rewrite (gtb_zero_not_eqb _ Hp); [reflexivity | apply andb_false_r]. }
    rewrite Z. reflexivity. }
  repeat apply conj.
  - intro Hs. unfold Binary64.get_daily_cap_suggestion. rewrite Hs. reflexivity.
  - intros Hs Z. unfold Binary64.get_daily_cap_suggestion.
    rewrite (ltb_not_leb _ _ Hs), Z. reflexivity.
  - exact Hcap.
  - intros Hs Z Hn. unfold Binary64.get_daily_cap_suggestion, Binary64.gtb.
    rewrite (ltb_not_leb _ _ Hs), Z, Hfloor, Hn. reflexivity.
  - intros Hs Hf Hb H7.
    rewrite Hcap; rewrite ?Hs, ?Hf, ?Hb, ?H7; reflexivity.
  - reflexivity.
  - reflexivity.
  - reflexivity.
  - reflexivity.
Qed.

Lemma daily_cap_cases_witness :
  Binary64.spend Binary64.at_floor_row = 1500%float /\
  Binary64.effectiveBidFloor Binary64.at_floor_row = 0.50%float /\
  Binary64.bidRate Binary64.at_floor_row = 0.50%float /\
  Binary64.d7_col Binary64.at_floor_row = 0.02%float /\
  Binary64.get_daily_cap_suggestion Binary64.at_floor_row
    = Some "Add daily cap $25.00"%string.
Proof.
  repeat apply conj; [reflexivity | reflexivity | reflexivity | reflexivity |].
  apply (daily_cap_cases Binary64.at_floor_row); reflexivity.
Defined.

(** The daily amount of a spend of 1004.70 is computed as
    16.745000000000001, above the half cent: the advisor prints
    16.75. *)
Lemma daily_cap_binary_value :
  Binary64.get_daily_cap_suggestion Binary64.near_cent_row
    = Some "Add daily cap $16.75"%string.
Proof. reflexivity. Qed.

(** ** Binary64: rounding of the monetary outputs *)

(** [round] and the [.2f] format on numbers written as a decimal tie:
    the binary value decides, and it is a tie for -0.125 alone. *)
Lemma round2_samples :
  map (fun x => (Binary64.round2 x, Binary64.format_2f x))
      [2.675; 1.005; 1.115; 0.285; 0.005; -0.125; -0.001]%float
  = [(2.67, "2.67"); (1.0, "1.00"); (1.11, "1.11"); (0.28, "0.28");
     (0.01, "0.01"); (-0.12, "-0.12"); (-0, "-0.00")]%float%string.
Proof. reflexivity. Qed.

(** The answer of the floor clamp is the candidate rounded, or the
    floor rounded. *)
Lemma apply_floor_rounded64 (floor : option float) (new_bid : float) :
  Binary64.apply_floor floor new_bid = (Binary64.round2 new_bid, None)
  \/ exists f, floor = Some f
               /\ Binary64.apply_floor floor new_bid
                  = (Binary64.round2 f, Some "Meet bid floor"%string).
Proof.
  unfold Binary64.apply_floor.
  destruct floor as [f |]; [destruct (new_bid <? f)%float |]; eauto.
Qed.

(** The answer of the tier cap is the candidate rounded, the bid raised
    by 15% rounded, or the smaller of candidate and tier rounded. *)
Lemma apply_high_tier_rounded64 (bid : float) (high_tier : option float)
    (fill_rate new_bid pct capped : float) (label : string) :
  Binary64.apply_high_tier bid high_tier fill_rate new_bid pct = Ok (capped, label) ->
  (high_tier = None /\ capped = Binary64.round2 new_bid)
  \/ capped = Binary64.round2 (bid * 1.15)
  \/ exists ht, high_tier = Some ht
                /\ capped = Binary64.round2 (Binary64.py_min new_bid ht).
Proof.
  unfold Binary64.apply_high_tier.
  destruct high_tier as [ht |].
  - destruct (Binary64.gtb bid ht && (fill_rate <? 0.70)%float).
    + intro E. inversion E. auto.
    + destruct (Binary64.py_int _); cbn [bind]; intro E; inversion E. eauto.
  - destruct (Binary64.py_int _); cbn [bind]; intro E; inversion E. auto.
Qed.

(** What the clamp lets through: the floor rounded when it fires, what
    the branch returns when it does not. *)
Lemma floor_step64 (floor : option float) (new_bid : float)
    (rest : result (option string * option float))
    (label : option string) (b : float) :
  (let '(floored, floor_action) := Binary64.apply_floor floor new_bid in
   if truthy floor_action then Ok (floor_action, Some floored) else rest)
  = Ok (label, Some b) ->
  (exists f, floor = Some f /\ b = Binary64.round2 f) \/ rest = Ok (label, Some b).
Proof.
  destruct (apply_floor_rounded64 floor new_bid) as [E | [f [F E]]];
    rewrite E; cbn [truthy String.eqb negb].
  - auto.
  - intro H. inversion H. eauto.
Qed.

Ltac floor_case :=
  let H := fresh "H" in
  intro H; apply floor_step64 in H;
  destruct H as [[f [H1 H2]] | H];
  [ right; right; right; now exists f
  | repeat match type of H with
      | (_ <- ?m ;; _) = Ok _ => destruct m; cbn [bind] in H
      end;
    inversion H ].

(** Every bid the optimizer recommends is one of the rounded amounts
    of [recommended_amount]. *)
Lemma optimize_bid_rounded64 (row : Binary64.Row) (kpi_d7 kpi_d2nd : float)
    (label : option string) (b : float) :
  Binary64.optimize_bid row kpi_d7 kpi_d2nd = Ok (label, Some b) ->
  Binary64.recommended_amount row b.
Proof.
  unfold Binary64.optimize_bid, Binary64.recommended_amount. cbv zeta.
  assert (HT : forall fr c pct,
    (tiered <- Binary64.apply_high_tier (Binary64.bidRate row)
                 (Binary64.nullable (Binary64.highTier row)) fr
                 (Binary64.round2 (Binary64.bidRate row * c)) pct ;;
     let '(new_bid, action) := tiered in
     let '(floored, floor_action) :=
       Binary64.apply_floor (Binary64.nullable (Binary64.effectiveBidFloor row)) new_bid in
     if truthy floor_action then Ok (floor_action, Some floored)
     else Ok (Some action, Some new_bid)) = Ok (label, Some b) ->
    (exists c, b = Binary64.round2 (Binary64.bidRate row * c))
    \/ (exists c, b = Binary64.round2 (Binary64.round2 (Binary64.bidRate row * c)))
    \/ (exists c ht, Binary64.nullable (Binary64.highTier row) = Some ht
          /\ b = Binary64.round2
                   (Binary64.py_min (Binary64.round2 (Binary64.bidRate row * c)) ht))
    \/ (exists f, Binary64.nullable (Binary64.effectiveBidFloor row) = Some f
                  /\ b = Binary64.round2 f)).
  { intros fr c pct H. apply bind_ok in H.
    destruct H as [[nb act] [T H]].
    apply apply_high_tier_rounded64 in T.
    revert H. floor_case. subst.
    destruct T as [[_ T] | [T | [t [Ht T]]]]; subst;
      [ right; left; now exists c
      | left; now exists 1.15%float
      | right; right; left; exists c, t; auto ]. }
  destruct (Binary64.pct_above _ _); cbn [bind]; [| discriminate].
  destruct (Binary64.pct_below _ _); cbn [bind]; [| discriminate].
  destruct (Binary64.discard row); [discriminate |].
  destruct (match Binary64.nullable (Binary64.effectiveBidFloor row) with
            | Some f => _ | None => false end); [discriminate |].
  destruct (Progression_eqb (Binary64.progression row) good && _ && _).
  { destruct (if Binary64.gtb (Binary64.d7_col row) 0 then _ else _);
      cbn [bind]; [apply HT | discriminate]. }
  destruct (Progression_eqb (Binary64.progression row) poor).
  { destruct (Binary64.spend row <? 100)%float; [discriminate |].
    destruct (Binary64.segment_single _ _) as [sg |]; cbn [bind]; [| discriminate].
    destruct sg; try discriminate; floor_case; eauto. }
  destruct (Segment_eqb (Binary64.segment row) green).
  { destruct (_ <? 5)%Z; [discriminate |].
    destruct (Binary64.gtb _ 0.80); [| apply HT].
    destruct (Binary64.nullable (Binary64.highTier row)) as [ht |] eqn:Ht.
    - destruct (apply_floor_rounded64
                  (Binary64.nullable (Binary64.effectiveBidFloor row))
                  (Binary64.round2 (Binary64.py_min
                     (Binary64.round2 (Binary64.bidRate row * 1.15)) ht)))
        as [E | [f [F E]]]; rewrite E; cbn [truthy String.eqb negb];
        intro H; inversion H;
        [ right; right; left; exists 1.15%float, ht; auto
        | right; right; right; now exists f ].
    - destruct (apply_floor_rounded64
                  (Binary64.nullable (Binary64.effectiveBidFloor row))
                  (Binary64.round2 (Binary64.bidRate row * 1.15)))
        as [E | [f [F E]]]; rewrite E; cbn [truthy String.eqb negb];
        intro H; inversion H;
        [ left; now exists 1.15%float | right; right; right; now exists f ]. }
  destruct (Segment_eqb (Binary64.segment row) yellow); [floor_case; eauto |].
  destruct (Segment_eqb (Binary64.segment row) orange); [floor_case; eauto |].
  floor_case; eauto.
Qed.

(** A comparison that succeeds has no NaN on its right. *)
Lemma ltb_notna (x y : float) :
  (x <? y)%float = true -> Binary64.notna y = true.
Proof.
  unfold Binary64.notna, is_nan. intro H. apply negb_true_iff, negb_false_iff.
  revert H. rewrite ltb_spec, eqb_spec. unfold SFltb, SFeqb.
  destruct (Prim2SF x) as [sx | sx | | sx mx ex];
    destruct (Prim2SF y) as [sy | sy | | sy my ey];
    try destruct sx; try destruct sy; cbn; try congruence;
    intros _; rewrite Z.compare_refl; cbn;
    rewrite Pos.compare_cont_refl; reflexivity.
Qed.

(** Neither percentage of the optimizer raises. *)
Lemma pct_total64 (score target : float) :
  (exists a, Binary64.pct_above score target = Ok a) /\
  (exists b, Binary64.pct_below score target = Ok b).
Proof.
  unfold Binary64.pct_above, Binary64.pct_below, Binary64.gtb, Binary64.py_div.
  destruct (0 <? target)%float eqn:G; [| eauto].
  rewrite (gtb_zero_not_eqb _ G). eauto.
Qed.

(** The tier cap rounds again what the branch has rounded: a green row
    with a fill rate above 0.80, a tier and no floor. *)
Lemma tier_cap_rounds_again (row : Binary64.Row) (kpi_d7 kpi_d2nd ht : float)
    (n : Z) :
  Binary64.discard row = false ->
  Binary64.nullable (Binary64.effectiveBidFloor row) = None ->
  Binary64.progression row = flat -> Binary64.segment row = green ->
  Binary64.installs row = Some n -> (5 <= n)%Z ->
  (0.80 <? Binary64.fillRate row)%float = true ->
  Binary64.nullable (Binary64.highTier row) = Some ht ->
  Binary64.optimize_bid row kpi_d7 kpi_d2nd =
    Ok (Some "Increase bid 15%"%string,
        Some (Binary64.round2
                (Binary64.py_min
                   (Binary64.round2 (Binary64.bidRate row * 1.15)) ht))).
Proof.
  intros Hd Hf Hp Hs Hi Hn Hfill Ht. unfold Binary64.optimize_bid.
  destruct (pct_total64
              (Binary64.weighted_score (Binary64.d7_col row) (Binary64.d2nd_col row)
                 Binary64.default_w_d7 Binary64.default_w_d2nd)
              (Binary64.kpi_target kpi_d7 kpi_d2nd
                 Binary64.default_w_d7 Binary64.default_w_d2nd))
    as [[a ->] [b ->]].
  cbn [bind]. rewrite Hd, Hf, Hp, Hs, Hi, Ht, (ltb_notna _ _ Hfill).
  cbn [Progression_eqb Segment_eqb andb notna_or]. unfold Binary64.gtb.
  rewrite Hfill. replace (n <? 5)%Z with false by (symmetry; apply Z.ltb_ge; lia).
  reflexivity.
Qed.

(** C5.  [round2], the rounding of every monetary output, takes the
    exact value of the binary64 number to the nearest whole number of
    cents, a tie going to the even one (not up), and returns the
    binary64 number nearest to that amount.  Each step rounds where it
    computes: the tier cap and the floor clamp each return a rounded
    amount, the tier cap rounds again the amount the branch has
    rounded, every recommended bid is the branch's amount rounded, that
    amount rounded again by the tier cap, or the floor rounded, and
    the daily cap printed is spend / 30 * 0.50 rounded. *)
Theorem monetary_outputs_rounded :
  (forall x s m e,
     Prim2SF x = S754_finite s m e ->
     let cents := (Binary64.magnitude m e * 100)%Q in
     let k := round_half_even cents in
     Binary64.round2 x = Binary64.of_cents s k /\
     (inject_Z k - (1 # 2) <= cents <= inject_Z k + (1 # 2))%Q /\
     ((cents == inject_Z k - (1 # 2))%Q \/ (cents == inject_Z k + (1 # 2))%Q ->
      Z.even k = true)) /\
  (Binary64.round2 0.125 = 0.12 /\ Binary64.round2 0.375 = 0.38 /\
   Binary64.round2 (0.5 * 1.15) = 0.57)%float /\
  (forall bid high_tier fill_rate new_bid pct capped label,
     Binary64.apply_high_tier bid high_tier fill_rate new_bid pct
       = Ok (capped, label) ->
     (high_tier = None /\ capped = Binary64.round2 new_bid)
     \/ capped = Binary64.round2 (bid * 1.15)
     \/ exists ht, high_tier = Some ht
                   /\ capped = Binary64.round2 (Binary64.py_min new_bid ht)) /\
  (forall floor new_bid,
     Binary64.apply_floor floor new_bid = (Binary64.round2 new_bid, None)
     \/ exists f, floor = Some f
                  /\ Binary64.apply_floor floor new_bid
                     = (Binary64.round2 f, Some "Meet bid floor"%string)) /\
  (forall row kpi_d7 kpi_d2nd ht n,
     Binary64.discard row = false ->
     Binary64.nullable (Binary64.effectiveBidFloor row) = None ->
     Binary64.progression row = flat -> Binary64.segment row = green ->
     Binary64.installs row = Some n -> (5 <= n)%Z ->
     (0.80 <? Binary64.fillRate row)%float = true ->
     Binary64.nullable (Binary64.highTier row) = Some ht ->
     Binary64.optimize_bid row kpi_d7 kpi_d2nd =
       Ok (Some "Increase bid 15%"%string,
           Some (Binary64.round2
                   (Binary64.py_min
                      (Binary64.round2 (Binary64.bidRate row * 1.15)) ht)))) /\
  (forall row kpi_d7 kpi_d2nd label bid,
     Binary64.optimize_bid row kpi_d7 kpi_d2nd = Ok (label, Some bid) ->
     Binary64.recommended_amount row bid) /\
  (forall row s,
     Binary64.get_daily_cap_suggestion row = Some s ->
     s = "Suggest pause"%string \/
     s = ("Add daily cap $"
          ++ Binary64.format_2f
               (Binary64.round2 (Binary64.spend row / 30 * 0.50)))%string).
Proof.
  repeat apply conj.
  - intros x s m e Hx cents k. split.
    + unfold Binary64.round2. rewrite Hx. reflexivity.
    + destruct (round_half_even_spec cents) as [H1 [H2 H3]].
      repeat apply conj; assumption.
  - reflexivity.
  - reflexivity.
  - reflexivity.
  - exact apply_high_tier_rounded64.
  - exact apply_floor_rounded64.
  - exact tier_cap_rounds_again.
  - exact optimize_bid_rounded64.
  - intros row s. unfold Binary64.get_daily_cap_suggestion.
    repeat match goal with
      | |- context [if ?b then _ else _] => destruct b
      end; intro E; inversion E; auto.
Qed.

Lemma monetary_outputs_rounded_witness :
  Binary64.optimize_bid Binary64.yellow_row 0.10 0.05
    = Ok (Some "Meet bid floor"%string, Some 0.60%float) /\
  Binary64.recommended_amount Binary64.yellow_row 0.60%float.
Proof.
  split; [reflexivity |].
  destruct monetary_outputs_rounded as [_ [_ [_ [_ [_ [H _]]]]]].
  apply (H Binary64.yellow_row 0.10%float 0.05%float
           (Some "Meet bid floor"%string) 0.60%float).
  reflexivity.
Defined.

(** C5 as first stated fails on a tie.  The daily amount of a spend of
    1507.50 is 25.125, exactly: the advisor prints 25.12, where
    rounding half up gives 25.13. *)
Lemma half_up_counterexample :
  Prim2SF (Binary64.spend Binary64.half_cent_row / 30 * 0.50)
    = S754_finite false 7072058789855232 (-48) /\
  (Binary64.magnitude 7072058789855232 (-48) == 25.125)%Q /\
  Binary64.get_daily_cap_suggestion Binary64.half_cent_row
    = Some "Add daily cap $25.12"%string /\
  Binary64.round2_half_up (Binary64.spend Binary64.half_cent_row / 30 * 0.50)
    = 25.13%float /\
  Binary64.round2 (Binary64.spend Binary64.half_cent_row / 30 * 0.50)
    = 25.12%float.
Proof.
  repeat apply conj;
    [reflexivity | by_compute | reflexivity | reflexivity | reflexivity].
Qed.

(** ** The fallbacks of [pct_above] and [pct_below] *)

Lemma pct_above_total (score target : Q) :
  exists a, pct_above score target = Ok a.
Proof.
  unfold pct_above, Qgtb. destruct (Qltb 0 target) eqn:E; [| eauto].
  reflect_Q. rewrite py_div_ok by (intro Z; lra). eauto.
Qed.

Lemma pct_below_total (score target : Q) :
  exists b, pct_below score target = Ok b.
Proof.
  unfold pct_below, Qgtb. destruct (Qltb 0 target) eqn:E; [| eauto].
  reflect_Q. rewrite py_div_ok by (intro Z; lra). eauto.
Qed.

(** C6.  [pct_above] and [pct_below] never raise; when the weighted
    target is not greater than 0, [pct_above] is 0 and [pct_below]
    is 1. *)
Theorem pct_fallbacks (score target : Q) :
  ~ 0 < target ->
  pct_above score target = Ok 0 /\ pct_below score target = Ok 1 /\
  forall score' target',
    (exists a, pct_above score' target' = Ok a) /\
    (exists b, pct_below score' target' = Ok b).
Proof.
  intro H.
  assert (E : Qgtb target 0 = false).
  { unfold Qgtb. apply Qltb_intro_false. now apply Qnot_lt_le. }
  repeat apply conj.
  - unfold pct_above. rewrite E. reflexivity.
  - unfold pct_below. rewrite E. reflexivity.
  - intros score' target'. split;
      [apply pct_above_total | apply pct_below_total].
Qed.

Lemma pct_fallbacks_witness :
  ~ 0 < kpi_target (-0.10) (-0.10) default_w_d7 default_w_d2nd /\
  pct_above (weighted_score (-0.12) (-0.12) default_w_d7 default_w_d2nd)
            (kpi_target (-0.10) (-0.10) default_w_d7 default_w_d2nd) = Ok 0.
Proof.
  split; [by_compute |].
  apply (pct_fallbacks
           (weighted_score (-0.12) (-0.12) default_w_d7 default_w_d2nd)
           (kpi_target (-0.10) (-0.10) default_w_d7 default_w_d2nd)).
  by_compute.
Defined.

(** C6 as first stated fails for [pct_below]: under a target that is
    not positive it is 1, not 0.  With targets of -0.10 the row with
    KPIs of -0.12 is segmented yellow, and the yellow branch, reading
    [pct_below] = 1 > 0.25, decreases by 15% where 0 would decrease
    by 10%. *)
Lemma pct_below_counterexample :
  ~ 0 < kpi_target (-0.10) (-0.10) default_w_d7 default_w_d2nd /\
  pct_below (weighted_score (-0.12) (-0.12) default_w_d7 default_w_d2nd)
            (kpi_target (-0.10) (-0.10) default_w_d7 default_w_d2nd) = Ok 1 /\
  ~ 1 == 0 /\
  exists lines,
    run_optimization [negative_kpi_row] (-0.10) (-0.10) = Ok lines /\
    map (fun l => segment (line_row l)) lines = [yellow] /\
    map action lines = [Some "Decrease bid 15%"%string] /\
    map recommended_bid lines = [Some 0.85].
Proof.
  repeat apply conj; [by_compute | reflexivity | by_compute |].
  eexists. repeat apply conj; reflexivity.
Qed.

(** ** The pipeline *)

Lemma mapM_total {A B : Type} (f : A -> result B) (l : list A) :
  (forall a, In a l -> exists b, f a = Ok b) ->
  exists bs, mapM f l = Ok bs /\ List.length bs = List.length l.
Proof.
  induction l as [| a l IH]; intro H.
  - exists []. split; reflexivity.
  - destruct (H a (or_introl eq_refl)) as [b Hb].
    destruct IH as [bs [Hbs Hlen]].
    { intros a' Ha'. apply H. now right. }
    exists (b :: bs). cbn [mapM]. rewrite Hb. cbn [bind]. rewrite Hbs.
    cbn [bind List.length]. split; [reflexivity | now rewrite Hlen].
Qed.

Lemma mapM_In {A B : Type} (f : A -> result B) (l : list A) (bs : list B) :
  mapM f l = Ok bs ->
  forall b, In b bs -> exists a, In a l /\ f a = Ok b.
Proof.
  revert bs. induction l as [| a l IH]; intros bs H b Hb.
  - inversion H; subst. destruct Hb.
  - cbn [mapM] in H.
    apply bind_ok in H. destruct H as [b0 [Hb0 H]].
    apply bind_ok in H. destruct H as [bs0 [Hbs0 H]].
    inversion H; subst. destruct Hb as [Hb | Hb].
    + subst. exists a. split; [now left | exact Hb0].
    + destruct (IH bs0 Hbs0 b Hb) as [a' [Ha' Hf]].
      exists a'. split; [now right | exact Hf].
Qed.

(** No branch of the optimizer divides by zero on a row whose secondary
    KPI is not negative. *)
Lemma candidate_total (row : Row) (kpi_d7 kpi_d2nd : Q) :
  0 <= d2nd_col row -> exists c, candidate row kpi_d7 kpi_d2nd = Ok c.
Proof.
  intro H2. unfold candidate.
  destruct (pct_above_total
              (weighted_score (d7_col row) (d2nd_col row) default_w_d7 default_w_d2nd)
              (kpi_target kpi_d7 kpi_d2nd default_w_d7 default_w_d2nd)) as [a Ha].
  destruct (pct_below_total
              (weighted_score (d7_col row) (d2nd_col row) default_w_d7 default_w_d2nd)
              (kpi_target kpi_d7 kpi_d2nd default_w_d7 default_w_d2nd)) as [b Hb].
  rewrite Ha, Hb. cbn [bind].
  destruct (discard row); [eauto |].
  destruct (match effectiveBidFloor row with Some f => Qle_bool (bidRate row) f | None => false end);
    [eauto |].
  destruct (Progression_eqb (progression row) good && _ && Qgtb (d7_col row) 0) eqn:G.
  { apply andb_true_iff in G. destruct G as [_ G]. rewrite G.
    unfold Qgtb in G. reflect_Q.
    rewrite py_div_ok by (intro Z; lra). cbn [bind]. eauto. }
  destruct (Progression_eqb (progression row) poor).
  { destruct (Qltb (spend row) 100); [eauto |].
    destruct (segment_single_total (d2nd_col row) kpi_d2nd H2) as [sg Hsg].
    rewrite Hsg. cbn [bind]. destruct sg; eauto. }
  repeat match goal with
    | |- context [if ?c then _ else _] => destruct c
    end; eauto.
Qed.

Lemma optimize_bid_total (row : Row) (kpi_d7 kpi_d2nd : Q) :
  0 <= d2nd_col row -> exists p, optimize_bid row kpi_d7 kpi_d2nd = Ok p.
Proof.
  intro H2. rewrite optimize_bid_candidate.
  destruct (candidate_total row kpi_d7 kpi_d2nd H2) as [c Hc].
  rewrite Hc. cbn [bind]. eauto.
Qed.

(** On rows whose KPIs are not negative the run returns one line for
    each, whatever the two targets. *)
Lemma run_optimization_total (internal : list Row) (kpi_d7 kpi_d2nd : Q) :
  (forall r, In r internal -> 0 <= d7_col r /\ 0 <= d2nd_col r) ->
  exists lines,
    run_optimization internal kpi_d7 kpi_d2nd = Ok lines
    /\ List.length lines = List.length internal.
Proof.
  intro H. unfold run_optimization.
  destruct (mapM_total
              (fun r => s <- segment_row (d7_col r) (d2nd_col r) kpi_d7 kpi_d2nd ;;
                        Ok (set_segments r s (get_progression (d7_col r) (d2nd_col r))))
              internal) as [segs [Hsegs Hlen]].
  { intros r Hr. destruct (H r Hr) as [H7 H2].
    destruct (segment_row_total _ _ kpi_d7 kpi_d2nd H7 H2) as [s Hs].
    rewrite Hs. cbn [bind]. eauto. }
  unfold add_segments. rewrite Hsegs. cbn [bind].
  set (rows := map (fun r => set_discard r (should_discard r))
                   (map (fun r => set_roi_d7 r (d7_col r)) segs)).
  assert (Hrows : forall r, In r rows -> 0 <= d2nd_col r).
  { intros r Hr. unfold rows in Hr.
    apply in_map_iff in Hr. destruct Hr as [r1 [E1 Hr1]].
    apply in_map_iff in Hr1. destruct Hr1 as [r2 [E2 Hr2]].
    destruct (mapM_In _ _ _ Hsegs r2 Hr2) as [r3 [Hr3 E3]].
    apply bind_ok in E3. destruct E3 as [s [_ E3]]. inversion E3.
    subst. cbn. apply (H r3 Hr3). }
  destruct (mapM_total (fun r => optimize_bid r kpi_d7 kpi_d2nd) rows)
    as [results [Hres Hlen']].
  { intros r Hr. apply optimize_bid_total. now apply Hrows. }
  rewrite Hres. cbn [bind]. eexists. split; [reflexivity |].
  rewrite length_map, !length_combine, length_map, Hlen'.
  unfold rows. rewrite !length_map, Hlen. lia.
Qed.

(** C2.  The entry point takes no weights: the call the application
    makes, which passes [w_d7] and [w_d2nd], is a [TypeError], and the
    classifier scores with the fixed weights 0.80 / 0.20.  The record
    with KPIs 0.02 and 0.20 against the targets 0.10 and 0.05 is
    yellow, though with weights 0.5 / 0.5 its score reaches the
    target. *)
Theorem weights_not_accepted :
  (forall internal kpi_d7 kpi_d2nd,
     call_run_optimization app_call_keywords internal kpi_d7 kpi_d2nd
       = Raise (TypeError "w_d7")) /\
  segment_row 0.02 0.20 0.10 0.05 = Ok yellow /\
  kpi_target 0.10 0.05 0.5 0.5 <= weighted_score 0.02 0.20 0.5 0.5.
Proof.
  repeat apply conj; [intros; reflexivity | reflexivity | by_compute].
Qed.

(** ** Characters and strings *)

Ltac each_ascii c :=
  destruct c as [[|] [|] [|] [|] [|] [|] [|] [|]].

Lemma letter_not_space (c : ascii) : is_letter c = true -> is_space c = false.
Proof. each_ascii c; vm_compute; congruence. Qed.

Lemma upper_lower_ascii (c : ascii) : upper_ascii (lower_ascii c) = upper_ascii c.
Proof. each_ascii c; reflexivity. Qed.

Lemma upper_lower (s : string) : upper (lower s) = upper s.
Proof.
  induction s as [| c s IH]; [reflexivity |].
  cbn [lower upper]. now rewrite upper_lower_ascii, IH.
Qed.

Lemma lower_ascii_letter (c : ascii) : is_letter (lower_ascii c) = is_letter c.
Proof. each_ascii c; reflexivity. Qed.

Lemma lower_ascii_space (c : ascii) : is_space (lower_ascii c) = is_space c.
Proof. each_ascii c; reflexivity. Qed.

Lemma chars_app (a b : string) :
  list_ascii_of_string (a ++ b) = (list_ascii_of_string a ++ list_ascii_of_string b)%list.
Proof.
  induction a as [| c a IH]; [reflexivity |].
  cbn. now rewrite IH.
Qed.

Lemma chars_upper (s : string) :
  list_ascii_of_string (upper s) = map upper_ascii (list_ascii_of_string s).
Proof.
  induction s as [| c s IH]; [reflexivity |]. cbn. now rewrite IH.
Qed.

Lemma chars_lower (s : string) :
  list_ascii_of_string (lower s) = map lower_ascii (list_ascii_of_string s).
Proof.
  induction s as [| c s IH]; [reflexivity |]. cbn. now rewrite IH.
Qed.

Lemma forallb_rev_true {A : Type} (f : A -> bool) (l : list A) :
  forallb f l = true -> forallb f (rev l) = true.
Proof.
  rewrite !forallb_forall. intros H x Hx. apply H. now apply in_rev.
Qed.

Lemma letters_lower (s : string) : letters s = true -> letters (lower s) = true.
Proof.
  unfold letters. rewrite chars_lower, !forallb_forall. intros H c Hc.
  apply in_map_iff in Hc. destruct Hc as [c0 [E Hc0]]. subst c.
  rewrite lower_ascii_letter. now apply H.
Qed.

(** *** [strip] *)

Lemma lstrip_spaces (w l : list ascii) :
  forallb is_space w = true -> lstrip_chars (w ++ l) = lstrip_chars l.
Proof.
  induction w as [| c w IH]; [reflexivity |].
  cbn. intro H. apply andb_true_iff in H. destruct H as [Hc Hw].
  rewrite Hc. now apply IH.
Qed.

(** Nothing is dropped in front of a text without white space, whatever
    follows it. *)
Lemma lstrip_solid (t l : list ascii) :
  t <> [] -> forallb (fun c => negb (is_space c)) t = true ->
  lstrip_chars (t ++ l) = (t ++ l)%list.
Proof.
  destruct t as [| c t]; [congruence |].
  cbn. intros _ H. apply andb_true_iff in H. destruct H as [Hc _].
  apply negb_true_iff in Hc. now rewrite Hc.
Qed.

Lemma lstrip_blank (w : list ascii) :
  forallb is_space w = true -> lstrip_chars w = [].
Proof.
  intro H. rewrite <- (app_nil_r w). now rewrite lstrip_spaces.
Qed.

(** White space around a text without white space is what [strip]
    removes. *)
Lemma strip_padded (w t w' : string) :
  blank w = true -> blank w' = true ->
  forallb (fun c => negb (is_space c)) (list_ascii_of_string t) = true ->
  strip (w ++ t ++ w') = t.
Proof.
  unfold blank, strip. intros Hw Hw' Ht.
  rewrite !chars_app, (lstrip_spaces _ _ Hw).
  rewrite <- (string_of_list_ascii_of_string t) at 2. f_equal.
  destruct (list_ascii_of_string t) as [| c lt] eqn:El.
  - cbn [app]. rewrite (lstrip_blank _ Hw'). reflexivity.
  - rewrite lstrip_solid by (congruence || exact Ht).
    rewrite rev_app_distr.
    rewrite lstrip_spaces by now apply forallb_rev_true.
    rewrite <- (app_nil_r (rev (c :: lt))).
    rewrite lstrip_solid.
    + now rewrite app_nil_r, rev_involutive.
    + intro E. apply (f_equal (@rev ascii)) in E.
      rewrite rev_involutive in E. discriminate.
    + now apply forallb_rev_true.
Qed.

(** ** Column letters *)

Lemma column_number_snoc (l : list ascii) (c : ascii) :
  column_number (l ++ [c]) = (column_number l * 26 + (ord c - ord "A" + 1))%Z.
Proof. unfold column_number. rewrite fold_left_app. reflexivity. Qed.

Lemma letter_to_index_number (s : string) :
  letter_to_index s
  = (column_number (map upper_ascii (list_ascii_of_string (strip s))) - 1)%Z.
Proof. unfold letter_to_index, column_number. now rewrite chars_upper. Qed.

(** An upper-cased letter counts between 1 and 26. *)
Lemma letter_digit (c : ascii) :
  is_letter c = true -> (1 <= ord (upper_ascii c) - ord "A" + 1 <= 26)%Z.
Proof. each_ascii c; vm_compute; intuition congruence. Qed.

Lemma ord_inj (c c' : ascii) : ord c = ord c' -> c = c'.
Proof.
  unfold ord. intro H. apply N2Z.inj in H.
  rewrite <- (ascii_N_embedding c), <- (ascii_N_embedding c'). now rewrite H.
Qed.

Lemma column_number_nonneg (l : list ascii) :
  forallb is_letter l = true ->
  (0 <= column_number (map upper_ascii l))%Z.
Proof.
  induction l as [| c l IH] using rev_ind; intro H; [cbn; lia |].
  rewrite forallb_app in H. apply andb_true_iff in H. destruct H as [Hl Hc].
  cbn in Hc. rewrite andb_true_r in Hc.
  rewrite map_app. cbn [map]. rewrite column_number_snoc.
  pose proof (letter_digit c Hc). specialize (IH Hl). lia.
Qed.

(** Bijective base 26: different letter sequences have different
    numbers. *)
Lemma column_number_inj (l l' : list ascii) :
  forallb is_letter l = true -> forallb is_letter l' = true ->
  column_number (map upper_ascii l) = column_number (map upper_ascii l') ->
  map upper_ascii l = map upper_ascii l'.
Proof.
  revert l'. induction l as [| c l IH] using rev_ind;
    intros l' H H'; destruct l' as [| c' l'] using rev_ind.
  - reflexivity.
  - clear IHl'. rewrite forallb_app in H'. apply andb_true_iff in H'.
    destruct H' as [Hl' Hc']. cbn in Hc'. rewrite andb_true_r in Hc'.
    rewrite map_app. cbn [map]. rewrite column_number_snoc.
    pose proof (letter_digit c' Hc'). pose proof (column_number_nonneg l' Hl').
    intro E. exfalso. change (column_number []) with 0%Z in E. lia.
  - rewrite forallb_app in H. apply andb_true_iff in H.
    destruct H as [Hl Hc]. cbn in Hc. rewrite andb_true_r in Hc.
    rewrite map_app. cbn [map]. rewrite column_number_snoc.
    pose proof (letter_digit c Hc). pose proof (column_number_nonneg l Hl).
    intro E. exfalso. change (column_number []) with 0%Z in E. lia.
  - clear IHl'.
    rewrite forallb_app in H, H'.
    apply andb_true_iff in H. destruct H as [Hl Hc].
    apply andb_true_iff in H'. destruct H' as [Hl' Hc'].
    cbn in Hc, Hc'. rewrite andb_true_r in Hc, Hc'.
    rewrite !map_app. cbn [map]. rewrite !column_number_snoc.
    pose proof (letter_digit c Hc). pose proof (letter_digit c' Hc').
    intro E.
    assert (Ed : ord (upper_ascii c) = ord (upper_ascii c')) by lia.
    assert (El : column_number (map upper_ascii l)
                 = column_number (map upper_ascii l')) by lia.
    rewrite (IH l' Hl Hl' El), (ord_inj _ _ Ed). reflexivity.
Qed.

Lemma column_number_bounds (l : list ascii) :
  forallb is_letter l = true ->
  let n := Z.of_nat (List.length l) in
  (26 ^ n - 1 <= 25 * column_number (map upper_ascii l) <= 26 * (26 ^ n - 1))%Z.
Proof.
  induction l as [| c l IH] using rev_ind; intro H; [cbn; lia |].
  rewrite forallb_app in H. apply andb_true_iff in H. destruct H as [Hl Hc].
  cbn in Hc. rewrite andb_true_r in Hc.
  rewrite map_app, length_app. cbn [map List.length].
  rewrite column_number_snoc.
  pose proof (letter_digit c Hc). specialize (IH Hl). cbv zeta in IH |- *.
  replace (Z.of_nat (List.length l + 1)) with (Z.succ (Z.of_nat (List.length l))) by lia.
  rewrite Z.pow_succ_r by lia. lia.
Qed.

(** A text of letters has no white space, so [strip] keeps it whole. *)
Lemma letters_solid (s : string) :
  letters s = true ->
  forallb (fun c => negb (is_space c)) (list_ascii_of_string s) = true.
Proof.
  unfold letters. rewrite !forallb_forall. intros H c Hc.
  now rewrite (letter_not_space c (H c Hc)).
Qed.

Lemma append_empty_r (s : string) : (s ++ "")%string = s.
Proof. induction s as [| c s IH]; [reflexivity |]. cbn. now rewrite IH. Qed.

Lemma strip_letters (s : string) : letters s = true -> strip s = s.
Proof.
  intro H. rewrite <- (strip_padded "" s "") at 2;
    [| reflexivity | reflexivity | now apply letters_solid].
  cbn [append]. now rewrite append_empty_r.
Qed.

Lemma upper_chars_eq (s s' : string) :
  map upper_ascii (list_ascii_of_string s)
  = map upper_ascii (list_ascii_of_string s') ->
  upper s = upper s'.
Proof.
  rewrite <- !chars_upper. intro E.
  rewrite <- (string_of_list_ascii_of_string (upper s)), E.
  apply string_of_list_ascii_of_string.
Qed.

Lemma chars_length (s : string) :
  List.length (list_ascii_of_string s) = String.length s.
Proof. induction s as [| c s IH]; [reflexivity |]. cbn. now rewrite IH. Qed.

(** X1.  Two column references made of letters have the same index
    only when they are the same letters up to case. *)
Theorem letter_to_index_injective (s s' : string) :
  letters s = true -> letters s' = true ->
  letter_to_index s = letter_to_index s' ->
  upper s = upper s'.
Proof.
  intros H H' E. rewrite !letter_to_index_number in E.
  rewrite (strip_letters s H), (strip_letters s' H') in E.
  apply upper_chars_eq. apply column_number_inj; [exact H | exact H' | lia].
Qed.

Lemma letter_to_index_injective_witness :
  letters "ab" = true /\ letters "AB" = true /\
  letter_to_index "ab" = letter_to_index "AB" /\ upper "ab" = upper "AB".
Proof.
  repeat apply conj; [reflexivity | reflexivity | reflexivity |].
  apply (letter_to_index_injective "ab" "AB"); reflexivity.
Defined.

(** X2.  A reference of n letters has an index between those of n
    letters A and of n letters Z; a reference of at least one letter
    never has a negative index, and one letter has an index from 0
    to 25. *)
Theorem letter_to_index_bounds (s : string) :
  letters s = true ->
  let n := Z.of_nat (String.length s) in
  (26 ^ n - 1 <= 25 * (letter_to_index s + 1) <= 26 * (26 ^ n - 1))%Z /\
  (s <> ""%string -> 0 <= letter_to_index s)%Z /\
  (String.length s = 1%nat -> 0 <= letter_to_index s <= 25)%Z.
Proof.
  intros H n. rewrite letter_to_index_number, (strip_letters s H).
  pose proof (column_number_bounds (list_ascii_of_string s) H) as B.
  cbv zeta in B. rewrite chars_length in B. fold n in B.
  split; [lia | split].
  - intro Hs. assert (1 <= n)%Z.
    { subst n. destruct s; [congruence | cbn [String.length]; lia]. }
    assert (26 ^ 1 <= 26 ^ n)%Z by (apply Z.pow_le_mono_r; lia).
    lia.
  - intro Hn. subst n. rewrite Hn in B.
    change (26 ^ Z.of_nat 1)%Z with 26%Z in B. lia.
Qed.

Lemma letter_to_index_bounds_witness :
  letters "zz" = true /\ (0 <= letter_to_index "zz")%Z.
Proof.
  split; [reflexivity |].
  destruct (letter_to_index_bounds "zz" eq_refl) as [_ [H _]].
  apply H. discriminate.
Defined.

(** X3.  White space around a reference and the case of its letters do
    not change the index. *)
Theorem letter_to_index_padding_case (w s w' : string) :
  blank w = true -> blank w' = true -> letters s = true ->
  letter_to_index (w ++ lower s ++ w') = letter_to_index s.
Proof.
  intros Hw Hw' Hs. unfold letter_to_index.
  rewrite (strip_padded w (lower s) w' Hw Hw')
    by (apply letters_solid; now apply letters_lower).
  rewrite (strip_letters s Hs), upper_lower. reflexivity.
Qed.

Lemma letter_to_index_padding_case_witness :
  blank " " = true /\ blank "  " = true /\ letters "Ab" = true /\
  letter_to_index (" " ++ lower "Ab" ++ "  ") = letter_to_index "Ab".
Proof.
  repeat apply conj; [reflexivity | reflexivity | reflexivity |].
  apply (letter_to_index_padding_case " " "Ab" "  "); reflexivity.
Defined.

(** X4.  An empty reference, or one of white space only, has index -1:
    the function answers where a caller would expect a failure. *)
Theorem letter_to_index_blank (s : string) :
  blank s = true -> letter_to_index s = (-1)%Z.
Proof.
  intro H. unfold letter_to_index.
  replace (strip s) with ""%string; [reflexivity |].
  rewrite <- (strip_padded s "" "" H); [| reflexivity | reflexivity].
  cbn [append]. now rewrite append_empty_r.
Qed.

Lemma letter_to_index_blank_witness :
  blank "   " = true /\ letter_to_index "   " = (-1)%Z.
Proof.
  split; [reflexivity |].
  apply (letter_to_index_blank "   "). reflexivity.
Defined.

(** ** The substring test *)

Lemma prefix_spec (p s : string) :
  prefix p s = true <-> exists b, s = (p ++ b)%string.
Proof.
  revert s. induction p as [| c p IH]; intro s.
  - destruct s; cbn; split; eauto.
  - destruct s as [| c' s]; cbn.
    + split; [discriminate | intros [b E]; discriminate].
    + destruct (ascii_dec c c') as [E | N].
      * subst c'. rewrite IH. split; intros [b E]; exists b; congruence.
      * split; [discriminate | intros [b E]; congruence].
Qed.

Lemma contains_spec (p s : string) :
  contains p s = true <-> exists a b, s = (a ++ p ++ b)%string.
Proof.
  induction s as [| c s IH].
  - cbn [contains]. rewrite orb_false_r, prefix_spec. split.
    + intros [b E]. exists ""%string, b. exact E.
    + intros [a [b E]]. destruct a; [exists b; exact E | discriminate].
  - cbn [contains]. rewrite orb_true_iff, prefix_spec, IH. split.
    + intros [[b E] | [a [b E]]].
      * exists ""%string, b. exact E.
      * exists (String c a), b. cbn. now rewrite E.
    + intros [a [b E]]. destruct a as [| c' a].
      * left. exists b. exact E.
      * right. exists a, b. cbn in E. congruence.
Qed.

Lemma append_assoc (a b c : string) :
  ((a ++ b) ++ c)%string = (a ++ b ++ c)%string.
Proof. induction a as [| x a IH]; [reflexivity |]. cbn. now rewrite IH. Qed.

(** A text found in a text that is found in a third is found in the
    third. *)
Lemma contains_trans (q p s : string) :
  contains q p = true -> contains p s = true -> contains q s = true.
Proof.
  rewrite !contains_spec. intros [a [b E]] [a' [b' E']].
  exists (a' ++ a)%string, (b ++ b')%string.
  rewrite E', E, !append_assoc. reflexivity.
Qed.

Lemma contains_chars (p s : string) (x : ascii) :
  contains p s = true ->
  In x (list_ascii_of_string p) -> In x (list_ascii_of_string s).
Proof.
  rewrite contains_spec. intros [a [b E]] Hx. subst s.
  rewrite !chars_app. apply in_or_app. right. apply in_or_app. now left.
Qed.

(** ** Default columns *)

Lemma first_match_none (p : string) (cols : list string) (i : nat) :
  first_match p cols i = None <->
  forall c, In c cols -> contains (lower p) (lower c) = false.
Proof.
  revert i. induction cols as [| c cols IH]; intro i; cbn [first_match].
  - split; [intros _ c [] | reflexivity].
  - destruct (contains (lower p) (lower c)) eqn:E.
    + split; [discriminate |]. intro H.
      specialize (H c (or_introl eq_refl)). congruence.
    + rewrite IH. split.
      * intros H c' [<- | Hc']; [exact E | now apply H].
      * intros H c' Hc'. apply H. now right.
Qed.

Lemma first_match_some (p : string) (cols : list string) (i j : nat) :
  first_match p cols i = Some j ->
  (i <= j < i + List.length cols)%nat /\
  exists c, nth_error cols (j - i) = Some c
            /\ contains (lower p) (lower c) = true.
Proof.
  revert i. induction cols as [| c cols IH]; intro i; cbn [first_match];
    [discriminate |].
  destruct (contains (lower p) (lower c)) eqn:E.
  - intro H. inversion H; subst. cbn [List.length]. split; [lia |].
    exists c. rewrite Nat.sub_diag. split; [reflexivity | exact E].
  - intro H. destruct (IH _ H) as [Hr [c' [Hn Hc']]].
    cbn [List.length]. split; [lia |].
    exists c'. replace (j - i)%nat with (S (j - S i)) by lia.
    split; [exact Hn | exact Hc'].
Qed.

(** The answer of [_auto_idx] is the position of a matching column, or
    the fallback when no pattern matches any column. *)
Lemma auto_idx_cases (patterns cols : list string) (fallback : nat) :
  let i := _auto_idx patterns cols fallback in
  ((i < List.length cols)%nat /\
   exists p c, In p patterns /\ nth_error cols i = Some c
               /\ contains (lower p) (lower c) = true)
  \/ (i = fallback /\
      forall p c, In p patterns -> In c cols ->
                  contains (lower p) (lower c) = false).
Proof.
  induction patterns as [| p patterns IH]; cbn [_auto_idx].
  - right. split; [reflexivity | intros p c []].
  - destruct (first_match p cols 0) as [j |] eqn:E.
    + left. destruct (first_match_some _ _ _ _ E) as [Hr [c [Hn Hc]]].
      rewrite Nat.sub_0_r in Hn. split; [lia |].
      exists p, c. repeat apply conj; [now left | exact Hn | exact Hc].
    + destruct IH as [[Hlt [q [c [Hq [Hn Hc]]]]] | [Hf Hnone]].
      * left. split; [exact Hlt |]. exists q, c.
        repeat apply conj; [now right | exact Hn | exact Hc].
      * right. split; [exact Hf |].
        intros q c [<- | Hq] Hc; [| now apply Hnone].
        now apply (proj1 (first_match_none p cols 0) E).
Qed.

(** X5.  When some pattern is found in some column name, whatever the
    letter case, [_auto_idx] returns a valid position, that of a column
    containing one of the patterns; when none is, it returns the
    fallback, even one that is no position of the list. *)
Theorem auto_idx_found_or_fallback (patterns cols : list string) (fallback : nat) :
  ((exists p c, In p patterns /\ In c cols
                /\ contains (lower p) (lower c) = true) ->
   (_auto_idx patterns cols fallback < List.length cols)%nat /\
   exists p c, In p patterns
               /\ nth_error cols (_auto_idx patterns cols fallback) = Some c
               /\ contains (lower p) (lower c) = true) /\
  ((forall p c, In p patterns -> In c cols ->
                contains (lower p) (lower c) = false) ->
   _auto_idx patterns cols fallback = fallback).
Proof.
  pose proof (auto_idx_cases patterns cols fallback) as H. cbv zeta in H.
  split.
  - intros [p [c [Hp [Hc E]]]].
    destruct H as [H | [_ Hnone]]; [exact H |].
    rewrite (Hnone p c Hp Hc) in E. discriminate.
  - intro Hnone. destruct H as [[_ [p [c [Hp [Hn E]]]]] | [H _]]; [| exact H].
    apply nth_error_In in Hn. rewrite (Hnone p c Hp Hn) in E. discriminate.
Qed.

Lemma auto_idx_found_or_fallback_witness :
  (forall p c, In p ["d30"; "d14"]%string -> In c ["Campaign"; "ROAS D7"]%string ->
               contains (lower p) (lower c) = false) /\
  _auto_idx ["d30"; "d14"]%string ["Campaign"; "ROAS D7"]%string 5 = 5%nat.
Proof.
  assert (H : forall p c, In p ["d30"; "d14"]%string ->
                          In c ["Campaign"; "ROAS D7"]%string ->
                          contains (lower p) (lower c) = false).
  { intros p c [<- | [<- | []]] [<- | [<- | []]]; reflexivity. }
  split; [exact H |].
  apply (auto_idx_found_or_fallback ["d30"; "d14"]%string
           ["Campaign"; "ROAS D7"]%string 5). exact H.
Defined.

(** A pattern that contains an earlier pattern never decides. *)
Lemma auto_idx_subsumed (p q : string) (before after cols : list string)
    (fallback : nat) :
  In p before -> contains (lower p) (lower q) = true ->
  _auto_idx (before ++ q :: after) cols fallback
  = _auto_idx (before ++ after) cols fallback.
Proof.
  intros Hp Hpq. induction before as [| r before IH]; [destruct Hp |].
  cbn [app _auto_idx].
  destruct (first_match r cols 0) as [j |] eqn:E; [reflexivity |].
  destruct Hp as [-> | Hp]; [| now apply IH].
  clear IH. induction before as [| r before IH]; cbn [app _auto_idx].
  - assert (Eq : first_match q cols 0 = None).
    { apply first_match_none. intros c Hc.
      destruct (contains (lower q) (lower c)) eqn:Eqc; [| reflexivity].
      rewrite <- (proj1 (first_match_none p cols 0) E c Hc).
      symmetry. now apply (contains_trans _ (lower q)). }
    now rewrite Eq.
  - destruct (first_match r cols 0); [reflexivity | exact IH].
Qed.

(** X6.  For the main KPI the patterns "roas d7" and "roi d7" never
    decide: whatever the columns, the default is the one that "d7" and
    "d 7" alone give. *)
Theorem main_default_two_patterns (adv_cols : list string) :
  main_default adv_cols = _auto_idx ["d7"; "d 7"]%string adv_cols 0.
Proof.
  unfold main_default.
  etransitivity.
  - exact (auto_idx_subsumed "d7" "roas d7" ["d7"%string]
             ["roi d7"; "d 7"]%string adv_cols 0 (or_introl eq_refl) eq_refl).
  - exact (auto_idx_subsumed "d7" "roi d7" ["d7"%string]
             ["d 7"%string] adv_cols 0 (or_introl eq_refl) eq_refl).
Qed.

Lemma auto_idx_in_range (patterns cols : list string) (fallback : nat) :
  (fallback < List.length cols)%nat ->
  (_auto_idx patterns cols fallback < List.length cols)%nat.
Proof.
  intro H. pose proof (auto_idx_cases patterns cols fallback) as C.
  cbv zeta in C. destruct C as [[C _] | [C _]]; [exact C | now rewrite C].
Qed.

(** X7.  With at least two columns the two defaults are positions of
    the list and differ. *)
Theorem defaults_distinct (adv_cols : list string) :
  (2 <= List.length adv_cols)%nat ->
  (main_default adv_cols < List.length adv_cols)%nat /\
  (sec_default adv_cols < List.length adv_cols)%nat /\
  sec_default adv_cols <> main_default adv_cols.
Proof.
  intro H.
  assert (Hm : (main_default adv_cols < List.length adv_cols)%nat)
    by (apply auto_idx_in_range; lia).
  unfold sec_default.
  set (s := _auto_idx _ adv_cols 1).
  assert (Hs : (s < List.length adv_cols)%nat)
    by (apply auto_idx_in_range; lia).
  rewrite Nat.max_l by lia.
  split; [exact Hm |].
  destruct (Nat.eqb s (main_default adv_cols)) eqn:E.
  - set (m := main_default adv_cols) in *.
    set (n := List.length adv_cols) in *.
    assert (Hmod : ((m + 1) mod n < n)%nat) by (apply Nat.mod_upper_bound; lia).
    split; [exact Hmod |].
    destruct (Nat.eq_dec (m + 1) n) as [En | Nn].
    + rewrite En, Nat.Div0.mod_same. lia.
    + rewrite Nat.mod_small by lia. lia.
  - apply Nat.eqb_neq in E. split; [exact Hs | exact E].
Qed.

Lemma defaults_distinct_witness :
  (2 <= List.length ["Campaign"; "ROAS D7"]%string)%nat /\
  sec_default ["Campaign"; "ROAS D7"]%string
    <> main_default ["Campaign"; "ROAS D7"]%string.
Proof.
  split; [cbn; lia |].
  apply (defaults_distinct ["Campaign"; "ROAS D7"]%string). cbn. lia.
Defined.

(** X8.  With a single column the two defaults cannot differ: the main
    default is 0, and the secondary default is 0 as well when a
    secondary pattern is found in the column name, and otherwise 1,
    which is no position of the list. *)
Theorem defaults_single_column (c : string) :
  main_default [c] = 0%nat /\
  ((exists p, In p ["d30"; "d14"; "roas d3"; "roi d3"; "d 30"]%string
              /\ contains (lower p) (lower c) = true) ->
   sec_default [c] = 0%nat) /\
  ((forall p, In p ["d30"; "d14"; "roas d3"; "roi d3"; "d 30"]%string ->
              contains (lower p) (lower c) = false) ->
   sec_default [c] = 1%nat).
Proof.
  assert (Hm : main_default [c] = 0%nat).
  { pose proof (auto_idx_in_range ["d7"; "roas d7"; "roi d7"; "d 7"]%string
                  [c] 0) as H.
    unfold main_default. cbn [List.length] in H. lia. }
  split; [exact Hm | split].
  - intros [p [Hp E]]. unfold sec_default. rewrite Hm.
    pose proof (auto_idx_cases
                  ["d30"; "d14"; "roas d3"; "roi d3"; "d 30"]%string [c] 1) as C.
    cbv zeta in C. destruct C as [[Hlt _] | [_ Hnone]].
    + cbn [List.length] in Hlt.
      replace (_auto_idx _ [c] 1) with 0%nat by lia. reflexivity.
    + rewrite (Hnone p c Hp (or_introl eq_refl)) in E. discriminate.
  - intro Hnone. unfold sec_default. rewrite Hm.
    pose proof (auto_idx_cases
                  ["d30"; "d14"; "roas d3"; "roi d3"; "d 30"]%string [c] 1) as C.
    cbv zeta in C. destruct C as [[_ [p [c' [Hp [Hn E]]]]] | [Hf _]].
    + apply nth_error_In in Hn. destruct Hn as [<- | []].
      rewrite (Hnone p Hp) in E. discriminate.
    + rewrite Hf. reflexivity.
Qed.

Lemma defaults_single_column_witness :
  (forall p, In p ["d30"; "d14"; "roas d3"; "roi d3"; "d 30"]%string ->
             contains (lower p) (lower "ROAS D7") = false) /\
  sec_default ["ROAS D7"%string] = 1%nat.
Proof.
  assert (H : forall p, In p ["d30"; "d14"; "roas d3"; "roi d3"; "d 30"]%string ->
                        contains (lower p) (lower "ROAS D7") = false).
  { intros p [<- | [<- | [<- | [<- | [<- | []]]]]]; reflexivity. }
  split; [exact H |].
  apply (defaults_single_column "ROAS D7"). exact H.
Defined.

(** ** Labels *)

(** [split] gives no word only on white space. *)
Lemma split_chars_nil (cur l : list ascii) :
  split_chars cur l = [] -> cur = [] /\ forallb is_space l = true.
Proof.
  revert cur. induction l as [| c l IH]; intro cur; cbn [split_chars forallb].
  - destruct cur; [auto | discriminate].
  - destruct (is_space c).
    + destruct cur; [| discriminate].
      intro H. destruct (IH [] H) as [_ Hl]. auto.
    + intro H. destruct (IH _ H) as [Hc _]. discriminate.
Qed.

Lemma last_item_some {A : Type} (l : list A) :
  l <> [] -> exists a, last_item l = Some a.
Proof.
  induction l as [| a l IH]; [congruence |]. intros _.
  destruct l as [| b l]; [now exists a |].
  cbn [last_item]. apply IH. discriminate.
Qed.

(** A name in which a prefix of the list is found has a last word. *)
Lemma last_word_of_match (prefix c : string) :
  In prefix label_prefixes ->
  contains (lower prefix) (lower c) = true ->
  exists period, last_item (split c) = Some period.
Proof.
  intros Hp Hc. apply last_item_some. intro E.
  apply split_chars_nil in E. destruct E as [_ E].
  assert (Hr : In "r"%char (list_ascii_of_string (lower c))).
  { apply (contains_chars _ _ _ Hc).
    destruct Hp as [<- | [<- | [<- | [<- | []]]]]; cbn; tauto. }
  rewrite chars_lower in Hr. apply in_map_iff in Hr.
  destruct Hr as [x [Ex Hx]].
  rewrite forallb_forall in E. specialize (E x Hx).
  rewrite <- lower_ascii_space, Ex in E. discriminate.
Qed.

Lemma label_loop_total (c : string) (prefixes : list string) :
  (forall p, In p prefixes -> In p label_prefixes) ->
  exists l, label_loop c prefixes = Some l /\ prefix "ROI " l = true.
Proof.
  induction prefixes as [| p prefixes IH]; intro H; cbn [label_loop].
  - eexists. split; [reflexivity |]. apply prefix_spec. now exists c.
  - destruct (contains (lower p) (lower c)) eqn:E.
    + destruct (last_word_of_match p c (H p (or_introl eq_refl)) E)
        as [period Hperiod].
      rewrite Hperiod. eexists. split; [reflexivity |].
      apply prefix_spec. now exists period.
    + apply IH. intros q Hq. apply H. now right.
Qed.

(** X9.  [label] never fails on the last word it takes: whatever the
    column name, it returns a label, and the label starts with "ROI ". *)
Theorem label_total (col : string) :
  exists l, label col = Some l /\ prefix "ROI " l = true.
Proof. apply label_loop_total. auto. Qed.

(** What the loop returns depends only on whether some prefix is
    found. *)
Lemma label_loop_existsb (c : string) (prefixes : list string) :
  label_loop c prefixes =
    if existsb (fun p => contains (lower p) (lower c)) prefixes then
      match last_item (split c) with
      | Some period => Some ("ROI " ++ period)%string
      | None => None
      end
    else Some ("ROI " ++ c)%string.
Proof.
  induction prefixes as [| p prefixes IH]; [reflexivity |].
  cbn [label_loop existsb].
  destruct (contains (lower p) (lower c)); [reflexivity | exact IH].
Qed.

(** X10.  The prefixes "Full ROAS " and "Full Roas " decide nothing:
    the label is the one the two prefixes "ROAS " and "ROI " give, so a
    name is relabelled by its last word exactly when it contains "roas "
    or "roi " in any letter case. *)
Theorem label_two_prefixes (col : string) :
  label col = label_loop (strip col) ["ROAS "; "ROI "]%string.
Proof.
  unfold label. rewrite !label_loop_existsb.
  assert (E : existsb (fun p => contains (lower p) (lower (strip col)))
                      label_prefixes
              = existsb (fun p => contains (lower p) (lower (strip col)))
                        ["ROAS "; "ROI "]%string).
  { cbn [existsb label_prefixes].
    destruct (contains (lower "ROAS ") (lower (strip col))) eqn:R.
    - now rewrite !orb_true_r.
    - assert (F : contains (lower "Full ROAS ") (lower (strip col)) = false).
      { destruct (contains (lower "Full ROAS ") (lower (strip col))) eqn:F;
          [| reflexivity].
        rewrite <- R. symmetry.
        now apply (contains_trans _ (lower "Full ROAS ")). }
      change (lower "Full Roas ") with (lower "Full ROAS ").
      rewrite F. reflexivity. }
  now rewrite E.
Qed.

(** ** Keys *)

Lemma uint_chars (d : Decimal.uint) (c : ascii) :
  In c (list_ascii_of_string (NilEmpty.string_of_uint d)) -> c <> "_"%char.
Proof.
  induction d; cbn; intros H; try tauto;
    destruct H as [<- | H]; try discriminate; now apply IHd.
Qed.

(** The decimal writing of an integer has no underscore. *)
Lemma str_of_Z_chars (z : Z) (c : ascii) :
  In c (list_ascii_of_string (str_of_Z z)) -> c <> "_"%char.
Proof.
  unfold str_of_Z, NilZero.string_of_int, NilZero.string_of_uint.
  destruct (Z.to_int z) as [d | d]; destruct d; cbn;
    intros H; repeat (destruct H as [<- | H]; [discriminate |]);
    try tauto; now apply (uint_chars _ _ H).
Qed.

Lemma to_int_proper (z : Z) :
  Z.to_int z <> Decimal.Pos Decimal.Nil /\ Z.to_int z <> Decimal.Neg Decimal.Nil.
Proof.
  destruct z as [| p | p]; cbn; split; try discriminate;
    intro E; inversion E as [E']; now apply (Unsigned.to_uint_nonnil p).
Qed.

Lemma str_of_Z_inj (z z' : Z) : str_of_Z z = str_of_Z z' -> z = z'.
Proof.
  unfold str_of_Z. intro E. apply DecimalZ.to_int_inj.
  destruct (to_int_proper z) as [P N], (to_int_proper z') as [P' N'].
  pose proof (NilZero.isi _ P N) as I. pose proof (NilZero.isi _ P' N') as I'.
  rewrite E in I. congruence.
Qed.

(** Two lists cut at the first occurrence of [x] are cut alike. *)
Lemma cut_at_first {A : Type} (x : A) (l1 r1 l2 r2 : list A) :
  ~ In x l1 -> ~ In x l2 ->
  (l1 ++ x :: r1 = l2 ++ x :: r2)%list -> l1 = l2 /\ r1 = r2.
Proof.
  revert l2. induction l1 as [| a l1 IH]; intros l2 H1 H2 E.
  - destruct l2 as [| b l2]; cbn in E.
    + inversion E. auto.
    + inversion E; subst. exfalso. apply H2. now left.
  - destruct l2 as [| b l2]; cbn in E.
    + inversion E; subst. exfalso. apply H1. now left.
    + inversion E; subst. destruct (IH l2) as [-> ->]; auto.
      * intro H. apply H1. now right.
      * intro H. apply H2. now right.
Qed.

Lemma chars_inj (s s' : string) :
  list_ascii_of_string s = list_ascii_of_string s' -> s = s'.
Proof.
  intro E. rewrite <- (string_of_list_ascii_of_string s), E.
  apply string_of_list_ascii_of_string.
Qed.

(** Within the range of the 64-bit signed integers [astype(int)]
    changes nothing. *)
Lemma astype_int_id (z : Z) :
  (- 2 ^ 63 <= z < 2 ^ 63)%Z -> astype_int z = z.
Proof. intro H. unfold astype_int. rewrite Z.mod_small; lia. Qed.

(** Outside it wraps around: 2^63 is written as -2^63, and the two
    identifiers share a key. *)
Lemma build_key_wraps :
  build_key "a" (2 ^ 63) = "a_-9223372036854775808"%string /\
  build_key "a" (2 ^ 63) = build_key "a" (- 2 ^ 63).
Proof. split; reflexivity. Qed.

(** X11.  Two rows with ASCII campaign names, whose site identifiers
    are in the range of the 64-bit signed integers, have the same key
    only when their campaign names agree once stripped and their site
    identifiers are equal: the key separates the two parts at its last
    underscore. *)
Theorem build_key_injective (campaign campaign' : string) (site site' : Z) :
  is_ascii campaign = true -> is_ascii campaign' = true ->
  (- 2 ^ 63 <= site < 2 ^ 63)%Z -> (- 2 ^ 63 <= site' < 2 ^ 63)%Z ->
  build_key campaign site = build_key campaign' site' ->
  strip campaign = strip campaign' /\ site = site'.
Proof.
  intros _ _ R R'. unfold build_key. intro E.
  apply (f_equal list_ascii_of_string) in E. rewrite !chars_app in E.
  apply (f_equal (@rev ascii)) in E.
  rewrite !rev_app_distr in E. cbn [list_ascii_of_string rev app] in E.
  rewrite <- !app_assoc in E. cbn [app] in E.
  apply cut_at_first in E.
  - destruct E as [Ed Ec].
    apply (f_equal (@rev ascii)) in Ed, Ec. rewrite !rev_involutive in Ed, Ec.
    split; [now apply chars_inj |].
    rewrite <- (astype_int_id site R), <- (astype_int_id site' R').
    apply str_of_Z_inj. now apply chars_inj.
  - intro H. apply in_rev in H. now apply (str_of_Z_chars _ _ H).
  - intro H. apply in_rev in H. now apply (str_of_Z_chars _ _ H).
Qed.

Lemma build_key_injective_witness :
  is_ascii " Summer_1 " = true /\ is_ascii "Summer_1" = true /\
  (- 2 ^ 63 <= 2 < 2 ^ 63)%Z /\
  build_key " Summer_1 " 2 = build_key "Summer_1" 2 /\
  strip " Summer_1 " = strip "Summer_1" /\ 2%Z = 2%Z.
Proof.
  assert (R : (- 2 ^ 63 <= 2 < 2 ^ 63)%Z) by lia.
  repeat apply conj;
    [reflexivity | reflexivity | lia | lia | reflexivity | |];
    apply (build_key_injective " Summer_1 " "Summer_1" 2 2
             eq_refl eq_refl R R); reflexivity.
Defined.

(** ** Merge *)

(** In the table without duplicates a key meets, at most, the first row
    that had it. *)
Lemma filter_drop_duplicates_from {V : Type} (k : string) (seen : list string)
    (l : list (string * V)) :
  filter (fun kv => String.eqb k (fst kv)) (drop_duplicates_from seen l)
  = if existsb (String.eqb k) seen then []
    else match find (fun kv => String.eqb k (fst kv)) l with
         | Some kv => [kv]
         | None => []
         end.
Proof.
  revert seen. induction l as [| [k' v] l IH]; intro seen.
  - cbn. now destruct (existsb (String.eqb k) seen).
  - cbn [drop_duplicates_from find fst].
    destruct (existsb (String.eqb k') seen) eqn:Es.
    + rewrite IH. destruct (existsb (String.eqb k) seen) eqn:Ek; [reflexivity |].
      destruct (String.eqb k k') eqn:E; [| reflexivity].
      apply String.eqb_eq in E. subst. congruence.
    + cbn [filter fst]. rewrite IH. cbn [existsb].
      destruct (String.eqb k k') eqn:E.
      * apply String.eqb_eq in E. subst k'. rewrite Es. reflexivity.
      * cbn [orb]. reflexivity.
Qed.

Lemma filter_drop_duplicates {V : Type} (k : string) (l : list (string * V)) :
  filter (fun kv => String.eqb k (fst kv)) (drop_duplicates l)
  = match find (fun kv => String.eqb k (fst kv)) l with
    | Some kv => [kv]
    | None => []
    end.
Proof. exact (filter_drop_duplicates_from k [] l). Qed.

Lemma find_map_key {A V : Type} (key : A -> string) (val : A -> V)
    (k : string) (l : list A) :
  find (fun kv => String.eqb k (fst kv)) (map (fun a => (key a, val a)) l)
  = option_map (fun a => (key a, val a))
               (find (fun a => String.eqb k (key a)) l).
Proof.
  induction l as [| a l IH]; [reflexivity |].
  cbn [map find fst]. destruct (String.eqb k (key a)); [reflexivity | exact IH].
Qed.

Lemma map_flat_map_single {A B C D : Type} (F : C -> D) (G : B -> list C)
    (H : A -> B) (K : A -> D) (l : list A) :
  (forall a, map F (G (H a)) = [K a]) ->
  map F (flat_map G (map H l)) = map K l.
Proof.
  intro E. induction l as [| a l IH]; [reflexivity |].
  cbn [map flat_map]. now rewrite map_app, E, IH.
Qed.

(** The merged row of an internal row: the KPI cells of the first
    advertiser row with its key. *)
Lemma merge_lookup (internal : list Internal) (advertiser : list Advertiser) :
  merge_advertiser_data internal advertiser =
    map (fun i =>
           let k := build_key (campaignName i) (siteId i) in
           match find (fun a => String.eqb k (build_key (adv_campaign a) (adv_site a)))
                      advertiser with
           | Some a => mkMerged k i (adv_d7 a) (adv_d2nd a)
           | None => mkMerged k i None None
           end)
        internal.
Proof.
  unfold merge_advertiser_data, merge_left. cbv zeta.
  apply map_flat_map_single. intro i.
  rewrite filter_drop_duplicates, find_map_key.
  destruct (find _ advertiser) as [a |]; reflexivity.
Qed.

(** X12.  The merge keeps the internal rows, one for one and in order,
    however many advertiser rows share a key.  Each gets the two KPI
    cells of the first advertiser row with its key, and nulls when no
    advertiser row has its key. *)
Theorem merge_first_wins (internal : list Internal) (advertiser : list Advertiser) :
  List.length (merge_advertiser_data internal advertiser) = List.length internal /\
  map merged_internal (merge_advertiser_data internal advertiser) = internal /\
  forall n i,
    nth_error internal n = Some i ->
    let k := build_key (campaignName i) (siteId i) in
    nth_error (merge_advertiser_data internal advertiser) n =
      Some match find (fun a => String.eqb k (build_key (adv_campaign a) (adv_site a)))
                      advertiser with
           | Some a => mkMerged k i (adv_d7 a) (adv_d2nd a)
           | None => mkMerged k i None None
           end.
Proof.
  rewrite merge_lookup. repeat apply conj.
  - apply length_map.
  - rewrite map_map. rewrite <- (map_id internal) at 2.
    apply map_ext. intro i. cbv zeta. now destruct (find _ advertiser).
  - intros n i Hn. cbv zeta. rewrite nth_error_map, Hn. reflexivity.
Qed.

Lemma merge_first_wins_witness :
  nth_error sample_internal 0
    = Some (mkInternal " Summer " 7 "active" 1500 200 (Some 300%Z) (Some 0.50)
                       (Some 10%Z) (Some 0.50) 0.60 None) /\
  option_map merged_d7 (nth_error (merge_advertiser_data sample_internal sample_advertiser) 0)
    = Some (Some 0.05).
Proof.
  split; [reflexivity |].
  destruct (merge_first_wins sample_internal sample_advertiser) as [_ [_ H]].
  rewrite (H 0%nat _ eq_refl). reflexivity.
Defined.

(** ** Null filter *)

Lemma notna_some {A : Type} (x : option A) :
  notna x = true -> exists v, x = Some v.
Proof. destruct x as [v |]; [now exists v | discriminate]. Qed.

Lemma filter_length_le {A : Type} (f : A -> bool) (l : list A) :
  (List.length (filter f l) <= List.length l)%nat.
Proof.
  induction l as [| a l IH]; [apply le_n |].
  cbn [filter]. destruct (f a); cbn [List.length]; lia.
Qed.

Lemma filter_idempotent {A : Type} (f : A -> bool) (l : list A) :
  filter f (filter f l) = filter f l.
Proof.
  apply forallb_filter_id. apply forallb_filter.
Qed.

Lemma clean_nulls_kept (df : list Merged) (m : Merged) :
  In m (fst (clean_nulls df)) ->
  In m df /\
  exists d7 d2nd mp fr,
    merged_d7 m = Some d7 /\ merged_d2nd m = Some d2nd /\
    maxPreloads (merged_internal m) = Some mp /\
    in_fillRate (merged_internal m) = Some fr.
Proof.
  unfold clean_nulls. cbn [fst]. intro Hm.
  apply filter_In in Hm. destruct Hm as [Hin Hf].
  split; [exact Hin |].
  apply andb_true_iff in Hf. destruct Hf as [Hf H4].
  apply andb_true_iff in Hf. destruct Hf as [Hf H3].
  apply andb_true_iff in Hf. destruct Hf as [H1 H2].
  destruct (notna_some _ H1) as [d7 E1], (notna_some _ H2) as [d2nd E2],
    (notna_some _ H3) as [mp E3], (notna_some _ H4) as [fr E4].
  exists d7, d2nd, mp, fr. auto.
Qed.

(** X13.  [clean_nulls] accounts for every row: the rows kept and the
    count of rows dropped add up to the rows given.  A kept row has its
    two KPI cells, maxPreloads and fillRate, and cleaning the kept rows
    again drops none. *)
Theorem clean_nulls_accounting (df : list Merged) :
  let kept := fst (clean_nulls df) in
  let dropped := snd (clean_nulls df) in
  (List.length kept + dropped = List.length df)%nat /\
  (forall m, In m kept ->
     In m df /\
     exists d7 d2nd mp fr,
       merged_d7 m = Some d7 /\ merged_d2nd m = Some d2nd /\
       maxPreloads (merged_internal m) = Some mp /\
       in_fillRate (merged_internal m) = Some fr) /\
  clean_nulls kept = (kept, 0%nat).
Proof.
  unfold clean_nulls. cbn [fst snd].
  set (f := fun m : Merged => _ && _ && _ && _).
  pose proof (filter_length_le f df) as Hle.
  repeat apply conj.
  - lia.
  - exact (clean_nulls_kept df).
  - rewrite filter_idempotent, Nat.sub_diag. reflexivity.
Qed.

Lemma clean_nulls_accounting_witness :
  In (mkMerged "Summer_7"
        (mkInternal " Summer " 7 "active" 1500 200 (Some 300%Z) (Some 0.50)
                    (Some 10%Z) (Some 0.50) 0.60 None)
        (Some 0.05) (Some 0.07))
     (fst (clean_nulls (merge_advertiser_data sample_internal sample_advertiser))) /\
  In (mkMerged "Summer_7"
        (mkInternal " Summer " 7 "active" 1500 200 (Some 300%Z) (Some 0.50)
                    (Some 10%Z) (Some 0.50) 0.60 None)
        (Some 0.05) (Some 0.07))
     (merge_advertiser_data sample_internal sample_advertiser).
Proof.
  assert (H : In (mkMerged "Summer_7"
        (mkInternal " Summer " 7 "active" 1500 200 (Some 300%Z) (Some 0.50)
                    (Some 10%Z) (Some 0.50) 0.60 None)
        (Some 0.05) (Some 0.07))
     (fst (clean_nulls (merge_advertiser_data sample_internal sample_advertiser)))).
  { left. reflexivity. }
  split; [exact H |].
  destruct (clean_nulls_accounting
              (merge_advertiser_data sample_internal sample_advertiser))
    as [_ [K _]].
  apply (K _ H).
Defined.

(** X14.  After merge and null filter, every row left has an advertiser
    row with its key, and its two KPI values are those of the first
    such row: an internal row without advertiser row, or whose first
    advertiser row has a null KPI, is never scored. *)
Theorem cleaned_rows_matched (internal : list Internal)
    (advertiser : list Advertiser) (m : Merged) :
  In m (fst (clean_nulls (merge_advertiser_data internal advertiser))) ->
  exists a d7 d2nd,
    find (fun a => String.eqb (Key m) (build_key (adv_campaign a) (adv_site a)))
         advertiser = Some a /\
    adv_d7 a = Some d7 /\ merged_d7 m = Some d7 /\
    adv_d2nd a = Some d2nd /\ merged_d2nd m = Some d2nd.
Proof.
  intro Hm.
  destruct (clean_nulls_kept _ m Hm) as [Hin [d7 [d2nd [_ [_ [E7 [E2 _]]]]]]].
  rewrite merge_lookup in Hin. apply in_map_iff in Hin.
  destruct Hin as [i [Ei _]]. cbv zeta in Ei.
  destruct (find _ advertiser) as [a |] eqn:F; subst m; cbn in *.
  - exists a, d7, d2nd. rewrite F. auto.
  - discriminate.
Qed.

Lemma cleaned_rows_matched_witness :
  In (mkMerged "Summer_7"
        (mkInternal " Summer " 7 "active" 1500 200 (Some 300%Z) (Some 0.50)
                    (Some 10%Z) (Some 0.50) 0.60 None)
        (Some 0.05) (Some 0.07))
     (fst (clean_nulls (merge_advertiser_data sample_internal sample_advertiser))) /\
  exists a d7 d2nd,
    find (fun a => String.eqb "Summer_7" (build_key (adv_campaign a) (adv_site a)))
         sample_advertiser = Some a /\
    adv_d7 a = Some d7 /\ Some 0.05 = Some d7 /\
    adv_d2nd a = Some d2nd /\ Some 0.07 = Some d2nd.
Proof.
  assert (H : In (mkMerged "Summer_7"
        (mkInternal " Summer " 7 "active" 1500 200 (Some 300%Z) (Some 0.50)
                    (Some 10%Z) (Some 0.50) 0.60 None)
        (Some 0.05) (Some 0.07))
     (fst (clean_nulls (merge_advertiser_data sample_internal sample_advertiser)))).
  { left. reflexivity. }
  split; [exact H |].
  exact (cleaned_rows_matched sample_internal sample_advertiser _ H).
Defined.

(** ** The run, row by row *)

(** The only exception of the decision stages is the division by
    zero. *)
Lemma py_div_raises (x y : Q) (e : exn) :
  py_div x y = Raise e -> e = ZeroDivisionError.
Proof. unfold py_div. destruct (Qeq_bool y 0); congruence. Qed.

Lemma bind_raises {A B : Type} (m : result A) (k : A -> result B) (e : exn) :
  (x <- m ;; k x) = Raise e ->
  m = Raise e \/ exists a, m = Ok a /\ k a = Raise e.
Proof.
  destruct m as [a | e']; cbn [bind]; intro H; [right; eauto | left; congruence].
Qed.

Lemma segment_row_raises (roi_d7 roi_d2nd kpi_d7 kpi_d2nd : Q) (e : exn) :
  segment_row roi_d7 roi_d2nd kpi_d7 kpi_d2nd = Raise e -> e = ZeroDivisionError.
Proof.
  unfold segment_row.
  destruct (Qgeb _ _); [discriminate |].
  destruct (_ && _); [discriminate |].
  intro H. apply bind_raises in H. destruct H as [H | [a [_ H]]].
  - now apply py_div_raises in H.
  - destruct (Qle_bool a 0.50); [discriminate |].
    destruct (Qltb a 1.0); discriminate.
Qed.

Lemma segment_single_raises (val kpi : Q) (e : exn) :
  segment_single val kpi = Raise e -> e = ZeroDivisionError.
Proof.
  unfold segment_single.
  destruct (Qgeb _ _); [discriminate |].
  destruct (Qeq_bool val 0); [discriminate |].
  intro H. apply bind_raises in H. destruct H as [H | [a [_ H]]].
  - now apply py_div_raises in H.
  - destruct (Qle_bool a 0.50); [discriminate |].
    destruct (Qltb a 1.0); discriminate.
Qed.

Lemma candidate_raises (row : Row) (kpi_d7 kpi_d2nd : Q) (e : exn) :
  candidate row kpi_d7 kpi_d2nd = Raise e -> e = ZeroDivisionError.
Proof.
  unfold candidate.
  destruct (pct_above_total
              (weighted_score (d7_col row) (d2nd_col row) default_w_d7 default_w_d2nd)
              (kpi_target kpi_d7 kpi_d2nd default_w_d7 default_w_d2nd)) as [a Ha].
  destruct (pct_below_total
              (weighted_score (d7_col row) (d2nd_col row) default_w_d7 default_w_d2nd)
              (kpi_target kpi_d7 kpi_d2nd default_w_d7 default_w_d2nd)) as [b Hb].
  rewrite Ha, Hb. cbn [bind].
  destruct (discard row); [discriminate |].
  destruct (match effectiveBidFloor row with Some f => Qle_bool (bidRate row) f | None => false end);
    [discriminate |].
  destruct (Progression_eqb (progression row) good && _ && Qgtb (d7_col row) 0).
  { intro H. apply bind_raises in H. destruct H as [H | [r [_ H]]]; [| discriminate].
    destruct (Qgtb (d7_col row) 0); [now apply py_div_raises in H | discriminate]. }
  destruct (Progression_eqb (progression row) poor).
  { destruct (Qltb (spend row) 100); [discriminate |].
    intro H. apply bind_raises in H. destruct H as [H | [sg [_ H]]].
    - now apply segment_single_raises in H.
    - destruct sg; discriminate. }
  repeat match goal with
    | |- context [if ?c then _ else _] => destruct c
    end; discriminate.
Qed.

Lemma optimize_bid_raises (row : Row) (kpi_d7 kpi_d2nd : Q) (e : exn) :
  optimize_bid row kpi_d7 kpi_d2nd = Raise e -> e = ZeroDivisionError.
Proof.
  rewrite optimize_bid_candidate. intro H.
  apply bind_raises in H. destruct H as [H | [c [_ H]]]; [| discriminate].
  now apply candidate_raises in H.
Qed.

Lemma mapM_raises {A B : Type} (f : A -> result B) (l : list A) (e : exn) :
  (forall a e', f a = Raise e' -> e' = ZeroDivisionError) ->
  mapM f l = Raise e -> e = ZeroDivisionError.
Proof.
  intro Hf. induction l as [| a l IH]; cbn [mapM]; [discriminate |].
  intro H. apply bind_raises in H. destruct H as [H | [b [_ H]]].
  - now apply Hf in H.
  - apply bind_raises in H. destruct H as [H | [bs [_ H]]];
      [now apply IH | discriminate].
Qed.

Lemma run_optimization_raises (internal : list Row) (kpi_d7 kpi_d2nd : Q) (e : exn) :
  run_optimization internal kpi_d7 kpi_d2nd = Raise e -> e = ZeroDivisionError.
Proof.
  unfold run_optimization, add_segments. intro H.
  apply bind_raises in H. destruct H as [H | [segs [_ H]]].
  - apply mapM_raises in H; [exact H |].
    intros r e' Hr. apply bind_raises in Hr.
    destruct Hr as [Hr | [s [_ Hr]]]; [| discriminate].
    now apply segment_row_raises in Hr.
  - apply bind_raises in H. destruct H as [H | [res [_ H]]]; [| discriminate].
    apply mapM_raises in H; [exact H |].
    intros r e'. apply optimize_bid_raises.
Qed.

(** The run on a first row and the rest. *)
Lemma run_optimization_cons (r : Row) (internal : list Row) (kpi_d7 kpi_d2nd : Q) :
  forall s res lines,
    segment_row (d7_col r) (d2nd_col r) kpi_d7 kpi_d2nd = Ok s ->
    let r1 := set_segments r s (get_progression (d7_col r) (d2nd_col r)) in
    let r2 := set_roi_d7 r1 (d7_col r1) in
    let r3 := set_discard r2 (should_discard r2) in
    optimize_bid r3 kpi_d7 kpi_d2nd = Ok res ->
    run_optimization internal kpi_d7 kpi_d2nd = Ok lines ->
    run_optimization (r :: internal) kpi_d7 kpi_d2nd
    = Ok (mkLine r3 (get_daily_cap_suggestion r3) (fst res) (snd res) :: lines).
Proof.
  intros s res lines Hs r1 r2 r3 Hres Hrun.
  unfold run_optimization, add_segments in *. cbn [mapM].
  rewrite Hs. cbn [bind].
  destruct (mapM _ internal) as [segs | e]; cbn [bind] in *; [| discriminate].
  cbn [map mapM]. fold r1 r2 r3. rewrite Hres. cbn [bind].
  destruct (mapM _ (map _ (map _ segs))) as [results | e]; cbn [bind] in *;
    [| discriminate].
  inversion Hrun. reflexivity.
Qed.

Lemma run_optimization_is_mapM (internal : list Row) (kpi_d7 kpi_d2nd : Q) :
  run_optimization internal kpi_d7 kpi_d2nd
  = mapM (process_row kpi_d7 kpi_d2nd) internal.
Proof.
  induction internal as [| r internal IH]; [reflexivity |].
  cbn [mapM]. rewrite <- IH. clear IH. unfold process_row at 1.
  destruct (segment_row (d7_col r) (d2nd_col r) kpi_d7 kpi_d2nd) as [s | e] eqn:Hs;
    cbn [bind].
  - set (r1 := set_segments r s (get_progression (d7_col r) (d2nd_col r))).
    set (r2 := set_roi_d7 r1 (d7_col r1)).
    set (r3 := set_discard r2 (should_discard r2)).
    destruct (optimize_bid r3 kpi_d7 kpi_d2nd) as [res | e] eqn:Hres; cbn [bind].
    + destruct (run_optimization internal kpi_d7 kpi_d2nd) as [lines | e] eqn:Hrun;
        cbn [bind].
      * now apply run_optimization_cons.
      * pose proof (run_optimization_raises _ _ _ _ Hrun). subst e.
        destruct (run_optimization (r :: internal) kpi_d7 kpi_d2nd) as [l | e] eqn:H.
        -- exfalso. unfold run_optimization, add_segments in H, Hrun.
           cbn [mapM] in H. rewrite Hs in H. cbn [bind] in H.
           destruct (mapM _ internal) as [segs | e]; cbn [bind] in *;
             [| discriminate].
           cbn [map mapM] in H. fold r1 r2 r3 in H. rewrite Hres in H.
           cbn [bind] in H.
           destruct (mapM _ (map _ (map _ segs))); cbn [bind] in *; discriminate.
        -- now rewrite (run_optimization_raises _ _ _ _ H).
    + pose proof (optimize_bid_raises _ _ _ _ Hres). subst e.
      destruct (run_optimization (r :: internal) kpi_d7 kpi_d2nd) as [l | e] eqn:H.
      * exfalso. unfold run_optimization, add_segments in H.
        cbn [mapM] in H. rewrite Hs in H. cbn [bind] in H.
        destruct (mapM _ internal) as [segs | e]; cbn [bind] in *;
          [| discriminate].
        cbn [map mapM] in H. fold r1 r2 r3 in H. rewrite Hres in H.
        discriminate.
      * now rewrite (run_optimization_raises _ _ _ _ H).
  - pose proof (segment_row_raises _ _ _ _ _ Hs). subst e.
    unfold run_optimization, add_segments. cbn [mapM]. rewrite Hs. reflexivity.
Qed.


Lemma mapM_length {A B : Type} (f : A -> result B) (l : list A) (bs : list B) :
  mapM f l = Ok bs -> List.length bs = List.length l.
Proof.
  revert bs. induction l as [| a l IH]; intros bs H; cbn [mapM] in H.
  - inversion H. reflexivity.
  - apply bind_ok in H. destruct H as [b [_ H]].
    apply bind_ok in H. destruct H as [bs' [Hbs' H]].
    inversion H. cbn [List.length]. now rewrite (IH bs' Hbs').
Qed.


(** ** What a line of the report holds *)

Lemma process_row_line (kpi_d7 kpi_d2nd : Q) (r : Row) (line : Line) :
  process_row kpi_d7 kpi_d2nd r = Ok line ->
  optimize_bid (line_row line) kpi_d7 kpi_d2nd
    = Ok (action line, recommended_bid line) /\
  daily_cap_suggestion line = get_daily_cap_suggestion (line_row line) /\
  segment_row (d7_col r) (d2nd_col r) kpi_d7 kpi_d2nd = Ok (segment (line_row line)) /\
  discard (line_row line) = should_discard (line_row line).
Proof.
  unfold process_row. intro H.
  apply bind_ok in H. destruct H as [s [Hs H]].
  apply bind_ok in H. destruct H as [res [Hres H]].
  injection H as <-.
  cbn [line_row action recommended_bid daily_cap_suggestion].
  repeat apply conj.
  - etransitivity; [exact Hres | now destruct res].
  - reflexivity.
  - exact Hs.
  - reflexivity.
Qed.

Lemma run_optimization_lines (internal : list Row) (kpi_d7 kpi_d2nd : Q)
    (lines : list Line) :
  run_optimization internal kpi_d7 kpi_d2nd = Ok lines ->
  forall line, In line lines ->
    exists r, In r internal /\ process_row kpi_d7 kpi_d2nd r = Ok line.
Proof.
  rewrite run_optimization_is_mapM. apply mapM_In.
Qed.

(** The results of [mapM], position by position. *)
Lemma mapM_nth {A B : Type} (f : A -> result B) (l : list A) (bs : list B) :
  mapM f l = Ok bs ->
  forall n a, nth_error l n = Some a ->
              exists b, nth_error bs n = Some b /\ f a = Ok b.
Proof.
  revert bs. induction l as [| a0 l IH]; intros bs H n a Hn.
  - destruct n; discriminate.
  - cbn [mapM] in H.
    apply bind_ok in H. destruct H as [b0 [Hb0 H]].
    apply bind_ok in H. destruct H as [bs0 [Hbs0 H]].
    inversion H; subst. destruct n as [| n]; cbn [nth_error] in *.
    + inversion Hn; subst. eauto.
    + now apply (IH bs0 Hbs0 n a).
Qed.

(** C7.  [run_optimization] checks no configuration.  Whatever the two
    KPI targets, positive or not, on a table of at least one row whose
    KPIs are not negative the run does not fail: every row goes through
    the stages (segment, discard, daily cap, bid) and the run returns
    one line for each, in order. *)
Theorem run_without_validation (internal : list Row) (kpi_d7 kpi_d2nd : Q) :
  internal <> [] ->
  (forall r, In r internal -> 0 <= d7_col r /\ 0 <= d2nd_col r) ->
  exists lines,
    run_optimization internal kpi_d7 kpi_d2nd = Ok lines
    /\ List.length lines = List.length internal
    /\ forall n r, nth_error internal n = Some r ->
                   exists line, nth_error lines n = Some line
                                /\ process_row kpi_d7 kpi_d2nd r = Ok line.
Proof.
  intros _ H.
  destruct (run_optimization_total internal kpi_d7 kpi_d2nd H) as [lines [E L]].
  exists lines. repeat apply conj; [exact E | exact L |].
  rewrite run_optimization_is_mapM in E. exact (mapM_nth _ _ _ E).
Qed.

Lemma run_without_validation_witness :
  [at_floor_row; cent_floor_row] <> [] /\
  (forall r, In r [at_floor_row; cent_floor_row] ->
             0 <= d7_col r /\ 0 <= d2nd_col r) /\
  exists lines,
    run_optimization [at_floor_row; cent_floor_row] 0 (-0.05) = Ok lines
    /\ List.length lines = 2%nat.
Proof.
  assert (N : [at_floor_row; cent_floor_row] <> []) by discriminate.
  assert (H : forall r, In r [at_floor_row; cent_floor_row] ->
                        0 <= d7_col r /\ 0 <= d2nd_col r).
  { intros r [E | [E | []]]; subst; split; by_compute. }
  repeat apply conj; [exact N | exact H |].
  destruct (run_without_validation [at_floor_row; cent_floor_row] 0 (-0.05) N H)
    as [lines [E [L _]]].
  exists lines. split; [exact E | exact L].
Defined.

(** C7 as first stated fails: with the targets 0 and -0.05 the run
    raises nothing; it segments both rows green and recommends a bid
    on the second. *)
Lemma no_configuration_error_counterexample :
  ~ 0 < 0 /\ ~ 0 < -0.05 /\
  exists lines,
    run_optimization [at_floor_row; cent_floor_row] 0 (-0.05) = Ok lines /\
    map (fun l => segment (line_row l)) lines = [green; green] /\
    map action lines = [None; Some "Increase bid 15%"%string] /\
    map recommended_bid lines = [None; Some 0.59].
Proof.
  repeat apply conj; [by_compute | by_compute |].
  eexists. repeat apply conj; reflexivity.
Qed.

(** No adjustment for a discarded row or a bid at its floor, whatever
    the KPIs. *)
Lemma optimize_bid_none (row : Row) (kpi_d7 kpi_d2nd : Q) :
  discard row = true
  \/ (exists f, effectiveBidFloor row = Some f /\ bidRate row <= f) ->
  optimize_bid row kpi_d7 kpi_d2nd = Ok (None, None).
Proof.
  intro H. unfold optimize_bid.
  destruct (pct_above_total
              (weighted_score (d7_col row) (d2nd_col row) default_w_d7 default_w_d2nd)
              (kpi_target kpi_d7 kpi_d2nd default_w_d7 default_w_d2nd)) as [a Ha].
  destruct (pct_below_total
              (weighted_score (d7_col row) (d2nd_col row) default_w_d7 default_w_d2nd)
              (kpi_target kpi_d7 kpi_d2nd default_w_d7 default_w_d2nd)) as [b Hb].
  rewrite Ha, Hb. cbn [bind].
  destruct (discard row); [reflexivity |].
  destruct H as [H | [f [Hf Hle]]]; [discriminate |].
  rewrite Hf, (Qle_bool_intro _ _ Hle). reflexivity.
Qed.

Lemma clamp_notna (floor : option Q) (c : option (Q * string))
    (a : option string) (b : option Q) :
  clamp floor c = (a, b) -> notna a = notna b.
Proof.
  destruct c as [[new_bid label] |]; [rewrite clamp_some | cbn].
  - destruct floor as [f |]; [destruct (Qltb new_bid f) |];
      intro H; inversion H; reflexivity.
  - intro H. inversion H. reflexivity.
Qed.

Lemma filter_partition_length {A : Type} (f : A -> bool) (l : list A) :
  (List.length (filter f l) + List.length (filter (fun a => negb (f a)) l)
   = List.length l)%nat.
Proof.
  induction l as [| a l IH]; [reflexivity |].
  cbn [filter]. destruct (f a); cbn [negb List.length]; lia.
Qed.

Lemma filter_length_mono {A : Type} (f g : A -> bool) (l : list A) :
  (forall a, In a l -> f a = true -> g a = true) ->
  (List.length (filter f l) <= List.length (filter g l))%nat.
Proof.
  induction l as [| a l IH]; intro H; [apply le_n |].
  assert (IH' : (List.length (filter f l) <= List.length (filter g l))%nat).
  { apply IH. intros x Hx. apply H. now right. }
  cbn [filter]. destruct (f a) eqn:Ef.
  - rewrite (H a (or_introl eq_refl) Ef). cbn [List.length]. lia.
  - destruct (g a); cbn [List.length]; lia.
Qed.

(** X16.  The counts of the summary agree with the report: as many
    lines as rows given; every line is either actioned or disregarded;
    the actioned lines are exactly those with a recommended bid; and
    every discarded row is among the disregarded. *)
Theorem summary_accounting (internal : list Row) (kpi_d7 kpi_d2nd : Q)
    (lines : list Line) (excluded_count dropped_count : nat) :
  run_optimization internal kpi_d7 kpi_d2nd = Ok lines ->
  let s := summary excluded_count dropped_count lines in
  total_rows s = List.length internal /\
  (actioned s + disregarded s = total_rows s)%nat /\
  actioned s = List.length (filter (fun l => notna (recommended_bid l)) lines) /\
  (List.length (filter (fun l => discard (line_row l)) lines) <= disregarded s)%nat /\
  (daily_cap s <= total_rows s)%nat.
Proof.
  intros H s. unfold s, summary.
  cbn [total_rows actioned disregarded daily_cap].
  assert (Hline : forall line, In line lines ->
            optimize_bid (line_row line) kpi_d7 kpi_d2nd
            = Ok (action line, recommended_bid line)).
  { intros line Hl.
    destruct (run_optimization_lines _ _ _ _ H line Hl) as [r [_ Hr]].
    now apply process_row_line in Hr. }
  repeat apply conj.
  - rewrite run_optimization_is_mapM in H. now apply mapM_length in H.
  - apply filter_partition_length.
  - f_equal. apply filter_ext_in. intros line Hl.
    specialize (Hline line Hl). apply optimize_bid_ok in Hline.
    destruct Hline as [c [_ Hc]]. symmetry in Hc. now apply clamp_notna in Hc.
  - apply filter_length_mono. intros line Hl Hd.
    specialize (Hline line Hl).
    rewrite (optimize_bid_none _ _ _ (or_introl Hd)) in Hline.
    inversion Hline. reflexivity.
  - apply filter_length_le.
Qed.

Lemma summary_accounting_witness :
  run_optimization [at_floor_row; cent_floor_row] 0.10 0.05
    = Ok [ mkLine at_floor_row (Some "Add daily cap $25.00"%string) None None;
           mkLine cent_floor_row (Some "Suggest pause"%string)
                  (Some "Meet bid floor"%string) (Some 0.50) ] /\
  total_rows (summary 0 0
    [ mkLine at_floor_row (Some "Add daily cap $25.00"%string) None None;
      mkLine cent_floor_row (Some "Suggest pause"%string)
             (Some "Meet bid floor"%string) (Some 0.50) ]) = 2%nat.
Proof.
  assert (H : run_optimization [at_floor_row; cent_floor_row] 0.10 0.05
    = Ok [ mkLine at_floor_row (Some "Add daily cap $25.00"%string) None None;
           mkLine cent_floor_row (Some "Suggest pause"%string)
                  (Some "Meet bid floor"%string) (Some 0.50) ]) by reflexivity.
  split; [exact H |].
  apply (summary_accounting _ _ _ _ 0%nat 0%nat H).
Defined.

(** X17.  A daily cap is suggested only for a bid at its floor, where
    the optimizer recommends nothing: "Add daily cap" never comes with
    an action or a recommended bid.  ("Suggest pause" can.) *)
Theorem daily_cap_without_bid (row : Row) (kpi_d7 kpi_d2nd : Q) (s : string) :
  get_daily_cap_suggestion row = Some s ->
  s <> "Suggest pause"%string ->
  optimize_bid row kpi_d7 kpi_d2nd = Ok (None, None).
Proof.
  unfold get_daily_cap_suggestion. intros H Hs.
  apply optimize_bid_none. right.
  destruct (Qle_bool (spend row) 1000); [discriminate |].
  destruct (Qeq_bool (d7_col row) 0 && Qeq_bool (d2nd_col row) 0).
  { inversion H. congruence. }
  destruct (effectiveBidFloor row) as [f |]; [| discriminate].
  destruct (Qle_bool (bidRate row) f) eqn:E; [| discriminate].
  exists f. split; [reflexivity | now apply Qle_bool_iff].
Qed.

Lemma daily_cap_without_bid_witness :
  get_daily_cap_suggestion at_floor_row = Some "Add daily cap $25.00"%string /\
  "Add daily cap $25.00"%string <> "Suggest pause"%string /\
  optimize_bid at_floor_row 0.10 0.05 = Ok (None, None).
Proof.
  repeat apply conj; [reflexivity | discriminate |].
  apply (daily_cap_without_bid at_floor_row 0.10 0.05 "Add daily cap $25.00");
    [reflexivity | discriminate].
Defined.

Lemma process_row_reset (kpi_d7 kpi_d2nd : Q) (r : Row) :
  process_row kpi_d7 kpi_d2nd (reset_derived r) = process_row kpi_d7 kpi_d2nd r.
Proof. destruct r. reflexivity. Qed.

Lemma mapM_map {A B C : Type} (f : B -> result C) (g : A -> B) (l : list A) :
  mapM f (map g l) = mapM (fun a => f (g a)) l.
Proof.
  induction l as [| a l IH]; [reflexivity |].
  cbn [map mapM]. now rewrite IH.
Qed.

Lemma mapM_ext {A B : Type} (f g : A -> result B) (l : list A) :
  (forall a, f a = g a) -> mapM f l = mapM g l.
Proof.
  intro H. induction l as [| a l IH]; [reflexivity |].
  cbn [mapM]. now rewrite H, IH.
Qed.

(** X18.  The run reads none of the four derived columns of its input:
    segment, progression, the copy of the primary KPI and the discard
    flag are assigned before they are read, so blanking them in the
    input changes nothing of the report. *)
Theorem run_ignores_derived_columns (internal : list Row) (kpi_d7 kpi_d2nd : Q) :
  run_optimization (map reset_derived internal) kpi_d7 kpi_d2nd
  = run_optimization internal kpi_d7 kpi_d2nd.
Proof.
  rewrite !run_optimization_is_mapM, mapM_map.
  apply mapM_ext. intro r. apply process_row_reset.
Qed.

(** ** Rounding keeps the order *)




(** ** The shape of a candidate *)

(** Decides the tests left in the goal, then the membership. *)
Ltac pick_branch :=
  repeat match goal with
    | |- context [if ?c then _ else _] => destruct c
    end; cbn; tauto.

(** A branch computes either an increase, capped by the tier when
    there is one, or a decrease by a factor between 0 and 1; and it
    does so only for a row that is not discarded and whose bid is above
    its floor. *)
Lemma candidate_shape (row : Row) (kpi_d7 kpi_d2nd new_bid : Q) (label : string) :
  candidate row kpi_d7 kpi_d2nd = Ok (Some (new_bid, label)) ->
  let bid := bidRate row in
  let fill_rate := notna_or (fillRate row) 0 in
  discard row = false /\
  (forall f, effectiveBidFloor row = Some f -> f < bid) /\
  ((In label increase_labels /\
    match highTier row with
    | None => exists x, new_bid = round2 x
    | Some ht =>
        (ht < bid /\ fill_rate < 0.70 /\ new_bid = round2 (bid * 1.15)
         /\ label = "Increase bid 15%"%string)
        \/ (~ (ht < bid /\ fill_rate < 0.70)
            /\ exists x, new_bid = round2 (py_min x ht))
    end)
   \/ (In label decrease_labels /\
       exists factor, 0 <= factor <= 1 /\ new_bid = round2 (bid * factor))).
Proof.
  intros H bid fill_rate. unfold candidate in H. fold bid fill_rate in H.
  assert (HT : forall pct x,
             In pct [0.10; 0.15; 0.20; 0.30] ->
             Ok (Some (apply_high_tier bid (highTier row) fill_rate x pct))
             = Ok (Some (new_bid, label)) ->
             In label increase_labels /\
             match highTier row with
             | None => exists x, new_bid = round2 x
             | Some ht =>
                 (ht < bid /\ fill_rate < 0.70 /\ new_bid = round2 (bid * 1.15)
                  /\ label = "Increase bid 15%"%string)
                 \/ (~ (ht < bid /\ fill_rate < 0.70)
                     /\ exists x, new_bid = round2 (py_min x ht))
             end).
  { intros pct x Hpct E. unfold apply_high_tier in E.
    destruct (highTier row) as [ht |].
    - destruct (Qgtb bid ht && Qltb fill_rate 0.70) eqn:C.
      + inversion E; subst. split; [cbn; tauto |].
        left. reflect_Q. auto.
      + inversion E; subst. split.
        * destruct Hpct as [<- | [<- | [<- | [<- | []]]]]; vm_compute; tauto.
        * right. split; [| eauto]. intros [H1 H2].
          apply andb_false_iff in C. destruct C as [C | C]; reflect_Q; lra.
    - inversion E; subst. split; [| eauto].
      destruct Hpct as [<- | [<- | [<- | [<- | []]]]]; vm_compute; tauto. }
  destruct (pct_above _ _) as [pa |]; cbn [bind] in H; [| discriminate].
  destruct (pct_below _ _) as [pb |]; cbn [bind] in H; [| discriminate].
  destruct (discard row); [discriminate |].
  split; [reflexivity |].
  destruct (match effectiveBidFloor row with
            | Some f => Qle_bool bid f
            | None => false
            end) eqn:AF; [discriminate |].
  split.
  { intros f Hf. rewrite Hf in AF. now apply Qle_bool_false. }
  clear AF. revert H.
  destruct (Progression_eqb (progression row) good && _ && _).
  { destruct (if Qgtb (d7_col row) 0 then _ else _) as [ratio |];
      cbn [bind]; [| discriminate].
    intro H. left. apply (HT _ _) in H; [exact H | pick_branch]. }
  destruct (Progression_eqb (progression row) poor).
  { destruct (Qltb (spend row) 100); [discriminate |].
    destruct (segment_single _ _) as [sg |]; cbn [bind]; [| discriminate].
    destruct sg; intro H; inversion H; subst; right;
      (split; [cbn; tauto | exists 0.90; split; [split; by_compute | reflexivity]]). }
  destruct (Segment_eqb (segment row) green).
  { destruct (_ <? 5)%Z; [discriminate |].
    destruct (Qgtb fill_rate 0.80) eqn:F.
    - intro H. inversion H; subst. left. split; [cbn; tauto |].
      destruct (highTier row) as [ht |]; [| eauto].
      right. split; [| eauto]. intros [_ H2]. reflect_Q. lra.
    - intro H. left. apply (HT _ _) in H; [exact H | pick_branch]. }
  destruct (Segment_eqb (segment row) yellow).
  { intro H. inversion H; subst. right.
    destruct (Qle_bool pb 0.25);
      (split; [vm_compute; tauto
              | eexists; split; [| reflexivity]; split; by_compute]). }
  destruct (Segment_eqb (segment row) orange).
  { intro H. inversion H; subst. right.
    destruct (Qle_bool pb 0.75);
      (split; [vm_compute; tauto
              | eexists; split; [| reflexivity]; split; by_compute]). }
  intro H. inversion H; subst. right.
  split; [cbn; tauto | exists 0.70; split; [split; by_compute | reflexivity]].
Qed.

(** ** Labels *)



(** What [optimize_bid] returns with a bid: the candidate under its
    label, or the rounded floor under "Meet bid floor" when the
    candidate is below the floor. *)
Lemma optimize_bid_cases (row : Row) (kpi_d7 kpi_d2nd : Q)
    (a : option string) (bid : Q) :
  optimize_bid row kpi_d7 kpi_d2nd = Ok (a, Some bid) ->
  exists new_bid label,
    candidate row kpi_d7 kpi_d2nd = Ok (Some (new_bid, label)) /\
    ((a = Some label /\ bid = new_bid)
     \/ (exists f, effectiveBidFloor row = Some f /\ new_bid < f
                   /\ a = Some "Meet bid floor"%string /\ bid = round2 f)).
Proof.
  intro H. apply optimize_bid_some in H.
  destruct H as [new_bid [label [Hc Hp]]].
  exists new_bid, label. split; [exact Hc |].
  rewrite clamp_some in Hp.
  destruct (effectiveBidFloor row) as [f |].
  - destruct (Qltb new_bid f) eqn:E; inversion Hp; subst.
    + right. exists f. reflect_Q. auto.
    + left. auto.
  - inversion Hp; subst. left. auto.
Qed.

(** X19.  An action label is always one of ten: "Meet bid floor", an
    increase of 10, 15, 20 or 30 percent, or a decrease of 10, 15, 20,
    25 or 30 percent. *)
Theorem action_labels_closed (row : Row) (kpi_d7 kpi_d2nd : Q)
    (label : string) (bid : option Q) :
  optimize_bid row kpi_d7 kpi_d2nd = Ok (Some label, bid) ->
  In label ("Meet bid floor"%string :: increase_labels ++ decrease_labels).
Proof.
  intro H. destruct bid as [bid |].
  - apply optimize_bid_cases in H.
    destruct H as [new_bid [l [Hc [[Ha _] | [f [_ [_ [Ha _]]]]]]]].
    + inversion Ha; subst. right. apply in_or_app.
      destruct (candidate_shape _ _ _ _ _ Hc) as [_ [_ [[Hl _] | [Hl _]]]]; auto.
    + inversion Ha. now left.
  - apply optimize_bid_ok in H. destruct H as [c [_ Hp]].
    destruct c as [[new_bid l] |]; [| cbn in Hp; discriminate].
    rewrite clamp_some in Hp.
    destruct (effectiveBidFloor row) as [f |];
      [destruct (Qltb new_bid f) |]; discriminate.
Qed.

Lemma action_labels_closed_witness :
  optimize_bid above_tier_row 0.10 0.05
    = Ok (Some "Increase bid 15%"%string, Some 1.10) /\
  In "Increase bid 15%"%string
     ("Meet bid floor"%string :: increase_labels ++ decrease_labels).
Proof.
  split; [reflexivity |].
  apply (action_labels_closed above_tier_row 0.10 0.05 _ (Some 1.10)).
  reflexivity.
Defined.





(** ** Good progression *)

(** X22.  Good progression overrides the rest.  A row with good
    progression, a fill rate under 0.60, a positive primary KPI and a
    spend of at least 100 is never discarded, whatever its segment, its
    status and its preloads; and unless its bid is at the floor it gets
    an increase of 10 or 15 percent (or the floor), even when it is
    paused or below its target. *)
Theorem good_progression_overrides (row : Row) (kpi_d7 kpi_d2nd : Q) :
  progression row = good ->
  notna_or (fillRate row) 0 < 0.60 ->
  0 < d7_col row ->
  100 <= spend row ->
  _roi_d7 row = Some (d7_col row) ->
  should_discard row = false /\
  (discard row = false ->
   (forall f, effectiveBidFloor row = Some f -> f < bidRate row) ->
   exists label bid,
     optimize_bid row kpi_d7 kpi_d2nd = Ok (Some label, Some bid) /\
     In label ["Meet bid floor"; "Increase bid 10%"; "Increase bid 15%"]%string).
Proof.
  intros Hp Hf H7 Hs Hd. split.
  - unfold should_discard, Qgtb, Qgeb. rewrite Hp, Hd. cbn [notna_or Progression_eqb].
    rewrite (Qltb_intro _ _ Hf), (Qltb_intro _ _ H7), (Qle_bool_intro _ _ Hs).
    cbn [andb]. now destruct (_ && _).
  - intros Hdisc Hfloor. rewrite optimize_bid_candidate.
    assert (Hc : exists new_bid label,
               candidate row kpi_d7 kpi_d2nd = Ok (Some (new_bid, label))
               /\ In label ["Increase bid 10%"; "Increase bid 15%"]%string).
    { unfold candidate.
      destruct (pct_above_total
                  (weighted_score (d7_col row) (d2nd_col row) default_w_d7 default_w_d2nd)
                  (kpi_target kpi_d7 kpi_d2nd default_w_d7 default_w_d2nd)) as [a Ha].
      destruct (pct_below_total
                  (weighted_score (d7_col row) (d2nd_col row) default_w_d7 default_w_d2nd)
                  (kpi_target kpi_d7 kpi_d2nd default_w_d7 default_w_d2nd)) as [b Hb].
      rewrite Ha, Hb, Hdisc, Hp. cbn [bind Progression_eqb andb].
      assert (AF : match effectiveBidFloor row with
                   | Some f => Qle_bool (bidRate row) f
                   | None => false
                   end = false).
      { destruct (effectiveBidFloor row) as [f |]; [| reflexivity].
        apply Qle_bool_intro_false. now apply Hfloor. }
      rewrite AF. unfold Qgtb.
      rewrite (Qltb_intro _ _ Hf), (Qltb_intro _ _ H7). cbn [andb].
      rewrite py_div_ok by (intro E; lra). cbn [bind].
      unfold apply_high_tier.
      destruct (highTier row) as [ht |];
        repeat match goal with
          | |- context [if ?c then _ else _] => destruct c
          end;
        eexists; eexists; (split; [reflexivity | vm_compute; tauto]). }
    destruct Hc as [new_bid [label [Hc Hl]]]. rewrite Hc. cbn [bind].
    rewrite clamp_some.
    destruct (effectiveBidFloor row) as [f |];
      [destruct (Qltb new_bid f) |];
      eexists; eexists; (split; [reflexivity |]); cbn in Hl |- *; tauto.
Qed.

Lemma good_progression_overrides_witness :
  progression paused_improving_row = good /\
  lower (status paused_improving_row) = "paused"%string /\
  segment paused_improving_row = orange /\
  should_discard paused_improving_row = false.
Proof.
  repeat apply conj; [reflexivity | reflexivity | reflexivity |].
  refine (proj1 (good_progression_overrides paused_improving_row 0.10 0.05
                   eq_refl _ _ _ eq_refl)); by_compute.
Defined.

(** ** Better KPIs, no worse segment *)




(** ** Excluded site types *)

Lemma lower_app (a b : string) : lower (a ++ b) = (lower a ++ lower b)%string.
Proof. induction a as [| c a IH]; [reflexivity |]. cbn. now rewrite IH. Qed.

(** A lowered text cut in two is the lowering of a cut of the text. *)
Lemma lower_split (s x y : string) :
  lower s = (x ++ y)%string ->
  exists s1 s2, s = (s1 ++ s2)%string /\ lower s1 = x /\ lower s2 = y.
Proof.
  revert s. induction x as [| c x IH]; intros s H.
  - exists ""%string, s. auto.
  - destruct s as [| d s]; [discriminate |].
    cbn in H. inversion H as [[Hc Hx]].
    destruct (IH s Hx) as [s1 [s2 [E [E1 E2]]]].
    exists (String d s1), s2. subst. cbn. auto.
Qed.

Lemma match_lit_spec (p s rest : string) :
  match_lit p s = Some rest <->
  exists q, s = (q ++ rest)%string /\ lower q = lower p.
Proof.
  revert s. induction p as [| c p IH]; intro s; cbn [match_lit].
  - split.
    + intro H. inversion H. exists ""%string. auto.
    + intros [q [E L]]. destruct q; [cbn in E; now subst | discriminate].
  - destruct s as [| d s].
    + split; [discriminate |]. intros [q [E L]].
      destruct q; [discriminate | discriminate].
    + destruct (Ascii.eqb_spec (lower_ascii c) (lower_ascii d)) as [Ec | Nc].
      * rewrite IH. split.
        -- intros [q [E L]]. exists (String d q). cbn. subst. now rewrite Ec, L.
        -- intros [q [E L]]. destruct q as [| d' q]; [discriminate |].
           cbn in E, L. inversion E; subst. inversion L. now exists q.
      * split; [discriminate |]. intros [q [E L]].
        destruct q as [| d' q]; [discriminate |].
        cbn in E, L. inversion E; subst. inversion L. congruence.
Qed.

Lemma re_search_spec (r : regex) (s : string) :
  re_search r s = true <->
  exists a t, s = (a ++ t)%string /\ re_match r t <> [].
Proof.
  induction s as [| c s IH]; cbn [re_search].
  - rewrite orb_false_r. split.
    + intro H. exists ""%string, ""%string. split; [reflexivity |].
      destruct (re_match r ""); [discriminate | discriminate].
    + intros [a [t [E H]]]. destruct a; [| discriminate]. cbn in E. subst t.
      destruct (re_match r ""); [congruence | reflexivity].
  - rewrite orb_true_iff, IH. split.
    + intros [H | [a [t [E H]]]].
      * exists ""%string, (String c s). split; [reflexivity |].
        destruct (re_match r (String c s)); [discriminate | discriminate].
      * exists (String c a), t. cbn. now rewrite E.
    + intros [a [t [E H]]]. destruct a as [| c' a].
      * left. cbn in E. subst t.
        destruct (re_match r (String c s)); [congruence | reflexivity].
      * right. cbn in E. inversion E. now exists a, t.
Qed.

Lemma re_match_lit (p t : string) :
  re_match (Lit p) t <> [] <->
  exists q rest, t = (q ++ rest)%string /\ lower q = lower p.
Proof.
  cbn [re_match]. split.
  - destruct (match_lit p t) as [rest |] eqn:E; [| congruence].
    intros _. apply match_lit_spec in E. destruct E as [q [E L]]. now exists q, rest.
  - intros [q [rest [E L]]].
    rewrite (proj2 (match_lit_spec p t rest)) by now exists q.
    discriminate.
Qed.

Lemma app_not_nil {A : Type} (l l' : list A) :
  (l ++ l')%list <> [] <-> l <> [] \/ l' <> [].
Proof.
  destruct l; cbn; split; try tauto; intros; try discriminate.
  left. discriminate.
Qed.

(** The search of a literal is the substring test on lowered texts. *)
Lemma re_search_lit (p s : string) :
  re_search (Lit p) s = true <-> contains (lower p) (lower s) = true.
Proof.
  rewrite re_search_spec, contains_spec. split.
  - intros [a [t [E H]]]. apply re_match_lit in H.
    destruct H as [q [rest [Et L]]]. subst.
    exists (lower a), (lower rest). now rewrite !lower_app, L.
  - intros [a [b E]].
    apply lower_split in E. destruct E as [s1 [s2 [E [L1 E2]]]].
    apply lower_split in E2. destruct E2 as [q [rest [E2 [L2 L3]]]].
    exists s1, s2. split; [exact E |]. apply re_match_lit. now exists q, rest.
Qed.

Lemma lower_ascii_newline (c : ascii) :
  lower_ascii c = "010"%char <-> c = "010"%char.
Proof. each_ascii c; vm_compute; split; congruence. Qed.

(** OM.?Push at the start of a text. *)
Lemma re_match_om_push (t : string) :
  re_match (Seq (Lit "OM") (Seq (Opt AnyChar) (Lit "Push"))) t <> [] <->
  (exists q c q2 rest,
     t = (q ++ String c (q2 ++ rest))%string /\ c <> "010"%char
     /\ lower q = "om"%string /\ lower q2 = "push"%string)
  \/ (exists q rest, t = (q ++ rest)%string /\ lower q = "ompush"%string).
Proof.
  cbn [re_match]. split.
  - destruct (match_lit "OM" t) as [t1 |] eqn:E1; [| cbn; congruence].
    apply match_lit_spec in E1. destruct E1 as [q [Et Lq]].
    cbn [flat_map]. rewrite app_nil_r, flat_map_app.
    intro H. apply app_not_nil in H. destruct H as [H | H].
    + left. destruct t1 as [| c t2]; [cbn in H; congruence |].
      destruct (Ascii.eqb_spec c "010") as [Ec | Nc]; [cbn in H; congruence |].
      cbn [flat_map] in H. rewrite app_nil_r in H.
      destruct (match_lit "Push" t2) as [rest |] eqn:E2; [| congruence].
      apply match_lit_spec in E2. destruct E2 as [q2 [Et2 Lq2]].
      exists q, c, q2, rest. subst. auto.
    + right. cbn [flat_map] in H. rewrite app_nil_r in H.
      destruct (match_lit "Push" t1) as [rest |] eqn:E2; [| congruence].
      apply match_lit_spec in E2. destruct E2 as [q2 [Et2 Lq2]].
      exists (q ++ q2)%string, rest. subst.
      rewrite append_assoc, lower_app, Lq, Lq2. auto.
  - intros [[q [c [q2 [rest [Et [Nc [Lq Lq2]]]]]]] | [q [rest [Et Lq]]]].
    + rewrite (proj2 (match_lit_spec "OM" t (String c (q2 ++ rest))))
        by (exists q; auto).
      cbn [flat_map]. rewrite app_nil_r, flat_map_app. apply app_not_nil. left.
      destruct (Ascii.eqb_spec c "010") as [Ec | _]; [congruence |].
      cbn [flat_map]. rewrite app_nil_r.
      rewrite (proj2 (match_lit_spec "Push" (q2 ++ rest) rest))
        by (exists q2; auto).
      discriminate.
    + apply (lower_split q "om" "push") in Lq.
      destruct Lq as [q1 [q2 [Eq [L1 L2]]]]. subst q.
      rewrite append_assoc in Et.
      rewrite (proj2 (match_lit_spec "OM" t (q2 ++ rest))) by (exists q1; auto).
      cbn [flat_map]. rewrite app_nil_r, flat_map_app. apply app_not_nil. right.
      cbn [flat_map]. rewrite app_nil_r.
      rewrite (proj2 (match_lit_spec "Push" (q2 ++ rest) rest))
        by (exists q2; auto).
      discriminate.
Qed.

(** Where OM_PUSH matches, OM.?Push matches. *)
Lemma om_push_absorbed (t : string) :
  re_match (Lit "OM_PUSH") t <> [] ->
  re_match (Seq (Lit "OM") (Seq (Opt AnyChar) (Lit "Push"))) t <> [].
Proof.
  intro H. apply re_match_lit in H. destruct H as [q [rest [Et Lq]]].
  apply re_match_om_push. left.
  change (lower "OM_PUSH") with ("om" ++ String "_" "push")%string in Lq.
  apply lower_split in Lq. destruct Lq as [q1 [q' [Eq [L1 L']]]].
  destruct q' as [| c q2]; [discriminate |].
  cbn in L'. inversion L' as [[Lc L2]].
  exists q1, c, q2, rest. subst. rewrite append_assoc. cbn.
  repeat apply conj; auto.
  intro Ec. subst c. discriminate.
Qed.

(** X24.  What the exclusion pattern means on an ASCII text, letter
    case apart: the text contains "notif", or "ompush", or "om" and
    "push" with exactly one character other than a newline between
    them. *)
Theorem excluded_pattern_meaning (s : string) :
  is_ascii s = true ->
  (re_search EXCLUDED_SITE_PATTERNS s = true <->
   contains "notif" (lower s) = true
   \/ contains "ompush" (lower s) = true
   \/ exists c, c <> "010"%char
                /\ contains ("om" ++ String c "push") (lower s) = true).
Proof.
  intros _. split.
  - intro H. apply re_search_spec in H. destruct H as [a [t [Es H]]].
    unfold EXCLUDED_SITE_PATTERNS in H. cbn [re_match] in H.
    apply app_not_nil in H.
    assert (Hgap : forall q c q2 rest,
               t = (q ++ String c (q2 ++ rest))%string -> c <> "010"%char ->
               lower q = "om"%string -> lower q2 = "push"%string ->
               exists c', c' <> "010"%char
                 /\ contains ("om" ++ String c' "push") (lower s) = true).
    { intros q c q2 rest Et Nc Lq Lq2. exists (lower_ascii c). split.
      - intro E. apply Nc. now apply (proj1 (lower_ascii_newline c)).
      - apply contains_spec. exists (lower a), (lower rest).
        subst. rewrite !lower_app. cbn [lower]. rewrite lower_app, Lq, Lq2.
        reflexivity. }
    destruct H as [H | H].
    + apply (re_match_om_push t) in H.
      destruct H as [[q [c [q2 [rest [Et [Nc [Lq Lq2]]]]]]] | [q [rest [Et Lq]]]].
      * right. right. now apply (Hgap q c q2 rest).
      * right. left. apply contains_spec. exists (lower a), (lower rest).
        subst. now rewrite !lower_app, Lq.
    + apply app_not_nil in H. destruct H as [H | H].
      * apply om_push_absorbed, re_match_om_push in H.
        destruct H as [[q [c [q2 [rest [Et [Nc [Lq Lq2]]]]]]] | [q [rest [Et Lq]]]].
        -- right. right. now apply (Hgap q c q2 rest).
        -- right. left. apply contains_spec. exists (lower a), (lower rest).
           subst. now rewrite !lower_app, Lq.
      * left. apply (re_search_lit "Notif"). apply re_search_spec.
        now exists a, t.
  - intros [H | [H | [c [Nc H]]]].
    + apply (re_search_lit "Notif") in H. apply re_search_spec in H.
      destruct H as [a [t [Es H]]]. apply re_search_spec. exists a, t.
      split; [exact Es |]. unfold EXCLUDED_SITE_PATTERNS. cbn [re_match].
      apply app_not_nil. right. apply app_not_nil. now right.
    + apply contains_spec in H. destruct H as [a [b E]].
      apply lower_split in E. destruct E as [s1 [s2 [Es [L1 E2]]]].
      apply lower_split in E2. destruct E2 as [q [rest [E2 [Lq Lr]]]].
      apply re_search_spec. exists s1, s2. split; [exact Es |].
      unfold EXCLUDED_SITE_PATTERNS.
      change (re_match (Alt ?r1 ?r2) s2) with (re_match r1 s2 ++ re_match r2 s2)%list.
      apply app_not_nil. left. apply re_match_om_push. right. now exists q, rest.
    + apply contains_spec in H. destruct H as [a [b E]].
      apply lower_split in E. destruct E as [s1 [s2 [Es [L1 E2]]]].
      apply lower_split in E2. destruct E2 as [q [rest [E2 [Lq Lr]]]].
      apply (lower_split q "om" (String c "push")) in Lq.
      destruct Lq as [q1 [q' [Eq [Lq1 Lq']]]].
      destruct q' as [| c0 q2]; [discriminate |].
      cbn in Lq'. inversion Lq' as [[Lc Lq2]].
      apply re_search_spec. exists s1, s2. split; [exact Es |].
      unfold EXCLUDED_SITE_PATTERNS.
      change (re_match (Alt ?r1 ?r2) s2) with (re_match r1 s2 ++ re_match r2 s2)%list.
      apply app_not_nil. left. apply re_match_om_push. left.
      exists q1, c0, q2, rest. subst. rewrite append_assoc. cbn.
      repeat apply conj; auto.
      intro E. subst c0. apply Nc. reflexivity.
Qed.

Lemma excluded_pattern_meaning_witness :
  is_ascii "Partner OM-Push feed" = true /\
  re_search EXCLUDED_SITE_PATTERNS "Partner OM-Push feed" = true.
Proof.
  split; [reflexivity |].
  apply (excluded_pattern_meaning "Partner OM-Push feed"); [reflexivity |].
  right. right. exists "-"%char. split; [discriminate | reflexivity].
Defined.

(** X25.  The alternative OM_PUSH of the pattern excludes nothing that
    OM.?Push does not: the pattern finds what 'OM.?Push|Notif' finds. *)
Theorem om_push_alternative_redundant (s : string) :
  re_search EXCLUDED_SITE_PATTERNS s
  = re_search (Alt (Seq (Lit "OM") (Seq (Opt AnyChar) (Lit "Push"))) (Lit "Notif")) s.
Proof.
  apply eq_true_iff_eq. rewrite !re_search_spec.
  split; intros [a [t [Es H]]]; exists a, t; (split; [exact Es |]);
    unfold EXCLUDED_SITE_PATTERNS in *;
    change (re_match (Alt ?r1 ?r2) t) with (re_match r1 t ++ re_match r2 t)%list in *;
    apply app_not_nil; apply app_not_nil in H.
  - destruct H as [H | H]; [now left |].
    change (re_match (Alt ?r1 ?r2) t) with (re_match r1 t ++ re_match r2 t)%list in H.
    apply app_not_nil in H. destruct H as [H | H];
      [left; now apply om_push_absorbed | now right].
  - destruct H as [H | H]; [now left | right].
    change (re_match (Alt ?r1 ?r2) t) with (re_match r1 t ++ re_match r2 t)%list.
    apply app_not_nil. now right.
Qed.

(** X26.  On a table of ASCII names, [exclude_site_types] fails, with
    an [AttributeError] and nothing else, exactly when the table has
    rows and one of its two name columns holds no text in any of them.
    Otherwise it accounts for every row: the rows kept and the count
    excluded add up to the rows given, and a row is kept exactly when
    neither its site name nor its campaign name matches (a null name
    never matches). *)
Theorem exclude_site_types_accounting (df : list Site) :
  forallb ascii_names df = true ->
  (exclude_site_types df = Raise AttributeError <->
   df <> [] /\ (existsb notna (map site_siteName df) = false
                \/ existsb notna (map site_campaignName df) = false)) /\
  (forall e, exclude_site_types df = Raise e -> e = AttributeError) /\
  (forall kept excluded,
     exclude_site_types df = Ok (kept, excluded) ->
     (List.length kept + excluded = List.length df)%nat /\
     (forall r, In r kept <->
                In r df /\ str_contains_excluded (site_siteName r) = false
                /\ str_contains_excluded (site_campaignName r) = false)).
Proof.
  intros _.
  assert (Hok : forall kept excluded,
    Ok (filter (fun r => negb (str_contains_excluded (site_siteName r)
                               || str_contains_excluded (site_campaignName r))) df,
        List.length (filter (fun r => str_contains_excluded (site_siteName r)
                               || str_contains_excluded (site_campaignName r)) df))
    = Ok (kept, excluded) ->
    (List.length kept + excluded = List.length df)%nat /\
    (forall r, In r kept <->
               In r df /\ str_contains_excluded (site_siteName r) = false
               /\ str_contains_excluded (site_campaignName r) = false)).
  { intros kept excluded E. inversion E. split.
    - rewrite Nat.add_comm. apply filter_partition_length.
    - intro r. rewrite filter_In, negb_true_iff, orb_false_iff. reflexivity. }
  unfold exclude_site_types, str_accessor.
  destruct df as [| r0 df'].
  { cbn [map bind]. split; [| split].
    - split; [discriminate | intros [N _]; now elim N].
    - discriminate.
    - exact Hok. }
  cbn [map].
  destruct (existsb notna (site_siteName r0 :: map site_siteName df')) eqn:S;
    destruct (existsb notna (site_campaignName r0 :: map site_campaignName df')) eqn:C;
    cbn [bind]; (split; [| split]);
    try exact Hok; try discriminate;
    try (intros e E; now inversion E);
    try (split; [discriminate | intros [_ [N | N]]; discriminate]);
    (split; [intros _; split; [discriminate | auto] | reflexivity]).
Qed.

Lemma exclude_site_types_accounting_witness :
  forallb ascii_names
    [mkSite (Some "OM Push US"%string) (Some "Summer"%string);
     mkSite (Some "Store Feed"%string) None;
     mkSite None (Some "App notifications"%string)] = true /\
  exclude_site_types
    [mkSite (Some "OM Push US"%string) (Some "Summer"%string);
     mkSite (Some "Store Feed"%string) None;
     mkSite None (Some "App notifications"%string)]
  = Ok ([mkSite (Some "Store Feed"%string) None], 2%nat) /\
  (1 + 2 = 3)%nat /\
  exclude_site_types [mkSite None (Some "Summer"%string)]
  = Raise AttributeError.
Proof.
  assert (E : exclude_site_types
    [mkSite (Some "OM Push US"%string) (Some "Summer"%string);
     mkSite (Some "Store Feed"%string) None;
     mkSite None (Some "App notifications"%string)]
  = Ok ([mkSite (Some "Store Feed"%string) None], 2%nat)) by reflexivity.
  repeat apply conj.
  - reflexivity.
  - exact E.
  - destruct (exclude_site_types_accounting
               [mkSite (Some "OM Push US"%string) (Some "Summer"%string);
                mkSite (Some "Store Feed"%string) None;
                mkSite None (Some "App notifications"%string)] eq_refl)
      as [_ [_ K]].
    exact (proj1 (K _ _ E)).
  - apply (exclude_site_types_accounting
             [mkSite None (Some "Summer"%string)] eq_refl).
    split; [discriminate | left; reflexivity].
Defined.
